(** * IMS automation: extraction and write-back of maintenance checklists

    A shallow embedding of the checklist extraction
    ([src/core/excel_processor.py]) and of the period-aware write-back
    ([src/ui/task_completion.py]), together with the properties the
    specification states about them.

    Conventions.  Python [str] values are modelled as [string] (one byte per
    character, so the development speaks about ASCII text); Python [int]
    values as [Z]; a raised exception as [None] in the [option] monad; a
    Python object that is mutated in place (worksheet, workbook) as a value
    threaded through the functions that mutate it. *)

From Stdlib Require Import ZArith List String Ascii Bool Lia Sorted.
From Stdlib Require Import DecimalString DecimalPos DecimalZ.
From stdpp Require Import gmap strings list fin_maps.

Local Open Scope string_scope.
Local Open Scope Z_scope.
Local Open Scope list_scope.

(** ** Python built-ins on text *)

Module Py.

(** [str.isspace] on one ASCII character: TAB, LF, VT, FF, CR, the four
    separators FS GS RS US, and the blank. *)
Definition isspace (c : ascii) : bool :=
  let n := nat_of_ascii c in
  ((9 <=? n) && (n <=? 13) || (28 <=? n) && (n <=? 32))%nat.

Definition isupper (c : ascii) : bool :=
  let n := nat_of_ascii c in ((65 <=? n) && (n <=? 90))%nat.

Definition islower (c : ascii) : bool :=
  let n := nat_of_ascii c in ((97 <=? n) && (n <=? 122))%nat.

Definition isalpha (c : ascii) : bool := isupper c || islower c.

Definition isdigit (c : ascii) : bool :=
  let n := nat_of_ascii c in ((48 <=? n) && (n <=? 57))%nat.

Definition upper_char (c : ascii) : ascii :=
  if islower c then ascii_of_nat (nat_of_ascii c - 32) else c.

Definition lower_char (c : ascii) : ascii :=
  if isupper c then ascii_of_nat (nat_of_ascii c + 32) else c.

Fixpoint smap (f : ascii -> ascii) (s : string) : string :=
  match s with
  | EmptyString => EmptyString
  | String c s' => String (f c) (smap f s')
  end.

(** [s.upper()] and [s.lower()]. *)
Definition upper : string -> string := smap upper_char.
Definition lower : string -> string := smap lower_char.

(** [''.join(filter(p, s))]. *)
Fixpoint sfilter (p : ascii -> bool) (s : string) : string :=
  match s with
  | EmptyString => EmptyString
  | String c s' => if p c then String c (sfilter p s') else sfilter p s'
  end.

(** [s[n:]] for a non-negative literal [n]. *)
Fixpoint drop (n : nat) (s : string) : string :=
  match n, s with
  | O, _ => s
  | S _, EmptyString => EmptyString
  | S n', String _ s' => drop n' s'
  end.

(** [s.split()]: the maximal runs of non-blank characters, in order.  A
    non-blank character either closes its run (end of text or a blank
    follows) or is put in front of the run that starts right after it. *)
Fixpoint split (s : string) : list string :=
  match s with
  | EmptyString => []
  | String c s' =>
      if isspace c then split s'
      else match s' with
           | EmptyString => [String c EmptyString]
           | String c' _ =>
               if isspace c' then String c EmptyString :: split s'
               else match split s' with
                    | w :: ws => String c w :: ws
                    | [] => [String c EmptyString]
                    end
           end
  end.

(** [sep.join(l)]. *)
Fixpoint join (sep : string) (l : list string) : string :=
  match l with
  | [] => EmptyString
  | [w] => w
  | w :: ws => w +:+ sep +:+ join sep ws
  end.

Fixpoint lstrip (s : string) : string :=
  match s with
  | EmptyString => EmptyString
  | String c s' => if isspace c then lstrip s' else s
  end.

Fixpoint rstrip (s : string) : string :=
  match s with
  | EmptyString => EmptyString
  | String c s' =>
      match rstrip s' with
      | EmptyString => if isspace c then EmptyString else String c EmptyString
      | r => String c r
      end
  end.

(** [s.strip()]. *)
Definition strip (s : string) : string := rstrip (lstrip s).

(** [l[:-n]] on a list: everything but the last [n] items (nothing when
    the list is shorter than [n]). *)
Definition but_last {A} (n : nat) (l : list A) : list A :=
  firstn (length l - n) l.

(** [l[-n]] for [n >= 1]: [None] stands for [IndexError]. *)
Definition from_end {A} (n : nat) (l : list A) : option A :=
  if (n <=? length l)%nat then l !! (length l - n)%nat else None.

(** [s[0]]: [None] stands for [IndexError]. *)
Definition first_char (s : string) : option ascii :=
  match s with
  | EmptyString => None
  | String c _ => Some c
  end.

(** The body of a decimal literal accepted by [int]: digits, where single
    underscores may separate digits. *)
Fixpoint literal_body (prev_digit : bool) (s : string) : bool :=
  match s with
  | EmptyString => prev_digit
  | String c s' =>
      if isdigit c then literal_body true s'
      else if Ascii.eqb c "_" then prev_digit && literal_body false s'
      else false
  end.

Definition unsigned_int (s : string) : option Z :=
  if literal_body false s
  then Z.of_uint <$> NilZero.uint_of_string (sfilter isdigit s)
  else None.

(** [int(s)] for a text without surrounding blanks: an optional sign and a
    decimal literal; [None] stands for [ValueError].  A numeral is read
    whatever its length: the interpreter's cap on the number of digits (4300
    unless configured otherwise) is left out. *)
Definition int (s : string) : option Z :=
  match s with
  | String "+" s' => unsigned_int s'
  | String "-" s' => Z.opp <$> unsigned_int s'
  | _ => unsigned_int s
  end.

(** Cell contents as openpyxl hands them out: blank, text, integer and
    boolean, and any other object (a float, a date, a time, a duration), of
    which the program uses nothing but its truth value and its [str]: the
    float 0.0 is [VOther false "0.0"]. *)
Inductive value :=
| VNone
| VStr (s : string)
| VInt (n : Z)
| VBool (b : bool)
| VOther (truth : bool) (text : string).

(** Truth value of an object in a condition ([if v], [not v]). *)
Definition truthy (v : value) : bool :=
  match v with
  | VNone => false
  | VStr s => negb (String.eqb s "")
  | VInt n => negb (n =? 0)
  | VBool b => b
  | VOther truth _ => truth
  end.

(** [str(v)]. *)
Definition str (v : value) : string :=
  match v with
  | VNone => "None"
  | VStr s => s
  | VInt n => NilZero.string_of_int (Z.to_int n)
  | VBool true => "True"
  | VBool false => "False"
  | VOther _ text => text
  end.

End Py.

(** ** The spreadsheet library (openpyxl), as far as the program uses it *)

(** A merged region ([CellRange]): its corner rows and columns. *)
Record cell_range := CellRange {
  min_row : Z;
  min_col : Z;
  max_row : Z;
  max_col : Z
}.

(** A worksheet of the workbook that is rewritten: the cell values by
    (row, column), the merged regions in the order [merged_cells.ranges]
    lists them, and the last row in use.  A cell object is identified with
    its position.  The last row is the one the reset pass reads, before any
    cell is written: an assignment moves it; that the library also counts a
    cell as in use once it has been looked up is left out, no function reads
    the last row after a lookup below it. *)
Record worksheet := Worksheet {
  cells : gmap (Z * Z) Py.value;
  merged_cells : list cell_range;
  ws_max_row : Z
}.

Definition in_range (mr : cell_range) (row col : Z) : bool :=
  (min_row mr <=? row) && (row <=? max_row mr) &&
  (min_col mr <=? col) && (col <=? max_col mr).

Definition is_anchor (mr : cell_range) (row col : Z) : bool :=
  (row =? min_row mr) && (col =? min_col mr).

(** [isinstance(cell, MergedCell)]: the library represents every member of
    a merged region except its top-left cell by a read-only [MergedCell]. *)
Definition is_merged_cell (ws : worksheet) (row col : Z) : bool :=
  existsb (fun mr => in_range mr row col && negb (is_anchor mr row col))
          (merged_cells ws).

(** The last row a worksheet can hold. *)
Definition MAX_ROW : Z := 1048576.

(** [worksheet.cell(row, column)]: [None] stands for the [ValueError] the
    library raises below row 1 or column 1 and above row 1048576. *)
Definition ws_cell (row col : Z) : option (Z * Z) :=
  if (row <? 1) || (col <? 1) || (MAX_ROW <? row) then None else Some (row, col).

(** [cell.value], read: a cell never written and a [MergedCell] hold
    [None]. *)
Definition cell_value (ws : worksheet) (pos : Z * Z) : Py.value :=
  if is_merged_cell ws pos.1 pos.2 then Py.VNone
  else default Py.VNone (cells ws !! pos).

(** [cell.value = v]: [None] stands for the [AttributeError] raised by a
    read-only [MergedCell]; a write below the last row extends the sheet.
    The library stores a text as it stands when the text passes its check
    ([legal_text] below); the setter is modelled on such texts. *)
Definition set_value (ws : worksheet) (pos : Z * Z) (v : Py.value) : option worksheet :=
  if is_merged_cell ws pos.1 pos.2 then None
  else Some {| cells := <[pos := v]> (cells ws);
               merged_cells := merged_cells ws;
               ws_max_row := Z.max (ws_max_row ws) pos.1 |}.

Definition letter_val (c : ascii) : Z :=
  Z.of_nat (nat_of_ascii (Py.upper_char c)) - 64.

Fixpoint letters_acc (acc : Z) (s : string) : Z :=
  match s with
  | EmptyString => acc
  | String c s' => letters_acc (26 * acc + letter_val c) s'
  end.

Fixpoint sforallb (p : ascii -> bool) (s : string) : bool :=
  match s with
  | EmptyString => true
  | String c s' => p c && sforallb p s'
  end.

(** [openpyxl.utils.column_index_from_string]: one to three letters of
    either case, read in base 26 from "A" = 1 to "ZZZ" = 18278; [None]
    stands for [ValueError]. *)
Definition column_index_from_string (s : string) : option Z :=
  if (1 <=? String.length s)%nat && (String.length s <=? 3)%nat && sforallb Py.isalpha s
  then Some (letters_acc 0 s) else None.

Definition letter_of (d : Z) : ascii := ascii_of_nat (Z.to_nat (64 + d)).

(** [openpyxl.utils.get_column_letter] for columns 1 to 18278; [None]
    stands for [ValueError]. *)
Definition get_column_letter (n : Z) : option string :=
  if (n <? 1) || (18278 <? n) then None
  else if n <=? 26 then Some (String (letter_of n) EmptyString)
  else
    let q := (n - 1) / 26 in
    let r := (n - 1) mod 26 + 1 in
    if q <=? 26 then Some (String (letter_of q) (String (letter_of r) EmptyString))
    else
      let q2 := (q - 1) / 26 in
      let r2 := (q - 1) mod 26 + 1 in
      Some (String (letter_of q2) (String (letter_of r2) (String (letter_of r) EmptyString))).

(** The library's check of a text that is written to a cell
    ([check_string]): a text of more than 32767 characters is cut, and one
    of the control characters 0 to 8, 11, 12 and 14 to 31 raises
    [IllegalCharacterError].  A legal text is stored as it stands. *)
Definition illegal_char (c : ascii) : bool :=
  let n := nat_of_ascii c in
  (n <=? 8)%nat || (11 <=? n)%nat && (n <=? 12)%nat || (14 <=? n)%nat && (n <=? 31)%nat.

Definition legal_text (s : string) : bool :=
  (Z.of_nat (String.length s) <=? 32767) && sforallb (fun c => negb (illegal_char c)) s.

(** ** Configuration (config/settings.py) *)

Definition INPUT_HEADERS : list string :=
  [ "Date Inspected by who?"; "OK"; "OK?"; "Date Inspected by who";
    "What to look for:"; "What to look for?" ].

Definition CATEGORY_COLOR : string := "FFFFFF00".

Definition DEFAULT_VALUE : string := "no input".

(** ** Data model (core/data_models.py) *)

(** A [dict] from text to text keeps its keys in insertion order: an
    association list, updated in place when the key is present. *)
Fixpoint dict_set (d : list (string * string)) (k v : string) : list (string * string) :=
  match d with
  | [] => [(k, v)]
  | (k', v') :: d' =>
      if String.eqb k k' then (k, v) :: d' else (k', v') :: dict_set d' k v
  end.

Definition keys (d : list (string * string)) : list string := map fst d.

(** [d[k]] as a lookup; [None] when the key is absent. *)
Fixpoint dict_get (d : list (string * string)) (k : string) : option string :=
  match d with
  | [] => None
  | (k', v) :: d' => if String.eqb k k' then Some v else dict_get d' k
  end.

Record Task := mkTask {
  task_name : string;
  description : string;
  inputs : list (string * string)
}.

Record Category := mkCategory {
  category_name : string;
  tasks : list Task
}.

Record SheetData := mkSheetData {
  sheet_name : string;
  categories : list Category
}.

(** A loop whose body may raise: the state after the last item, or [None]
    as soon as one iteration raises. *)
Fixpoint for_each {S A} (body : S -> A -> option S) (s : S) (l : list A) : option S :=
  match l with
  | [] => Some s
  | a :: l' =>
      match body s a with
      | Some s' => for_each body s' l'
      | None => None
      end
  end.

(** [sorted(l)] on texts: ascending by character code. *)
Fixpoint insert_sorted (x : string) (l : list string) : list string :=
  match l with
  | [] => [x]
  | y :: l' => if String.leb x y then x :: l else y :: insert_sorted x l'
  end.

Definition sorted (l : list string) : list string := foldr insert_sorted [] l.


(** ** Extraction (core/excel_processor.py) *)

(** A cell as a row of [iter_rows] presents it: its content, the colour
    index of its fill, whether its font is bold, and its position. *)
Record Cell := mkCell {
  value : Py.value;
  fill_index : string;
  bold : bool;
  row : Z;
  column : Z
}.

Fixpoint insert_uniq (x : Z) (l : list Z) : list Z :=
  match l with
  | [] => [x]
  | y :: l' =>
      if x <? y then x :: l
      else if x =? y then l
      else y :: insert_uniq x l'
  end.

(** [sorted(set(l))] on integers. *)
Definition sorted_set (l : list Z) : list Z := foldr insert_uniq [] l.

(** [cell.value in INPUT_HEADERS]: only a text can equal a header. *)
Definition is_input_header (v : Py.value) : bool :=
  match v with
  | Py.VStr s => existsb (String.eqb s) INPUT_HEADERS
  | _ => false
  end.

(** [_find_input_columns]: of the rows of the sheet, the scan
    [iter_rows(max_row=10)] reads the first ten. *)
Definition _find_input_columns (rows : list (list Cell)) : list Z :=
  sorted_set
    (flat_map (fun r =>
       flat_map (fun cell =>
         if is_input_header (value cell) && (1 <? column cell)
         then [column cell] else []) r)
     (firstn 10 rows)).

(** [row[i]] for [i >= 0]; [None] stands for [IndexError]. *)
Definition row_at (r : list Cell) (i : Z) : option Cell :=
  if i <? 0 then None else r !! Z.to_nat i.

Definition slot_value (v : Py.value) : string :=
  if Py.truthy v then Py.str v else DEFAULT_VALUE.

(** [_get_input_values]: one entry per input column, keyed by the
    coordinate of the cell found there. *)
Definition _get_input_values (input_cols : list Z) (r : list Cell) : option (list (string * string)) :=
  for_each (fun values col =>
      cell ← row_at r (col - 1);
      letter ← get_column_letter (column cell);
      let coord := letter +:+ Py.str (Py.VInt (row cell)) in
      Some (dict_set values coord (slot_value (value cell))))
    [] input_cols.

(** The state of the row loop of [_process_worksheet]: the categories
    already appended to the sheet, and the category being filled. *)
Record parse_state := mkParse {
  closed : list Category;
  current_category : option Category
}.

Definition add_description (t : Task) (cell_value : string) : Task :=
  if negb (String.eqb (description t) "")
  then mkTask (task_name t) (description t +:+ " " +:+ cell_value) (inputs t)
  else mkTask (task_name t) cell_value (inputs t).

(** [l[-1] = f(l[-1])], on a list known to be non-empty. *)
Fixpoint update_last {A} (f : A -> A) (l : list A) : list A :=
  match l with
  | [] => []
  | [a] => [f a]
  | a :: l' => a :: update_last f l'
  end.

(** One iteration of the row loop. *)
Definition process_row (input_cols : list Z) (st : parse_state) (r : list Cell) : option parse_state :=
  first_cell ← row_at r 0;
  if negb (Py.truthy (value first_cell)) then Some st
  else
    let cell_value := Py.strip (Py.str (value first_cell)) in
    if String.eqb (fill_index first_cell) CATEGORY_COLOR && bold first_cell then
      Some (mkParse
              (match current_category st with
               | Some c => closed st ++ [c]
               | None => closed st
               end)
              (Some (mkCategory cell_value [])))
    else if bold first_cell then
      match current_category st with
      | Some c =>
          values ← _get_input_values input_cols r;
          Some (mkParse (closed st)
                  (Some (mkCategory (category_name c)
                           (tasks c ++ [mkTask cell_value "" values]))))
      | None => Some st
      end
    else
      match current_category st with
      | Some c =>
          match tasks c with
          | [] => Some st
          | _ :: _ =>
              Some (mkParse (closed st)
                      (Some (mkCategory (category_name c)
                               (update_last (fun t => add_description t cell_value) (tasks c)))))
          end
      | None => Some st
      end.

(** [_process_worksheet], for the worksheet at 1-based position
    [sheet_number] whose [iter_rows()] yields [rows]. *)
Definition _process_worksheet (sheet_number : Z) (rows : list (list Cell)) : option SheetData :=
  let input_cols := _find_input_columns rows in
  st ← for_each (process_row input_cols) (mkParse [] None) rows;
  Some (mkSheetData ("Sheet " +:+ Py.str (Py.VInt sheet_number))
          (match current_category st with
           | Some c => closed st ++ [c]
           | None => closed st
           end)).

(** ** Write-back (ui/task_completion.py) *)

(** What the user selected: the content of the five [StringVar]s the
    write-back reads. *)
Record selection := mkSelection {
  initials : string;
  selected_day : string;
  selected_month : string;
  selected_year : string;
  task_status : string
}.

(** The column letters and the row number of a reference such as "B10",
    as [_get_unmerged_cell] takes them apart. *)
Definition split_ref (cell_ref : string) : option (Z * Z) :=
  let column_letter := Py.sfilter Py.isalpha cell_ref in
  row_number ← Py.int (Py.sfilter Py.isdigit cell_ref);
  column ← column_index_from_string column_letter;
  Some (row_number, column).

(** [_get_unmerged_cell]: the cell to write to for a reference; [None] is
    the value returned after any exception. *)
Definition _get_unmerged_cell (ws : worksheet) (cell_ref : string) : option (Z * Z) :=
  '(row_number, column) ← split_ref cell_ref;
  match find (fun mr => in_range mr row_number column) (merged_cells ws) with
  | Some mr => ws_cell (min_row mr) (min_col mr)
  | None => ws_cell row_number column
  end.

(** The test [cell and not cell.value] of the scan. *)
Definition is_empty_slot (ws : worksheet) (cell_ref : string) : bool :=
  match _get_unmerged_cell ws cell_ref with
  | Some cell => negb (Py.truthy (cell_value ws cell))
  | None => false
  end.

(** The loop of [_find_next_empty_columns]: [inl] is the list returned
    from inside the loop, [inr] the list held when the loop runs out. *)
Fixpoint scan_empty (ws : worksheet) (input_cells empty_columns : list string)
  : list string + list string :=
  match input_cells with
  | [] => inr empty_columns
  | cell_ref :: rest =>
      if is_empty_slot ws cell_ref then
        let empty_columns' := empty_columns ++ [cell_ref] in
        if (length empty_columns' =? 2)%nat then inl empty_columns'
        else scan_empty ws rest empty_columns'
      else scan_empty ws rest empty_columns
  end.

Definition _find_next_empty_columns (ws : worksheet) (task : Task) : list string :=
  let input_cells := sorted (keys (inputs task)) in
  match scan_empty ws input_cells [] with
  | inl empty_columns => empty_columns
  | inr [] => firstn 2 input_cells
  | inr empty_columns => empty_columns
  end.

(** The text written to the first target. *)
Definition date_str (sel : selection) : string :=
  Py.upper (initials sel) +:+ " " +:+ selected_day sel +:+ " " +:+
  Py.upper (selected_month sel) +:+ " " +:+ Py.drop 2 (selected_year sel).

(** Both texts of a write-back pass the library's check. *)
Definition legal_selection (sel : selection) : bool :=
  legal_text (date_str sel) && legal_text (Py.upper (task_status sel)).

(** The test that skips a comment task. *)
Definition is_comment_task (task : Task) : bool :=
  String.eqb (Py.strip (Py.lower (task_name task))) "comments:".

(** [cell = self._get_unmerged_cell(ws, ref); if cell: cell.value = v]. *)
Definition write_ref (ws : worksheet) (cell_ref : string) (v : string) : option worksheet :=
  match _get_unmerged_cell ws cell_ref with
  | Some cell => set_value ws cell (Py.VStr v)
  | None => Some ws
  end.

(** The two writes both write functions perform once they hold at least
    two target references. *)
Definition write_pair (sel : selection) (ws : worksheet) (targets : list string) : option worksheet :=
  match targets with
  | first :: second :: _ =>
      ws' ← write_ref ws first (date_str sel);
      write_ref ws' second (Py.upper (task_status sel))
  | _ => Some ws
  end.

Definition write_new_task (sel : selection) (ws : worksheet) (task : Task) : option worksheet :=
  if is_comment_task task then Some ws
  else write_pair sel ws (sorted (keys (inputs task))).

Definition write_same_task (sel : selection) (ws : worksheet) (task : Task) : option worksheet :=
  if is_comment_task task then Some ws
  else write_pair sel ws (_find_next_empty_columns ws task).

Definition all_tasks (sheet_data : SheetData) : list Task :=
  flat_map tasks (categories sheet_data).

(** [_write_new_month_data]: [None] stands for the exception it logs and
    raises again. *)
Definition _write_new_month_data (sel : selection) (ws : worksheet) (sheet_data : SheetData)
  : option worksheet :=
  for_each (fun ws category => for_each (write_new_task sel) ws (tasks category))
           ws (categories sheet_data).

(** [_write_same_month_data]. *)
Definition _write_same_month_data (sel : selection) (ws : worksheet) (sheet_data : SheetData)
  : option worksheet :=
  for_each (fun ws category => for_each (write_same_task sel) ws (tasks category))
           ws (categories sheet_data).

(** [self.data[0]['categories'][0]['tasks']]; [None] stands for
    [IndexError]. *)
Definition first_category_tasks (data : list SheetData) : option (list Task) :=
  sheet ← data !! 0%nat;
  category ← categories sheet !! 0%nat;
  Some (tasks category).

(** The [set] of first characters of all input references of the given
    tasks; [None] stands for the [IndexError] of an empty reference. *)
Definition column_letters (ts : list Task) : option (gset ascii) :=
  for_each (fun acc task =>
      for_each (fun acc cell_ref =>
          c ← Py.first_char cell_ref;
          Some ({[c]} ∪ acc))
        acc (keys (inputs task)))
    (∅ : gset ascii) ts.

(** The body of the row loop of the reset pass. *)
Definition clear_cell (col_idx : Z) (ws : worksheet) (row : Z) : option worksheet :=
  if (row <? 1) || (col_idx <? 1) then Some ws
  else
    cell ← ws_cell row col_idx;
    if is_merged_cell ws cell.1 cell.2 then Some ws
    else set_value ws cell Py.VNone.

(** The body of the column loop of the reset pass; [range(9, max_row + 1)]
    is read off the worksheet as it stands. *)
Definition clear_column (ws : worksheet) (column : ascii) : option worksheet :=
  if Ascii.eqb column "A" then Some ws
  else
    col_idx ← column_index_from_string (String column EmptyString);
    for_each (clear_cell col_idx) ws (seqZ 9 (ws_max_row ws + 1 - 9)).

(** The reset pass on one worksheet. *)
Definition clear_worksheet (data : list SheetData) (ws : worksheet) : option worksheet :=
  ts ← first_category_tasks data;
  input_columns ← column_letters ts;
  for_each clear_column ws (elements input_columns).

(** [_clear_previous_month_data]: every worksheet of the workbook, in
    order. *)
Definition _clear_previous_month_data (data : list SheetData) (workbook : list worksheet)
  : option (list worksheet) :=
  mapM (clear_worksheet data) workbook.

(** How a write-back ends: the workbook handed to [save] together with the
    name it is saved under, or the error dialog. *)
Inductive outcome :=
| Saved (new_filename : string) (workbook : list worksheet)
| Failed.

(** The body of the sheet loop of [_save_to_excel]. *)
Definition write_sheet (sel : selection) (old_month : string)
    (workbook : list worksheet) (sheet_data : SheetData) : option (list worksheet) :=
  last_word ← Py.from_end 1 (Py.split (sheet_name sheet_data));
  n ← Py.int last_word;
  let sheet_index := n - 1 in
  if (0 <=? sheet_index) && (sheet_index <? Z.of_nat (length workbook)) then
    ws ← workbook !! Z.to_nat sheet_index;
    ws' ← (if String.eqb old_month (Py.upper (selected_month sel))
           then _write_same_month_data sel ws sheet_data
           else _write_new_month_data sel ws sheet_data);
    Some (<[Z.to_nat sheet_index := ws']> workbook)
  else Some workbook.

Definition new_filename_of (base_name : string) (sel : selection) : string :=
  let new_date := selected_day sel +:+ " " +:+ Py.upper (selected_month sel) +:+ " " +:+
                  Py.drop 2 (selected_year sel) in
  base_name +:+ " " +:+ new_date +:+ ".xlsx".

(** The first lines of [_save_to_excel]: the base name and the period
    label the stem of the workbook's path encodes; [None] stands for the
    [IndexError] of [filename_parts[-2]]. *)
Definition parse_filename (stem : string) : option (string * string) :=
  let filename_parts := Py.split stem in
  let base_name := Py.join " " (Py.but_last 3 filename_parts) in
  old_month ← Py.from_end 2 filename_parts;
  Some (base_name, old_month).

(** [_save_to_excel], from the stem of the workbook's path, whether that
    workbook exists, and the workbook [load_workbook] returns for it. *)
Definition _save_to_excel (sel : selection) (data : list SheetData)
    (xlsx_exists : bool) (stem : string) (workbook : list worksheet) : outcome :=
  if negb xlsx_exists then Failed
  else
    match parse_filename stem with
    | None => Failed
    | Some (base_name, old_month) =>
        let new_filename := new_filename_of base_name sel in
        let cleared :=
          if negb (String.eqb old_month (Py.upper (selected_month sel)))
          then _clear_previous_month_data data workbook
          else Some workbook in
        match cleared ≫= fun wb => for_each (write_sheet sel old_month) wb data with
        | Some wb => Saved new_filename wb
        | None => Failed
        end
    end.

(** ** The specification's own wording *)

(** Section 4.4 of the specification names two modes and decides between
    them by comparing the two period labels once both are case-normalized. *)
Inductive period_mode := SamePeriod | NewPeriod.

Definition spec_transition_policy (old_label new_label : string) : period_mode :=
  if String.eqb (Py.upper old_label) (Py.upper new_label) then SamePeriod else NewPeriod.

(** The mode selects the write strategy ... *)
Definition spec_write_strategy (m : period_mode)
  : selection -> worksheet -> SheetData -> option worksheet :=
  match m with
  | SamePeriod => _write_same_month_data
  | NewPeriod => _write_new_month_data
  end.

Definition spec_write_sheet (m : period_mode) (sel : selection)
    (workbook : list worksheet) (sheet_data : SheetData) : option (list worksheet) :=
  last_word ← Py.from_end 1 (Py.split (sheet_name sheet_data));
  n ← Py.int last_word;
  let sheet_index := n - 1 in
  if (0 <=? sheet_index) && (sheet_index <? Z.of_nat (length workbook)) then
    ws ← workbook !! Z.to_nat sheet_index;
    ws' ← spec_write_strategy m sel ws sheet_data;
    Some (<[Z.to_nat sheet_index := ws']> workbook)
  else Some workbook.

(** ... and whether the reset pass runs before the write pass. *)
Definition spec_rewrite (m : period_mode) (sel : selection) (data : list SheetData)
    (workbook : list worksheet) : option (list worksheet) :=
  wb ← match m with
       | SamePeriod => Some workbook
       | NewPeriod => _clear_previous_month_data data workbook
       end;
  for_each (spec_write_sheet m sel) wb data.

(** Section 4.1 of the specification names four roles and assigns them by
    priority. *)
Inductive role := CategoryHeader | TaskHeader | DescriptionLine | Ignore.

Definition spec_classify (lead_empty category_fill is_bold has_task : bool) : role :=
  if lead_empty then Ignore
  else if category_fill && is_bold then CategoryHeader
  else if is_bold then TaskHeader
  else if negb is_bold && has_task then DescriptionLine
  else Ignore.

(** An active category with at least one task exists. *)
Definition has_task (st : parse_state) : bool :=
  match current_category st with
  | Some c => match tasks c with [] => false | _ :: _ => true end
  | None => false
  end.

(** Section 4.3 of the specification: what the parser does with a row of
    each role; [text] is the trimmed lead text. *)
Definition spec_apply (input_cols : list Z) (ro : role) (st : parse_state)
    (r : list Cell) (text : string) : option parse_state :=
  match ro with
  | Ignore => Some st
  | CategoryHeader =>
      Some (mkParse (closed st ++ match current_category st with
                                  | Some c => [c]
                                  | None => []
                                  end)
                    (Some (mkCategory text [])))
  | TaskHeader =>
      match current_category st with
      | None => Some st
      | Some c =>
          values ← _get_input_values input_cols r;
          Some (mkParse (closed st)
                  (Some (mkCategory (category_name c) (tasks c ++ [mkTask text "" values]))))
      end
  | DescriptionLine =>
      match current_category st with
      | None => Some st
      | Some c =>
          Some (mkParse (closed st)
                  (Some (mkCategory (category_name c)
                           (update_last (fun t => add_description t text) (tasks c)))))
      end
  end.

(** The row loop of Section 4.3: every row is classified by its lead cell
    and handled by its role; [lead_empty] is the test by which a lead cell
    counts as empty. *)
Definition spec_row (lead_empty : Py.value -> bool) (input_cols : list Z)
    (st : parse_state) (r : list Cell) : option parse_state :=
  first_cell ← row_at r 0;
  spec_apply input_cols
    (spec_classify (lead_empty (value first_cell))
                   (String.eqb (fill_index first_cell) CATEGORY_COLOR)
                   (bold first_cell) (has_task st))
    st r (Py.strip (Py.str (value first_cell))).

(** [parse(worksheet)] of Section 4.3: the rows in order, and the category
    still open at the end closed. *)
Definition spec_parse (lead_empty : Py.value -> bool) (sheet_number : Z)
    (rows : list (list Cell)) : option SheetData :=
  let input_cols := _find_input_columns rows in
  st ← for_each (spec_row lead_empty input_cols) (mkParse [] None) rows;
  Some (mkSheetData ("Sheet " +:+ Py.str (Py.VInt sheet_number))
          (closed st ++ match current_category st with
                        | Some c => [c]
                        | None => []
                        end)).

(** Two readings of an empty lead cell: a cell that shows no text (it is
    blank, or its trimmed text is empty), and a cell whose content fails
    the truth test. *)
Definition no_text (v : Py.value) : bool :=
  match v with
  | Py.VNone => true
  | _ => String.eqb (Py.strip (Py.str v)) ""
  end.

Definition falsy (v : Py.value) : bool := negb (Py.truthy v).

(** ** Well-formed input *)

(** A spreadsheet's merged regions start at row 1 and column 1 at the
    least, are not empty, and do not overlap. *)
Definition range_ok (mr : cell_range) : bool :=
  (1 <=? min_row mr) && (min_row mr <=? max_row mr) &&
  (1 <=? min_col mr) && (min_col mr <=? max_col mr).

Definition overlaps (a b : cell_range) : bool :=
  (min_row a <=? max_row b) && (min_row b <=? max_row a) &&
  (min_col a <=? max_col b) && (min_col b <=? max_col a).

Fixpoint pairwise_disjoint (l : list cell_range) : bool :=
  match l with
  | [] => true
  | a :: l' => forallb (fun b => negb (overlaps a b)) l' && pairwise_disjoint l'
  end.

Definition regions_ok (ws : worksheet) : bool :=
  forallb range_ok (merged_cells ws) && pairwise_disjoint (merged_cells ws).

(** A worksheet of the library holds rows 1 to 1048576 only: its last row
    in use and its merged regions lie within them. *)
Definition rows_in_sheet (ws : worksheet) : bool := ws_max_row ws <=? MAX_ROW.


(** The cells of a row as [iter_rows] yields it: all in row [row_number],
    in columns [first_col], [first_col + 1], ... *)
Fixpoint cells_from (row_number first_col : Z) (r : list Cell) : bool :=
  match r with
  | [] => true
  | cell :: r' =>
      (row cell =? row_number) && (column cell =? first_col) &&
      cells_from row_number (first_col + 1) r'
  end.

Definition row_ok (row_number : Z) (r : list Cell) : bool := cells_from row_number 1 r.

(** Rows as [iter_rows] yields them: none is empty, and the cells of each
    carry its row number and the column numbers 1, 2, ... *)
Definition rows_ok (rows : list (list Cell)) : bool :=
  forallb (fun r => match r with
                    | [] => false
                    | cell :: _ => (0 <=? row cell) && row_ok (row cell) r
                    end) rows.

(** A word: a non-empty text without blanks, as [split] produces them. *)
Definition is_word (w : string) : bool :=
  negb (String.eqb w "") && sforallb (fun c => negb (Py.isspace c)) w.

(** The stem of the file name a write-back with selection [prev] saves
    under, for the base name [base_name]. *)
Definition saved_stem (base_name : string) (prev : selection) : string :=
  base_name +:+ " " +:+ selected_day prev +:+ " " +:+
  Py.upper (selected_month prev) +:+ " " +:+ Py.drop 2 (selected_year prev).

(** ** Frames and targets *)

(** A step from [ws] to [ws'] that keeps the merged regions and the value
    at [pos]. *)
Definition unchanged_at (pos : Z * Z) (ws ws' : worksheet) : Prop :=
  merged_cells ws' = merged_cells ws /\ cell_value ws' pos = cell_value ws pos.

(** [pos] is a cell the write pass may write for [sheet_data]: the cell
    the resolver returns for an input reference of a task that is not a
    comment task. *)
Definition resolves_to (ws : worksheet) (pos : Z * Z) (cell_ref : string) : bool :=
  match _get_unmerged_cell ws cell_ref with
  | Some cell => (cell.1 =? pos.1) && (cell.2 =? pos.2)
  | None => false
  end.

Definition is_target (ws : worksheet) (sheet_data : SheetData) (pos : Z * Z) : bool :=
  existsb (fun task =>
             negb (is_comment_task task) &&
             existsb (resolves_to ws pos) (keys (inputs task)))
          (all_tasks sheet_data).

(** No sheet of [data] has [pos] as a target on [ws]. *)
Definition no_target (data : list SheetData) (ws : worksheet) (pos : Z * Z) : bool :=
  forallb (fun sheet_data => negb (is_target ws sheet_data pos)) data.

(** A step from one workbook to the next that keeps, in every worksheet
    on which [pos] is no target, the merged regions and the value at
    [pos]. *)
Definition workbook_unchanged_at (data : list SheetData) (pos : Z * Z)
    (wb wb' : list worksheet) : Prop :=
  length wb' = length wb /\
  forall (i : nat) ws, wb !! i = Some ws -> no_target data ws pos = true ->
    exists ws', wb' !! i = Some ws' /\ unchanged_at pos ws ws'.

(** The workbook and the name an outcome carries. *)
Definition saved_workbook (o : outcome) : list worksheet :=
  match o with
  | Saved _ wb => wb
  | Failed => []
  end.

Definition saved_name (o : outcome) : string :=
  match o with
  | Saved f _ => f
  | Failed => ""
  end.

(** No input reference of the tasks the reset pass inspects begins with a
    lower-case "a" (extraction writes column letters in upper case). *)
Definition no_lower_a (data : list SheetData) : bool :=
  match first_category_tasks data with
  | Some ts =>
      forallb (fun task =>
                 forallb (fun cell_ref =>
                            match Py.first_char cell_ref with
                            | Some c => negb (Ascii.eqb c "a")
                            | None => true
                            end)
                         (keys (inputs task)))
              ts
  | None => true
  end.

(** Row [row_number] of the sheet is a row with a bold, non-blank lead
    cell: the only rows extraction makes tasks of. *)
Definition task_row (rows : list (list Cell)) (row_number : Z) : Prop :=
  exists r first_cell,
    r ∈ rows /\ row_ok row_number r = true /\ 0 <= row_number /\
    row_at r 0 = Some first_cell /\
    bold first_cell = true /\ Py.truthy (value first_cell) = true.

(** A reference as extraction writes it: the letters of a located input
    column followed by the number of a task row. *)
Definition extracted_ref (rows : list (list Cell)) (cell_ref : string) : Prop :=
  exists row_number col letter,
    task_row rows row_number /\
    col ∈ _find_input_columns rows /\
    get_column_letter col = Some letter /\
    cell_ref = letter +:+ Py.str (Py.VInt row_number).

(** All tasks a state of the row loop holds. *)
Definition state_tasks (st : parse_state) : list Task :=
  flat_map tasks (closed st ++ match current_category st with
                               | Some c => [c]
                               | None => []
                               end).

(** ** Sample data for worked examples *)

Definition sample_selection : selection := mkSelection "ab" "15" "Jan" "2024" "ok".

Definition sample_task : Task :=
  mkTask "Check extinguisher" "See gauge" [("B9", "no input"); ("C9", "no input")].

Definition sample_comments : Task :=
  mkTask "Comments:" "" [("B11", "no input"); ("C11", "no input")].

Definition sample_data : list SheetData :=
  [mkSheetData "Sheet 1" [mkCategory "Fire Safety" [sample_task; sample_comments]]].

(** A sheet whose row 8 carries the column headers, whose slot B9 is
    filled and whose slot C9 is open. *)
Definition sample_sheet : worksheet :=
  Worksheet (<[(8, 1) := Py.VStr "Task"]>
               (<[(8, 2) := Py.VStr "Date Inspected by who?"]>
                  (<[(8, 3) := Py.VStr "OK?"]>
                     (<[(9, 1) := Py.VStr "Check extinguisher"]>
                        (<[(9, 2) := Py.VStr "CD 02 JAN 24"]> ∅)))))
            [] 11.

(** The same sheet with B9 and B10 merged into one region. *)
Definition merged_sheet : worksheet :=
  Worksheet (cells sample_sheet) [CellRange 9 2 10 2] 11.



(** A task with a single input slot. *)
Definition single_slot_task : Task := mkTask "Check alarm" "" [("B9", "no input")].

(** Rows as [iter_rows] yields them for a sheet that opens with a category
    in row 1, next to the column headers, and a task in row 2. *)
Definition early_rows : list (list Cell) :=
  [ [mkCell (Py.VStr "Fire Safety") "FFFFFF00" true 1 1;
     mkCell (Py.VStr "Date Inspected by who?") "00000000" true 1 2;
     mkCell (Py.VStr "OK?") "00000000" true 1 3];
    [mkCell (Py.VStr "Check extinguisher") "00000000" true 2 1;
     mkCell Py.VNone "00000000" false 2 2;
     mkCell Py.VNone "00000000" false 2 3] ].

(** The same sheet as the write-back loads it. *)
Definition early_sheet : worksheet :=
  Worksheet (<[(1, 1) := Py.VStr "Fire Safety"]>
               (<[(1, 2) := Py.VStr "Date Inspected by who?"]>
                  (<[(1, 3) := Py.VStr "OK?"]>
                     (<[(2, 1) := Py.VStr "Check extinguisher"]> ∅))))
            [] 2.

Definition early_data : list SheetData :=
  [mkSheetData "Sheet 1"
     [mkCategory "Fire Safety"
        [mkTask "Check extinguisher" "" [("B2", "no input"); ("C2", "no input")]]]].

(** A sheet whose lead cell A9 is merged with the input slot B9. *)
Definition wide_lead_sheet : worksheet :=
  Worksheet (<[(9, 1) := Py.VStr "Check extinguisher"]> ∅) [CellRange 9 1 9 2] 9.

(** Input slots in the two-letter columns BA and BB, and a sheet that has
    content in column B as well. *)
Definition far_data : list SheetData :=
  [mkSheetData "Sheet 1"
     [mkCategory "Fire Safety"
        [mkTask "Check extinguisher" "" [("BA9", "CD 02 JAN 24"); ("BB9", "OK")]]]].

Definition far_sheet : worksheet :=
  Worksheet (<[(9, 1) := Py.VStr "Check extinguisher"]>
               (<[(9, 2) := Py.VStr "Monthly"]>
                  (<[(9, 53) := Py.VStr "CD 02 JAN 24"]>
                     (<[(9, 54) := Py.VStr "OK"]> ∅))))
            [] 9.

(** * Further code *)

(** ** Extraction: the whole workbook, and vocabulary for its results *)

(** [process_workbook]: the worksheets in order, each under its 1-based
    position; [None] stands for the exception it logs and raises again. *)
Definition process_workbook (sheets : list (list (list Cell))) : option (list SheetData) :=
  mapM id (imap (fun i rows => _process_worksheet (Z.of_nat i + 1) rows) sheets).

(** A row whose lead cell is non-blank, carries the category colour and
    is bold. *)
Definition is_category_row (r : list Cell) : bool :=
  match r with
  | first_cell :: _ =>
      Py.truthy (value first_cell) &&
      (String.eqb (fill_index first_cell) CATEGORY_COLOR && bold first_cell)
  | [] => false
  end.

(** A row whose lead cell is non-blank and bold without being a category
    header. *)
Definition is_bold_row (r : list Cell) : bool :=
  match r with
  | first_cell :: _ =>
      Py.truthy (value first_cell) &&
      negb (String.eqb (fill_index first_cell) CATEGORY_COLOR && bold first_cell) &&
      bold first_cell
  | [] => false
  end.

(** The trimmed text of the lead cell. *)
Definition row_text (r : list Cell) : string :=
  match r with
  | first_cell :: _ => Py.strip (Py.str (value first_cell))
  | [] => ""
  end.

(** The rows that follow the first category header. *)
Fixpoint after_first_category (rows : list (list Cell)) : list (list Cell) :=
  match rows with
  | [] => []
  | r :: rest => if is_category_row r then rest else after_first_category rest
  end.

(** The categories a state of the row loop holds, closed ones first. *)
Definition state_categories (st : parse_state) : list Category :=
  match current_category st with
  | Some c => closed st ++ [c]
  | None => closed st
  end.

(** The coordinate extraction writes for column [col] of row
    [row_number], paired with the slot value of [cell]. *)
Definition slot_entry (row_number : Z) (col : Z) (cell : Cell) : option (string * string) :=
  letter ← get_column_letter col;
  Some (letter +:+ Py.str (Py.VInt row_number), slot_value (value cell)).


(** ** What the write-back reads of the data *)

(** The name of a task and the references of its slots, without the
    values the slots hold and without the description. *)
Definition task_shape (t : Task) : string * list string :=
  (task_name t, keys (inputs t)).

Definition sheet_shape (sheet_data : SheetData) : string * list (list (string * list string)) :=
  (sheet_name sheet_data, map (fun c => map task_shape (tasks c)) (categories sheet_data)).

Definition data_shape (data : list SheetData) : list (string * list (list (string * list string))) :=
  map sheet_shape data.

(** ** The structure of a worksheet *)

(** [ws'] has the merged regions of [ws] and at least as many rows. *)
Definition same_structure (ws ws' : worksheet) : Prop :=
  merged_cells ws' = merged_cells ws /\ ws_max_row ws <= ws_max_row ws'.

(** ** Filling in the checklist (ui/task_completion.py) *)

(** [l[i]] on a Python list: a negative index counts from the end;
    [None] stands for [IndexError]. *)
Definition py_index {A} (l : list A) (i : Z) : option A :=
  if 0 <=? i then l !! Z.to_nat i
  else if 0 <=? Z.of_nat (length l) + i then l !! Z.to_nat (Z.of_nat (length l) + i)
  else None.

(** The position the interface keeps in [self.current_sheet],
    [self.current_category] and [self.current_task]. *)
Module UI.
Record cursor := mkCursor {
  current_sheet : Z;
  current_category : Z;
  current_task : Z
}.
End UI.

(** [_validate_indices]; the handler of the [try] answers [False]. *)
Definition _validate_indices (data : list SheetData) (cur : UI.cursor) : bool :=
  if negb ((0 <=? UI.current_sheet cur) && (UI.current_sheet cur <? Z.of_nat (length data)))
  then false
  else
    match py_index data (UI.current_sheet cur) with
    | None => false
    | Some sheet =>
        if negb ((0 <=? UI.current_category cur) &&
                 (UI.current_category cur <? Z.of_nat (length (categories sheet))))
        then false
        else
          match py_index (categories sheet) (UI.current_category cur) with
          | None => false
          | Some category =>
              if negb ((0 <=? UI.current_task cur) &&
                       (UI.current_task cur <? Z.of_nat (length (tasks category))))
              then false
              else true
          end
    end.

(** [_get_current_task]; the handler of the [try] answers [None]. *)
Definition _get_current_task (data : list SheetData) (cur : UI.cursor) : option Task :=
  if negb (_validate_indices data cur) then None
  else
    sheet ← py_index data (UI.current_sheet cur);
    category ← py_index (categories sheet) (UI.current_category cur);
    py_index (tasks category) (UI.current_task cur).

(** The test [value.lower() == "no input"] of [_save_current_task]. *)
Definition is_no_input (value : string) : bool :=
  String.eqb (Py.lower value) "no input".

(** The search loop of [_save_current_task]: the key of the first item,
    in the order of the [dict], whose value passes the test. *)
Definition first_no_input (inputs : list (string * string)) : option string :=
  fst <$> List.find (fun kv => is_no_input kv.2) inputs.

(** What [_save_current_task] does to the [inputs] of the current task;
    [if empty_cell:] is the truth test of a text, which the empty key
    fails. *)
Definition fill_inputs (sel : selection) (inputs : list (string * string))
  : list (string * string) :=
  match first_no_input inputs with
  | Some empty_cell =>
      if String.eqb empty_cell "" then inputs
      else
        let inputs1 := dict_set inputs empty_cell (date_str sel) in
        match first_no_input inputs1 with
        | Some next_cell =>
            if String.eqb next_cell "" then inputs1
            else dict_set inputs1 next_cell (Py.upper (task_status sel))
        | None => inputs1
        end
  | None => inputs
  end.

(** [_save_current_task]: the data with the task at the cursor updated in
    place. *)
Definition _save_current_task (sel : selection) (data : list SheetData) (cur : UI.cursor)
  : list SheetData :=
  match _get_current_task data cur with
  | None => data
  | Some current_task =>
      if is_comment_task current_task then data
      else
        alter (fun sheet =>
                 mkSheetData (sheet_name sheet)
                   (alter (fun category =>
                             mkCategory (category_name category)
                               (alter (fun task =>
                                         mkTask (task_name task) (description task)
                                                (fill_inputs sel (inputs task)))
                                      (Z.to_nat (UI.current_task cur)) (tasks category)))
                          (Z.to_nat (UI.current_category cur)) (categories sheet)))
              (Z.to_nat (UI.current_sheet cur)) data
  end.

(** The keys whose value reads "no input", in the order of the [dict]. *)
Definition open_slots (inputs : list (string * string)) : list string :=
  map fst (List.filter (fun kv => is_no_input kv.2) inputs).

(** [s.count(c)]. *)
Fixpoint count_char (c : ascii) (s : string) : nat :=
  match s with
  | EmptyString => 0
  | String c' s' => (if Ascii.eqb c c' then 1 else 0) + count_char c s'
  end.

(** The task at 0-based position [i], [j], [k] of the data. *)
Definition task_at (data : list SheetData) (i j k : nat) : option Task :=
  sheet ← data !! i;
  category ← categories sheet !! j;
  tasks category !! k.

(** The task [_save_current_task] leaves in the place of [task]. *)
Definition saved_task (sel : selection) (task : Task) : Task :=
  if is_comment_task task then task
  else mkTask (task_name task) (description task) (fill_inputs sel (inputs task)).

(** ** Moving through the checklist (ui/task_completion.py) *)

(** [_is_first_task]. *)
Definition _is_first_task (cur : UI.cursor) : bool :=
  (UI.current_sheet cur =? 0) && (UI.current_category cur =? 0) && (UI.current_task cur =? 0).

(** [_is_last_task]; [None] stands for the [IndexError] of an index into
    an empty list. *)
Definition _is_last_task (data : list SheetData) (cur : UI.cursor) : option bool :=
  let last_sheet := Z.of_nat (length data) - 1 in
  sheet ← py_index data last_sheet;
  let last_category := Z.of_nat (length (categories sheet)) - 1 in
  sheet' ← py_index data last_sheet;
  category ← py_index (categories sheet') last_category;
  let last_task := Z.of_nat (length (tasks category)) - 1 in
  Some ((UI.current_sheet cur =? last_sheet) &&
        (UI.current_category cur =? last_category) &&
        (UI.current_task cur =? last_task)).

(** The first half of the body of the loop of [_next_task]: the cursor
    moved one place on; [Some None] when there is no place left and the
    checklist is completed, [None] for the [IndexError] of the cursor's
    sheet or category. *)
Definition advance (data : list SheetData) (cur : UI.cursor) : option (option UI.cursor) :=
  sheet ← py_index data (UI.current_sheet cur);
  category ← py_index (categories sheet) (UI.current_category cur);
  if UI.current_task cur <? Z.of_nat (length (tasks category)) - 1 then
    Some (Some (UI.mkCursor (UI.current_sheet cur) (UI.current_category cur)
                            (UI.current_task cur + 1)))
  else if UI.current_category cur <? Z.of_nat (length (categories sheet)) - 1 then
    Some (Some (UI.mkCursor (UI.current_sheet cur) (UI.current_category cur + 1) 0))
  else if UI.current_sheet cur <? Z.of_nat (length data) - 1 then
    Some (Some (UI.mkCursor (UI.current_sheet cur + 1) 0 0))
  else Some None.

(** How [_next_task] ends: the interface is shown at a cursor, the
    checklist is completed, or an [IndexError] ends the body of the [try]
    with the cursor where it stood; the handler then logs and shows the
    error dialog. *)
Inductive nav_result :=
| Shown (cur : UI.cursor)
| Completed (cur : UI.cursor)
| NavError (cur : UI.cursor).

(** The [while True] loop of [_next_task], run for at most [fuel] rounds;
    [None] when the rounds do not suffice. *)
Fixpoint next_loop (fuel : nat) (data : list SheetData) (cur : UI.cursor)
  : option nav_result :=
  match fuel with
  | O => None
  | S fuel' =>
      match advance data cur with
      | None => Some (NavError cur)
      | Some None => Some (Completed cur)
      | Some (Some cur') =>
          match _get_current_task data cur' with
          | Some current_task =>
              if negb (is_comment_task current_task) then Some (Shown cur')
              else next_loop fuel' data cur'
          | None => next_loop fuel' data cur'
          end
      end
  end.

(** [_next_task]: the data as [_save_current_task] leaves them, and how
    the call ends. *)
Definition _next_task (fuel : nat) (sel : selection) (data : list SheetData)
    (cur : UI.cursor) : option (list SheetData * nav_result) :=
  match _is_last_task data cur with
  | None => Some (data, NavError cur)
  | Some true => Some (data, Completed cur)
  | Some false =>
      let data' := _save_current_task sel data cur in
      r ← next_loop fuel data' cur;
      Some (data', r)
  end.

(** [_previous_task]: the cursor after the call; [inl] when the call
    returns, [inr] when an [IndexError] escapes it, which leaves the
    cursor as the assignments before it made it. *)
Definition _previous_task (data : list SheetData) (cur : UI.cursor)
  : UI.cursor + UI.cursor :=
  if _is_first_task cur then inl cur
  else if 0 <? UI.current_task cur then
    inl (UI.mkCursor (UI.current_sheet cur) (UI.current_category cur)
                     (UI.current_task cur - 1))
  else if 0 <? UI.current_category cur then
    let current_category := UI.current_category cur - 1 in
    match (sheet ← py_index data (UI.current_sheet cur);
           py_index (categories sheet) current_category) with
    | Some category =>
        inl (UI.mkCursor (UI.current_sheet cur) current_category
                         (Z.of_nat (length (tasks category)) - 1))
    | None => inr (UI.mkCursor (UI.current_sheet cur) current_category (UI.current_task cur))
    end
  else
    let current_sheet := UI.current_sheet cur - 1 in
    match py_index data current_sheet with
    | Some sheet =>
        let current_category := Z.of_nat (length (categories sheet)) - 1 in
        match py_index (categories sheet) current_category with
        | Some category =>
            inl (UI.mkCursor current_sheet current_category
                             (Z.of_nat (length (tasks category)) - 1))
        | None => inr (UI.mkCursor current_sheet current_category (UI.current_task cur))
        end
    | None => inr (UI.mkCursor current_sheet (UI.current_category cur) (UI.current_task cur))
    end.

(** The order in which the cursor runs through the data. *)
Definition cursor_ltb (p q : UI.cursor) : bool :=
  (UI.current_sheet p <? UI.current_sheet q) ||
  ((UI.current_sheet p =? UI.current_sheet q) &&
   ((UI.current_category p <? UI.current_category q) ||
    ((UI.current_category p =? UI.current_category q) &&
     (UI.current_task p <? UI.current_task q)))).

(** Every task the cursor passes between [p] and [q], both excluded, is a
    comment task. *)
Definition only_comments_between (data : list SheetData) (p q : UI.cursor) : Prop :=
  forall r task,
    cursor_ltb p r = true -> cursor_ltb r q = true ->
    _get_current_task data r = Some task -> is_comment_task task = true.

(** Every task after [p] is a comment task. *)
Definition only_comments_after (data : list SheetData) (p : UI.cursor) : Prop :=
  forall r task,
    cursor_ltb p r = true ->
    _get_current_task data r = Some task -> is_comment_task task = true.

(** A bound on the rounds the loop of [_next_task] still has to run: the
    sheets, categories and tasks ahead of the cursor, counted with the
    largest category and the longest sheet of the data. *)
Definition rounds_left (data : list SheetData) (cur : UI.cursor) : Z :=
  let most_categories :=
    Z.of_nat (max_list (map (fun sheet => length (categories sheet)) data)) in
  let most_tasks :=
    Z.of_nat (max_list (map (fun category => length (tasks category))
                            (flat_map categories data))) in
  ((Z.of_nat (length data) - UI.current_sheet cur) * (most_categories + 1)
   + (most_categories - UI.current_category cur)) * (most_tasks + 2)
  + Z.max 0 (most_tasks - UI.current_task cur).

(** ** The progress display (ui/task_completion.py) *)

(** A loop that may return from inside: [inl] is the value returned,
    [inr] the state the loop runs out with. *)
Fixpoint for_return {S A R} (body : S -> A -> R + S) (s : S) (l : list A) : R + S :=
  match l with
  | [] => inr s
  | a :: l' =>
      match body s a with
      | inl r => inl r
      | inr s' => for_return body s' l'
      end
  end.

(** [enumerate(l)], counting from [i]. *)
Fixpoint enumerate_from {A} (i : Z) (l : list A) : list (Z * A) :=
  match l with
  | [] => []
  | a :: l' => (i, a) :: enumerate_from (i + 1) l'
  end.

Definition enumerate {A} (l : list A) : list (Z * A) := enumerate_from 0 l.

(** The step [if task['name'].lower().strip() != "comments:": n += 1]. *)
Definition count_task (n : Z) (task : Task) : Z :=
  if negb (is_comment_task task) then n + 1 else n.

(** [_get_total_tasks]. *)
Definition _get_total_tasks (data : list SheetData) : Z :=
  foldl (fun total sheet =>
           foldl (fun total category => foldl count_task total (tasks category))
                 total (categories sheet))
        0 data.

(** [_get_current_task_number]. *)
Definition _get_current_task_number (data : list SheetData) (cur : UI.cursor) : Z :=
  match
    for_return (fun current '(s_idx, sheet) =>
      for_return (fun current '(c_idx, category) =>
        for_return (fun current '(t_idx, task) =>
            let current := count_task current task in
            if (s_idx =? UI.current_sheet cur) && (c_idx =? UI.current_category cur)
               && (t_idx =? UI.current_task cur)
            then inl current else inr current)
          current (enumerate (tasks category)))
        current (enumerate (categories sheet)))
      0 (enumerate data)
  with
  | inl current => current
  | inr current => current
  end.

(** The tasks of the data in the order of the loops, each with the cursor
    that points at it. *)
Definition positions (data : list SheetData) : list (UI.cursor * Task) :=
  flat_map (fun '(s_idx, sheet) =>
    flat_map (fun '(c_idx, category) =>
      map (fun '(t_idx, task) => (UI.mkCursor s_idx c_idx t_idx, task))
          (enumerate (tasks category)))
      (enumerate (categories sheet)))
    (enumerate data).

(** The number of tasks of a list that are no comment tasks. *)
Definition count_tasks (l : list (UI.cursor * Task)) : Z :=
  Z.of_nat (length (List.filter (fun qt => negb (is_comment_task qt.2)) l)).

(** The body of the innermost loop of [_get_current_task_number], on a
    task with its cursor. *)
Definition count_until (cur : UI.cursor) (current : Z) (qt : UI.cursor * Task) : Z + Z :=
  let current := count_task current qt.2 in
  if (UI.current_sheet qt.1 =? UI.current_sheet cur)
     && (UI.current_category qt.1 =? UI.current_category cur)
     && (UI.current_task qt.1 =? UI.current_task cur)
  then inl current else inr current.

(** ** The checklist file (core/excel_processor.py, ui/task_completion.py) *)

(** A value as [json.load] returns it and [json.dump] takes it; a [dict]
    keeps its keys in insertion order. *)
#[warnings="-register-all"] Inductive json :=
| JNull
| JBool (b : bool)
| JNum (n : Z)
| JStr (s : string)
| JList (l : list json)
| JDict (d : list (string * json)).

Fixpoint jdict_get (d : list (string * json)) (k : string) : option json :=
  match d with
  | [] => None
  | (k', v) :: d' => if String.eqb k k' then Some v else jdict_get d' k
  end.

Fixpoint jdict_set (d : list (string * json)) (k : string) (v : json)
  : list (string * json) :=
  match d with
  | [] => [(k, v)]
  | (k', v') :: d' =>
      if String.eqb k k' then (k, v) :: d' else (k', v') :: jdict_set d' k v
  end.

(** [json_data] of [save_to_json]: the value handed to [json.dump]. *)
Definition task_to_json (task : Task) : json :=
  JDict [("name", JStr (task_name task));
         ("description", JStr (description task));
         ("inputs", JDict (map (fun kv => (kv.1, JStr kv.2)) (inputs task)))].

Definition category_to_json (cat : Category) : json :=
  JDict [("name", JStr (category_name cat));
         ("tasks", JList (map task_to_json (tasks cat)))].

Definition sheet_to_json (sheet : SheetData) : json :=
  JDict [("name", JStr (sheet_name sheet));
         ("categories", JList (map category_to_json (categories sheet)))].

Definition save_to_json (data : list SheetData) : json :=
  JList (map sheet_to_json data).

(** The body of the inner loop of [_load_and_validate_data]: a category
    without a list under "tasks" is given an empty one, in place.  On a
    category that is no [dict] the membership test, the lookup or the
    assignment raises [TypeError], whatever the value is; [None] stands for
    an exception. *)
Definition validate_category (category : json) : option json :=
  match category with
  | JDict d =>
      match jdict_get d "tasks" with
      | Some (JList _) => Some category
      | _ => Some (JDict (jdict_set d "tasks" (JList [])))
      end
  | _ => None
  end.

(** The body of the outer loop: [ValueError] for a sheet without a list
    under "categories"; on a sheet that is no [dict] the membership test or
    the lookup raises [TypeError], or the test fails and [ValueError] is
    raised. *)
Definition validate_sheet (sheet : json) : option json :=
  match sheet with
  | JDict d =>
      match jdict_get d "categories" with
      | Some (JList cats) =>
          cats' ← mapM validate_category cats;
          Some (JDict (jdict_set d "categories" (JList cats')))
      | _ => None
      end
  | _ => None
  end.

(** [_load_and_validate_data], from the value [json.load] returns; [None]
    stands for the exception it raises again after the error dialog. *)
Definition _load_and_validate_data (data : json) : option json :=
  match data with
  | JList (sheet :: sheets) => JList <$> mapM validate_sheet (sheet :: sheets)
  | _ => None
  end.

(** A category, a sheet and a checklist as the interface reads them. *)
Definition category_ok (category : json) : bool :=
  match category with
  | JDict d => match jdict_get d "tasks" with Some (JList _) => true | _ => false end
  | _ => false
  end.

Definition sheet_ok (sheet : json) : bool :=
  match sheet with
  | JDict d =>
      match jdict_get d "categories" with
      | Some (JList cats) => forallb category_ok cats
      | _ => false
      end
  | _ => false
  end.

Definition data_ok (data : json) : bool :=
  match data with
  | JList (sheet :: sheets) => forallb sheet_ok (sheet :: sheets)
  | _ => false
  end.

(** What the validation accepts: a list that is not empty, of [dict]s with
    a list of [dict]s under "categories". *)
Definition is_dict (j : json) : bool :=
  match j with JDict _ => true | _ => false end.

Definition sheet_accepted (sheet : json) : bool :=
  match sheet with
  | JDict d =>
      match jdict_get d "categories" with
      | Some (JList cats) => forallb is_dict cats
      | _ => false
      end
  | _ => false
  end.

Definition data_accepted (data : json) : bool :=
  match data with
  | JList (sheet :: sheets) => forallb sheet_accepted (sheet :: sheets)
  | _ => false
  end.

(** ** The cells the reset pass empties *)

(** From row 9 to the last row of the sheet, the column a collected
    character other than "A" names. *)
Definition reset_target (letters : gset ascii) (ws : worksheet) (pos : Z * Z) : Prop :=
  9 <= pos.1 <= ws_max_row ws /\
  exists c, c ∈ letters /\ c <> "A"%char /\
            column_index_from_string (String c "") = Some pos.2.

(** ** Extraction: the description of a task *)

(** A row whose lead cell is blank. *)
Definition is_blank_row (r : list Cell) : bool :=
  match r with
  | first_cell :: _ => negb (Py.truthy (value first_cell))
  | [] => true
  end.

(** The description lines below a task row: the trimmed lead texts of the
    rows down to the next row with a bold lead cell, blank rows left out. *)
Fixpoint description_lines (rows : list (list Cell)) : list string :=
  match rows with
  | [] => []
  | r :: rest =>
      if is_category_row r || is_bold_row r then []
      else if is_blank_row r then description_lines rest
      else row_text r :: description_lines rest
  end.

(** One more line for a description: after a blank, unless the
    description is still empty. *)
Definition append_line (d line : string) : string :=
  if negb (String.eqb d "") then d +:+ " " +:+ line else line.

(** The descriptions of the task rows among [rows], in row order. *)
Fixpoint task_descriptions (rows : list (list Cell)) : list string :=
  match rows with
  | [] => []
  | r :: rest =>
      if is_bold_row r
      then foldl append_line "" (description_lines rest) :: task_descriptions rest
      else task_descriptions rest
  end.

(** ** Extraction: which tasks a category holds *)

(** The rows down to the next category header. *)
Fixpoint rows_until_category (rows : list (list Cell)) : list (list Cell) :=
  match rows with
  | [] => []
  | r :: rest => if is_category_row r then [] else r :: rows_until_category rest
  end.

(** For each category header among [rows], in row order: its trimmed lead
    text and the task rows below it, down to the next category header. *)
Fixpoint category_groups (rows : list (list Cell)) : list (string * list (list Cell)) :=
  match rows with
  | [] => []
  | r :: rest =>
      if is_category_row r
      then (row_text r, List.filter is_bold_row (rows_until_category rest))
           :: category_groups rest
      else category_groups rest
  end.

(** The name of a category with the names of its tasks. *)
Definition category_outline (c : Category) : string * list string :=
  (category_name c, map task_name (tasks c)).

(** * Properties *)

(** ** Worked examples of the built-ins *)

Example split_stem : Py.split "Fire Panel 12 JAN 24" = ["Fire"; "Panel"; "12"; "JAN"; "24"].
Proof. reflexivity. Qed.

Example split_blanks : Py.split "  a   b c  " = ["a"; "b"; "c"].
Proof. reflexivity. Qed.

Example strip_ex : Py.strip "  Comments:  " = "Comments:".
Proof. reflexivity. Qed.

Example upper_ex : Py.upper "Jan 5x" = "JAN 5X".
Proof. reflexivity. Qed.

Example int_ex : Py.int "12" = Some 12 /\ Py.int "-3" = Some (-3) /\ Py.int "1_0" = Some 10
                 /\ Py.int "x1" = None /\ Py.int "" = None /\ Py.int "1__0" = None.
Proof. repeat split; reflexivity. Qed.

Example col_idx_ex :
  column_index_from_string "A" = Some 1 /\ column_index_from_string "b" = Some 2 /\
  column_index_from_string "AA" = Some 27 /\ column_index_from_string "ZZZ" = Some 18278 /\
  column_index_from_string "" = None /\ column_index_from_string "ABCD" = None /\
  column_index_from_string "1" = None.
Proof. repeat split; reflexivity. Qed.

Example col_letter_ex :
  get_column_letter 1 = Some "A" /\ get_column_letter 26 = Some "Z" /\
  get_column_letter 27 = Some "AA" /\ get_column_letter 52 = Some "AZ" /\
  get_column_letter 53 = Some "BA" /\ get_column_letter 702 = Some "ZZ" /\
  get_column_letter 703 = Some "AAA" /\ get_column_letter 18278 = Some "ZZZ" /\
  get_column_letter 0 = None.
Proof. repeat split; reflexivity. Qed.

(** ** Text lemmas *)

(** Case analysis over the 256 characters. *)
Ltac ascii_cases c := destruct c as [[] [] [] [] [] [] [] []].

Lemma append_cons (x : ascii) (a b : string) : String x a +:+ b = String x (a +:+ b).
Proof. reflexivity. Qed.

Lemma append_nil_l (a : string) : "" +:+ a = a.
Proof. reflexivity. Qed.

Lemma append_assoc (a b c : string) : (a +:+ b) +:+ c = a +:+ (b +:+ c).
Proof.
  induction a as [|x a IH]; [reflexivity|].
  rewrite !append_cons. f_equal. exact IH.
Qed.

Lemma append_nil_r (a : string) : a +:+ "" = a.
Proof.
  induction a as [|x a IH]; [reflexivity|].
  rewrite append_cons. f_equal. exact IH.
Qed.

Lemma upper_char_idem (c : ascii) : Py.upper_char (Py.upper_char c) = Py.upper_char c.
Proof. ascii_cases c; reflexivity. Qed.

Lemma upper_idem (s : string) : Py.upper (Py.upper s) = Py.upper s.
Proof.
  induction s as [|c s IH]; [reflexivity|].
  unfold Py.upper in *; simpl. now rewrite upper_char_idem, IH.
Qed.

Lemma split_head_nonblank c s :
  Py.isspace c = false -> exists w ws, Py.split (String c s) = String c w :: ws.
Proof.
  revert c; induction s as [|c' s IH]; intros c Hc; simpl; rewrite Hc.
  - eauto.
  - destruct (Py.isspace c') eqn:Hc'; [eauto|].
    destruct (IH c' Hc') as (w & ws & Hw).
    simpl in Hw. rewrite Hc' in Hw. rewrite Hw. eauto.
Qed.

(** Splitting distributes over a blank that separates two texts. *)
Lemma split_app_blank (s t : string) :
  Py.split (s +:+ String " " t) = Py.split s ++ Py.split t.
Proof.
  induction s as [|c s IH]; [reflexivity|].
  rewrite append_cons. cbn [Py.split].
  destruct (Py.isspace c) eqn:Hc; [exact IH|].
  destruct s as [|c' s].
  - reflexivity.
  - rewrite append_cons in *.
    destruct (Py.isspace c') eqn:Hc'.
    + now rewrite IH.
    + rewrite IH.
      destruct (split_head_nonblank c' s Hc') as (w & ws & Hw).
      now rewrite Hw.
Qed.

Lemma split_word (w : string) : is_word w = true -> Py.split w = [w].
Proof.
  unfold is_word. intros [Hne Hall]%andb_true_iff.
  induction w as [|c w IH]; [discriminate|].
  simpl in Hall. apply andb_true_iff in Hall as [Hc Hall].
  apply negb_true_iff in Hc.
  cbn [Py.split]. rewrite Hc.
  destruct w as [|c' w]; [reflexivity|].
  pose proof Hall as Hall'. simpl in Hall'.
  apply andb_true_iff in Hall' as [Hc' _]. apply negb_true_iff in Hc'.
  rewrite Hc'. now rewrite (IH eq_refl Hall).
Qed.

Lemma upper_char_blank (c : ascii) : Py.isspace (Py.upper_char c) = Py.isspace c.
Proof. ascii_cases c; reflexivity. Qed.

Lemma is_word_upper (w : string) : is_word (Py.upper w) = is_word w.
Proof.
  unfold is_word. f_equal.
  - destruct w; reflexivity.
  - induction w as [|c w IH]; [reflexivity|].
    simpl. fold (Py.upper w). now rewrite upper_char_blank, IH.
Qed.

Lemma from_end_app {A} (n : nat) (l k : list A) :
  (1 <= n <= length k)%nat -> Py.from_end n (l ++ k) = Py.from_end n k.
Proof.
  intros Hn. unfold Py.from_end. rewrite length_app.
  destruct (Nat.leb_spec n (length l + length k)); [|lia].
  destruct (Nat.leb_spec n (length k)); [|lia].
  rewrite lookup_app_r by lia. f_equal. lia.
Qed.

Lemma but_last_app {A} (l k : list A) : Py.but_last (length k) (l ++ k) = l.
Proof.
  unfold Py.but_last. rewrite length_app.
  replace (length l + length k - length k)%nat with (length l) by lia.
  now rewrite firstn_app, firstn_all, Nat.sub_diag, firstn_0, app_nil_r.
Qed.

Lemma from_end_is_Some {A} (n : nat) (l : list A) :
  (1 <= n <= length l)%nat -> is_Some (Py.from_end n l).
Proof.
  intros Hn. unfold Py.from_end.
  destruct (Nat.leb_spec n (length l)); [|lia].
  apply lookup_lt_is_Some. lia.
Qed.

Lemma from_end_None {A} (n : nat) (l : list A) :
  (length l < n)%nat -> Py.from_end n l = None.
Proof.
  intros Hn. unfold Py.from_end.
  destruct (Nat.leb_spec n (length l)); [lia | reflexivity].
Qed.

Lemma lower_char_blank (c : ascii) : Py.isspace (Py.lower_char c) = Py.isspace c.
Proof. ascii_cases c; reflexivity. Qed.

Lemma lstrip_lower (s : string) : Py.lstrip (Py.lower s) = Py.lower (Py.lstrip s).
Proof.
  induction s as [|c s IH]; [reflexivity|].
  unfold Py.lower in *. simpl. rewrite lower_char_blank.
  destruct (Py.isspace c); [exact IH | reflexivity].
Qed.

Lemma rstrip_lower (s : string) : Py.rstrip (Py.lower s) = Py.lower (Py.rstrip s).
Proof.
  induction s as [|c s IH]; [reflexivity|].
  unfold Py.lower in *. simpl. rewrite IH, lower_char_blank.
  destruct (Py.rstrip s); simpl; [destruct (Py.isspace c)|]; reflexivity.
Qed.

(** Trimming and lower-casing commute. *)
Lemma strip_lower_comm (s : string) : Py.strip (Py.lower s) = Py.lower (Py.strip s).
Proof. unfold Py.strip. now rewrite lstrip_lower, rstrip_lower. Qed.

Lemma length_append (a b : string) :
  String.length (a +:+ b) = (String.length a + String.length b)%nat.
Proof.
  induction a as [|x a IH]; [reflexivity|].
  rewrite append_cons. simpl. now rewrite IH.
Qed.

Lemma append_inv_tail (a b c : string) : a +:+ c = b +:+ c -> a = b.
Proof.
  revert b; induction a as [|x a IH]; intros [|y b] H.
  - reflexivity.
  - apply (f_equal String.length) in H.
    rewrite append_nil_l, append_cons in H. simpl in H. rewrite length_append in H. lia.
  - apply (f_equal String.length) in H.
    rewrite append_nil_l, append_cons in H. simpl in H. rewrite length_append in H. lia.
  - rewrite !append_cons in H. injection H as -> H. f_equal. now apply IH.
Qed.

Lemma sfilter_append (p : ascii -> bool) (a b : string) :
  Py.sfilter p (a +:+ b) = Py.sfilter p a +:+ Py.sfilter p b.
Proof.
  induction a as [|x a IH]; [reflexivity|].
  rewrite append_cons. simpl. destruct (p x); [|exact IH].
  rewrite append_cons. now f_equal.
Qed.

Lemma sfilter_all (p : ascii -> bool) (s : string) :
  sforallb p s = true -> Py.sfilter p s = s.
Proof.
  induction s as [|c s IH]; [reflexivity|]. simpl.
  intros [Hc Hs]%andb_true_iff. rewrite Hc. f_equal. now apply IH.
Qed.

Lemma sfilter_none (p q : ascii -> bool) (s : string) :
  (forall c, p c = true -> q c = false) ->
  sforallb p s = true -> Py.sfilter q s = "".
Proof.
  intros Hpq. induction s as [|c s IH]; [reflexivity|]. simpl.
  intros [Hc Hs]%andb_true_iff. rewrite (Hpq c Hc). now apply IH.
Qed.

Lemma digit_not_alpha (c : ascii) : Py.isdigit c = true -> Py.isalpha c = false.
Proof. ascii_cases c; vm_compute; congruence. Qed.

Lemma alpha_not_digit (c : ascii) : Py.isalpha c = true -> Py.isdigit c = false.
Proof. ascii_cases c; vm_compute; congruence. Qed.

(** ** Loops *)

Lemma for_each_ext {S A} (f g : S -> A -> option S) (s : S) (l : list A) :
  (forall s a, f s a = g s a) -> for_each f s l = for_each g s l.
Proof.
  intros H. revert s; induction l as [|a l IH]; intros s; simpl; [reflexivity|].
  rewrite H. destruct (g s a); [apply IH | reflexivity].
Qed.

Lemma for_each_preserves {S A} (R : S -> S -> Prop) (body : S -> A -> option S)
    (l : list A) (s s' : S) :
  (forall x, R x x) ->
  (forall x y z, R x y -> R y z -> R x z) ->
  (forall s1 a s2, R s s1 -> a ∈ l -> body s1 a = Some s2 -> R s1 s2) ->
  for_each body s l = Some s' -> R s s'.
Proof.
  intros Hrefl Htrans Hbody.
  assert (G : forall l' s1, (forall a, a ∈ l' -> a ∈ l) -> R s s1 ->
                for_each body s1 l' = Some s' -> R s s').
  { induction l' as [|a l' IH]; intros s1 Hsub Hs1; simpl.
    - now intros [= <-].
    - destruct (body s1 a) as [s2|] eqn:E; [|discriminate].
      intros Hrest. apply (IH s2); [| |exact Hrest].
      + intros b Hb. apply Hsub. now right.
      + eapply Htrans; [exact Hs1|]. eapply Hbody; eauto. apply Hsub. now left. }
  apply (G l s); auto.
Qed.

Lemma for_each_invariant {S A} (I : S -> Prop) (body : S -> A -> option S)
    (l : list A) (s s' : S) :
  I s ->
  (forall s1 b s2, I s1 -> b ∈ l -> body s1 b = Some s2 -> I s2) ->
  for_each body s l = Some s' -> I s'.
Proof.
  intros Hs Hbody Hrun.
  apply (for_each_preserves (fun x y => I x -> I y) body l s s'); auto.
  intros s1 b s2 Hs1 Hb Hstep Hi. eapply Hbody; eauto.
Qed.

Lemma for_each_establishes {S A} (I P : S -> Prop) (body : S -> A -> option S)
    (l : list A) (a : A) (s s' : S) :
  I s -> a ∈ l ->
  (forall s1 b s2, I s1 -> b ∈ l -> body s1 b = Some s2 ->
                   I s2 /\ (P s1 -> P s2) /\ (b = a -> P s2)) ->
  for_each body s l = Some s' -> I s' /\ P s'.
Proof.
  intros Hs Ha Hbody.
  assert (G : forall l' s1, (forall b, b ∈ l' -> b ∈ l) -> I s1 -> P s1 \/ a ∈ l' ->
                for_each body s1 l' = Some s' -> I s' /\ P s').
  { induction l' as [|b l' IH]; intros s1 Hsub Hs1 Hor; simpl.
    - intros [= <-]. split; [exact Hs1|].
      destruct Hor as [?|Hin]; [assumption | by apply elem_of_nil in Hin].
    - destruct (body s1 b) as [s2|] eqn:E; [|discriminate].
      destruct (Hbody s1 b s2 Hs1 (Hsub b ltac:(now left)) E) as (HI & HP & Hest).
      apply IH; [intros x Hx; apply Hsub; now right | exact HI |].
      destruct Hor as [HP1|Hin]; [left; now apply HP|].
      apply elem_of_cons in Hin as [->|Hin]; [left; now apply Hest | now right]. }
  apply (G l s); auto.
Qed.

Lemma for_each_app {S A} (body : S -> A -> option S) (l k : list A) (s : S) :
  for_each body s (l ++ k) = for_each body s l ≫= fun s' => for_each body s' k.
Proof.
  revert s; induction l as [|a l IH]; intros s; simpl; [reflexivity|].
  destruct (body s a); [apply IH | reflexivity].
Qed.

(** A loop over the categories with an inner loop over their tasks visits
    all tasks of the sheet in order. *)
Lemma for_each_tasks {S} (body : S -> Task -> option S) (cats : list Category) (s : S) :
  for_each (fun s category => for_each body s (tasks category)) s cats
  = for_each body s (flat_map tasks cats).
Proof.
  revert s; induction cats as [|c cats IH]; intros s; simpl; [reflexivity|].
  rewrite for_each_app. destruct (for_each body s (tasks c)); simpl; [apply IH | reflexivity].
Qed.

(** ** File names *)

(** The stem a write-back saved under parses back into its base name
    (blank-normalized) and its upper-case period label. *)
Lemma parse_saved_stem (base_name : string) (prev : selection) :
  is_word (selected_day prev) = true ->
  is_word (selected_month prev) = true ->
  is_word (Py.drop 2 (selected_year prev)) = true ->
  parse_filename (saved_stem base_name prev)
  = Some (Py.join " " (Py.split base_name), Py.upper (selected_month prev)).
Proof.
  intros Hd Hm Hy.
  assert (Hs : Py.split (saved_stem base_name prev)
               = Py.split base_name ++
                 [selected_day prev; Py.upper (selected_month prev);
                  Py.drop 2 (selected_year prev)]).
  { unfold saved_stem. rewrite !(append_cons " " ""), !append_nil_l, !split_app_blank.
    rewrite (split_word _ Hd), (split_word _ Hy).
    rewrite (split_word (Py.upper _)) by now rewrite is_word_upper.
    reflexivity. }
  unfold parse_filename. rewrite Hs.
  rewrite from_end_app by (simpl; lia).
  change 3%nat with (length [selected_day prev; Py.upper (selected_month prev);
                             Py.drop 2 (selected_year prev)]) at 1.
  rewrite but_last_app. reflexivity.
Qed.

Lemma write_sheet_spec (m : period_mode) sel old_month :
  m = (if String.eqb old_month (Py.upper (selected_month sel)) then SamePeriod else NewPeriod) ->
  forall wb sheet_data,
    write_sheet sel old_month wb sheet_data = spec_write_sheet m sel wb sheet_data.
Proof.
  intros -> wb sheet_data. unfold write_sheet, spec_write_sheet.
  destruct (String.eqb old_month (Py.upper (selected_month sel))); reflexivity.
Qed.

(** The code's two tests of [old_month] against the upper-cased selection
    amount to one choice of mode, taken from the verbatim stored label. *)
Lemma save_by_mode sel data stem base_name old_month workbook :
  parse_filename stem = Some (base_name, old_month) ->
  _save_to_excel sel data true stem workbook =
    match spec_rewrite
            (if String.eqb old_month (Py.upper (selected_month sel))
             then SamePeriod else NewPeriod) sel data workbook with
    | Some wb => Saved (new_filename_of base_name sel) wb
    | None => Failed
    end.
Proof.
  intros Hp. unfold _save_to_excel. rewrite Hp. simpl negb at 1. cbv iota.
  unfold spec_rewrite.
  destruct (String.eqb old_month (Py.upper (selected_month sel))) eqn:E; simpl.
  - erewrite for_each_ext; [reflexivity|].
    intros; apply write_sheet_spec. now rewrite E.
  - destruct (_clear_previous_month_data data workbook); simpl; [|reflexivity].
    erewrite for_each_ext; [reflexivity|].
    intros; apply write_sheet_spec. now rewrite E.
Qed.

(** C1. For every file name and every newly selected period label, the
    write-back runs in same-period mode exactly when the label parsed from
    the file name (the second-to-last token of its stem, as it stands) equals
    the upper-cased selected label, and in new-period mode otherwise; that
    one mode decides both whether the reset pass runs and which write
    strategy is used.  For a label in upper case, and so for every file
    name a previous write-back saved (its stem is [saved_stem]), this is
    equality of the two labels under case normalization. *)
Theorem C1_period_gate (sel : selection) (data : list SheetData)
    (stem old_month : string) (workbook : list worksheet) :
  Py.from_end 2 (Py.split stem) = Some old_month ->
  let mode := if String.eqb old_month (Py.upper (selected_month sel))
              then SamePeriod else NewPeriod in
  (mode = SamePeriod <-> old_month = Py.upper (selected_month sel)) /\
  (mode = NewPeriod <-> old_month <> Py.upper (selected_month sel)) /\
  _save_to_excel sel data true stem workbook =
    match spec_rewrite mode sel data workbook with
    | Some wb => Saved (new_filename_of (Py.join " " (Py.but_last 3 (Py.split stem))) sel) wb
    | None => Failed
    end /\
  (Py.upper old_month = old_month ->
   mode = spec_transition_policy old_month (selected_month sel)) /\
  (forall base_name prev,
     is_word (selected_day prev) = true ->
     is_word (selected_month prev) = true ->
     is_word (Py.drop 2 (selected_year prev)) = true ->
     stem = saved_stem base_name prev ->
     new_filename_of base_name prev = stem +:+ ".xlsx" /\
     old_month = Py.upper (selected_month prev) /\
     (mode = SamePeriod
      <-> Py.upper (selected_month prev) = Py.upper (selected_month sel)) /\
     (mode = NewPeriod
      <-> Py.upper (selected_month prev) <> Py.upper (selected_month sel))).
Proof.
  intros Hlabel mode.
  assert (Hp : parse_filename stem
               = Some (Py.join " " (Py.but_last 3 (Py.split stem)), old_month)).
  { unfold parse_filename. now rewrite Hlabel. }
  assert (Hupper : Py.upper old_month = old_month ->
                   mode = spec_transition_policy old_month (selected_month sel)).
  { intros Hu. unfold spec_transition_policy. now rewrite Hu. }
  assert (Hsame : mode = SamePeriod <-> old_month = Py.upper (selected_month sel)).
  { subst mode. destruct (String.eqb_spec old_month (Py.upper (selected_month sel)));
      split; [done | done | discriminate | contradiction]. }
  assert (Hnew : mode = NewPeriod <-> old_month <> Py.upper (selected_month sel)).
  { subst mode. destruct (String.eqb_spec old_month (Py.upper (selected_month sel)));
      split; [discriminate | contradiction | done | done]. }
  split; [exact Hsame|]. split; [exact Hnew|]. split; [now apply save_by_mode|].
  split; [exact Hupper|].
  intros base_name prev Hd Hm Hy ->.
  split; [unfold new_filename_of, saved_stem; now rewrite !append_assoc|].
  rewrite (parse_saved_stem base_name prev Hd Hm Hy) in Hp.
  injection Hp as _ Hold. subst old_month. auto.
Qed.

Lemma C1_period_gate_witness :
  let feb := mkSelection "ab" "03" "Feb" "2024" "ok" in
  let stem := "Fire Panel 12 JAN 24" in
  (_save_to_excel feb sample_data true stem [sample_sheet]
   = match spec_rewrite NewPeriod feb sample_data [sample_sheet] with
     | Some wb => Saved "Fire Panel 03 FEB 24.xlsx" wb
     | None => Failed
     end /\
   _save_to_excel sample_selection sample_data true stem [sample_sheet]
   = match spec_rewrite SamePeriod sample_selection sample_data [sample_sheet] with
     | Some wb => Saved "Fire Panel 15 JAN 24.xlsx" wb
     | None => Failed
     end) /\
  ((fun ws => (cell_value ws (9, 2), cell_value ws (9, 3)))
     <$> saved_workbook (_save_to_excel feb sample_data true stem [sample_sheet]) !! 0%nat
   = Some (Py.VStr "AB 03 FEB 24", Py.VStr "OK") /\
   (fun ws => (cell_value ws (9, 2), cell_value ws (9, 3)))
     <$> saved_workbook (_save_to_excel sample_selection sample_data true stem
                           [sample_sheet]) !! 0%nat
   = Some (Py.VStr "CD 02 JAN 24", Py.VNone)).
Proof.
  split; [split|].
  - exact (proj1 (proj2 (proj2
             (C1_period_gate (mkSelection "ab" "03" "Feb" "2024" "ok") sample_data
                "Fire Panel 12 JAN 24" "JAN" [sample_sheet] eq_refl)))).
  - exact (proj1 (proj2 (proj2
             (C1_period_gate sample_selection sample_data
                "Fire Panel 12 JAN 24" "JAN" [sample_sheet] eq_refl)))).
  - split; vm_compute; reflexivity.
Defined.

(** A period label that a hand-named file carries in mixed case is
    compared as it stands: "Jan" against the selection "Jan" counts as a new
    period, and the filled slot B9, which a same-period rewrite keeps, is
    overwritten. *)
Example mixed_case_label :
  Py.from_end 2 (Py.split "Fire Panel 12 Jan 24") = Some "Jan" /\
  parse_filename "Fire Panel 12 Jan 24" = Some ("Fire Panel", "Jan") /\
  spec_transition_policy "Jan" (selected_month sample_selection) = SamePeriod /\
  _save_to_excel sample_selection sample_data true "Fire Panel 12 Jan 24" [sample_sheet]
  = match spec_rewrite NewPeriod sample_selection sample_data [sample_sheet] with
    | Some wb => Saved "Fire Panel 15 JAN 24.xlsx" wb
    | None => Failed
    end /\
  (fun ws => cell_value ws (9, 2))
    <$> saved_workbook (_save_to_excel sample_selection sample_data true
                          "Fire Panel 12 Jan 24" [sample_sheet]) !! 0%nat
  = Some (Py.VStr "AB 15 JAN 24") /\
  (fun wb => (fun ws => cell_value ws (9, 2)) <$> wb !! 0%nat)
    <$> spec_rewrite SamePeriod sample_selection sample_data [sample_sheet]
  = Some (Some (Py.VStr "CD 02 JAN 24")).
Proof. repeat split; vm_compute; reflexivity. Qed.

Lemma save_outcome sel data stem base_name old_month workbook :
  parse_filename stem = Some (base_name, old_month) ->
  _save_to_excel sel data true stem workbook = Failed \/
  exists wb, _save_to_excel sel data true stem workbook
             = Saved (new_filename_of base_name sel) wb.
Proof.
  intros Hp. rewrite (save_by_mode _ _ _ _ _ _ Hp).
  destruct (spec_rewrite _ _ _ _); eauto.
Qed.

(** C6. When the stem of the source file name has at least three
    blank-separated tokens, the output file name is the tokens before the
    trailing three, joined by single blanks, followed by the selected day,
    the upper-cased period label and the two-digit year, with extension
    .xlsx: the name is fixed before any worksheet is touched, and every
    write-back that reaches the save step saves under it. *)
Theorem C6_output_filename (sel : selection) (data : list SheetData)
    (stem : string) (workbook : list worksheet) :
  (3 <= length (Py.split stem))%nat ->
  let base_name := Py.join " " (Py.but_last 3 (Py.split stem)) in
  let expected := base_name +:+ " " +:+ selected_day sel +:+ " " +:+
                  Py.upper (selected_month sel) +:+ " " +:+
                  Py.drop 2 (selected_year sel) +:+ ".xlsx" in
  (exists old_month, parse_filename stem = Some (base_name, old_month)) /\
  new_filename_of base_name sel = expected /\
  (forall f wb, _save_to_excel sel data true stem workbook = Saved f wb -> f = expected) /\
  (exists wb, _save_to_excel sel [] true stem [] = Saved expected wb).
Proof.
  intros Hlen base_name expected.
  destruct (from_end_is_Some 2 (Py.split stem)) as [old_month Hold]; [lia|].
  assert (Hp : parse_filename stem = Some (base_name, old_month)).
  { unfold parse_filename. now rewrite Hold. }
  assert (Hname : new_filename_of base_name sel = expected).
  { unfold new_filename_of, expected. now rewrite !append_assoc. }
  split; [eauto|]. split; [exact Hname|]. split.
  - intros f wb Hs.
    destruct (save_outcome sel data stem base_name old_month workbook Hp) as [Hf|[wb' Hs']];
      congruence.
  - rewrite (save_by_mode _ _ _ _ _ _ Hp), Hname.
    destruct (String.eqb old_month (Py.upper (selected_month sel))); simpl; eauto.
Qed.

Lemma C6_output_filename_witness :
  (exists old_month, parse_filename "Fire Panel 12 JAN 24" = Some ("Fire Panel", old_month)) /\
  new_filename_of "Fire Panel" (mkSelection "ab" "15" "Jan" "2024" "ok")
  = "Fire Panel 15 JAN 24.xlsx" /\
  (forall f wb,
      _save_to_excel (mkSelection "ab" "15" "Jan" "2024" "ok") [] true
                     "Fire Panel 12 JAN 24" [] = Saved f wb ->
      f = "Fire Panel 15 JAN 24.xlsx") /\
  (exists wb, _save_to_excel (mkSelection "ab" "15" "Jan" "2024" "ok") [] true
                             "Fire Panel 12 JAN 24" [] = Saved "Fire Panel 15 JAN 24.xlsx" wb).
Proof.
  apply (C6_output_filename (mkSelection "ab" "15" "Jan" "2024" "ok") [] "Fire Panel 12 JAN 24" []).
  simpl. lia.
Defined.

(** The scenario of the specification, in same-period mode on a sheet
    with one open task. *)
Example fire_panel_same_period :
  exists wb,
    _save_to_excel (mkSelection "ab" "15" "Jan" "2024" "ok")
      [mkSheetData "Sheet 1"
         [mkCategory "Fire Safety"
            [mkTask "Check extinguisher" "" [("B9", "no input"); ("C9", "no input")]]]]
      true "Fire Panel 12 JAN 24"
      [Worksheet ∅ [] 9]
    = Saved "Fire Panel 15 JAN 24.xlsx" wb /\
    (fun ws => cell_value ws (9, 2)) <$> wb !! 0%nat = Some (Py.VStr "AB 15 JAN 24") /\
    (fun ws => cell_value ws (9, 3)) <$> wb !! 0%nat = Some (Py.VStr "OK").
Proof. eexists. split; [vm_compute; reflexivity|]. split; vm_compute; reflexivity. Qed.

(** The second scenario of the specification: a new period label runs
    the reset pass on rows 9 and below before the write pass. *)
Example fire_panel_new_period :
  exists wb,
    _save_to_excel (mkSelection "ab" "03" "Feb" "2024" "ok") sample_data
      true "Fire Panel 12 JAN 24" [sample_sheet]
    = Saved "Fire Panel 03 FEB 24.xlsx" wb /\
    (fun ws => (cell_value ws (8, 2), cell_value ws (9, 2), cell_value ws (9, 3)))
      <$> wb !! 0%nat
    = Some (Py.VStr "Date Inspected by who?", Py.VStr "AB 03 FEB 24", Py.VStr "OK").
Proof. eexists. split; vm_compute; reflexivity. Qed.

(** C7, as stated, fails: a stem of exactly two tokens is accepted, the
    base name being empty, and the write-back reaches the save step. *)
Lemma C7_two_tokens_accepted :
  Py.split "JAN 24" = ["JAN"; "24"] /\
  parse_filename "JAN 24" = Some ("", "JAN") /\
  exists wb,
    _save_to_excel sample_selection sample_data true "JAN 24" [sample_sheet]
    = Saved " 15 JAN 24.xlsx" wb.
Proof.
  split; [reflexivity|]. split; [reflexivity|].
  eexists. vm_compute. reflexivity.
Qed.

(** C7, amended. When the stem of the source file name has fewer than two
    blank-separated tokens, the write-back fails before the save step:
    nothing is handed to [save], whatever the workbook and the data. *)
Theorem C7_short_stem_fails (sel : selection) (data : list SheetData)
    (xlsx_exists : bool) (stem : string) (workbook : list worksheet) :
  (length (Py.split stem) < 2)%nat ->
  parse_filename stem = None /\
  _save_to_excel sel data xlsx_exists stem workbook = Failed.
Proof.
  intros Hlen.
  assert (Hp : parse_filename stem = None).
  { unfold parse_filename. now rewrite from_end_None. }
  split; [exact Hp|].
  unfold _save_to_excel. rewrite Hp. now destruct xlsx_exists.
Qed.

Lemma C7_short_stem_fails_witness :
  parse_filename "Checklist" = None /\
  _save_to_excel (mkSelection "ab" "15" "Jan" "2024" "ok") [] true "Checklist" [] = Failed.
Proof.
  apply (C7_short_stem_fails (mkSelection "ab" "15" "Jan" "2024" "ok") [] true "Checklist" []).
  simpl. lia.
Defined.

(** A stem of exactly two tokens is read as an empty base name followed
    by a period label and a year. *)
Lemma two_token_stem (stem a b : string) :
  Py.split stem = [a; b] -> parse_filename stem = Some ("", a).
Proof. intros H. unfold parse_filename. now rewrite H. Qed.

(** ** Sorting of references *)

Lemma ascii_compare_spec (a b : ascii) :
  CompareSpec (a = b) (N_of_ascii a < N_of_ascii b)%N (N_of_ascii b < N_of_ascii a)%N
              (Ascii.compare a b).
Proof.
  unfold Ascii.compare.
  destruct (N.compare_spec (N_of_ascii a) (N_of_ascii b)) as [E|L|G]; constructor; auto.
  now rewrite <- (ascii_N_embedding a), <- (ascii_N_embedding b), E.
Qed.

Lemma string_compare_refl (a : string) : String.compare a a = Eq.
Proof.
  induction a as [|x a IH]; [reflexivity|]. simpl.
  destruct (ascii_compare_spec x x); [exact IH | lia | lia].
Qed.



Lemma insert_sorted_perm (x : string) (l : list string) : insert_sorted x l ≡ₚ x :: l.
Proof.
  induction l as [|y l IH]; simpl; [reflexivity|].
  destruct (String.leb x y); [reflexivity|].
  rewrite IH. apply Permutation_swap.
Qed.

Lemma sorted_perm (l : list string) : sorted l ≡ₚ l.
Proof.
  induction l as [|x l IH]; simpl; [reflexivity|].
  unfold sorted in *. simpl. now rewrite insert_sorted_perm, IH.
Qed.



(** ** The same-period allocator *)

Lemma scan_empty_spec (ws : worksheet) (input_cells acc : list string) :
  (length acc < 2)%nat ->
  let found := acc ++ List.filter (is_empty_slot ws) input_cells in
  match scan_empty ws input_cells acc with
  | inl r => r = firstn 2 found /\ (2 <= length found)%nat
  | inr r => r = found /\ (length found < 2)%nat
  end.
Proof.
  revert acc; induction input_cells as [|c rest IH]; intros acc Hacc; simpl.
  - rewrite app_nil_r. auto.
  - destruct (is_empty_slot ws c) eqn:E.
    + destruct (Nat.eqb_spec (length (acc ++ [c])) 2) as [H2|H2].
      * rewrite length_app in H2. simpl in H2.
        replace (acc ++ c :: List.filter (is_empty_slot ws) rest)
          with ((acc ++ [c]) ++ List.filter (is_empty_slot ws) rest)
          by now rewrite <- app_assoc.
        assert (Hl : length (acc ++ [c]) = 2%nat) by (rewrite length_app; simpl; lia).
        rewrite firstn_app, Hl, Nat.sub_diag, firstn_0, app_nil_r.
        rewrite firstn_all2 by lia.
        split; [reflexivity|]. rewrite length_app. lia.
      * specialize (IH (acc ++ [c])).
        rewrite <- app_assoc in IH. simpl in IH. apply IH.
        rewrite length_app in *. simpl in *. lia.
    + apply IH. exact Hacc.
Qed.

Lemma find_next_empty_columns_spec (ws : worksheet) (task : Task) :
  _find_next_empty_columns ws task =
    match List.filter (is_empty_slot ws) (sorted (keys (inputs task))) with
    | [] => firstn 2 (sorted (keys (inputs task)))
    | [e] => [e]
    | e1 :: e2 :: _ => [e1; e2]
    end.
Proof.
  unfold _find_next_empty_columns.
  pose proof (scan_empty_spec ws (sorted (keys (inputs task))) [] ltac:(simpl; lia)) as H.
  simpl in H.
  destruct (scan_empty ws (sorted (keys (inputs task))) []) as [r|r];
    destruct H as [-> Hlen];
    destruct (List.filter (is_empty_slot ws) (sorted (keys (inputs task)))) as [|e1 [|e2 l]];
    simpl in *; try lia; reflexivity.
Qed.



(** ** Column letters *)

Lemma letter_val_range (c : ascii) : Py.isalpha c = true -> 1 <= letter_val c <= 26.
Proof.
  ascii_cases c; vm_compute; intros H;
    first [discriminate H | split; discriminate].
Qed.

Lemma letters_acc_lower (s : string) (acc : Z) :
  sforallb Py.isalpha s = true -> 0 <= acc ->
  acc <= letters_acc acc s /\ (s <> "" -> 1 <= letters_acc acc s).
Proof.
  revert acc; induction s as [|c s IH]; intros acc Hall Hacc; simpl.
  - split; [lia | congruence].
  - simpl in Hall. apply andb_true_iff in Hall as [Hc Hall].
    pose proof (letter_val_range c Hc) as Hv.
    destruct (IH (26 * acc + letter_val c) Hall ltac:(lia)) as [Hge _].
    split; [lia | intros _; lia].
Qed.

Lemma column_index_pos (s : string) (col : Z) :
  column_index_from_string s = Some col -> 1 <= col.
Proof.
  unfold column_index_from_string.
  destruct (_ && _ && sforallb Py.isalpha s) eqn:E; [|discriminate].
  intros [= <-].
  apply andb_true_iff in E as [[Hlen _]%andb_true_iff Hall].
  apply (letters_acc_lower s 0 Hall); [lia|].
  destruct s; [discriminate | congruence].
Qed.

Lemma split_ref_col_pos (cell_ref : string) (row col : Z) :
  split_ref cell_ref = Some (row, col) -> 1 <= col.
Proof.
  unfold split_ref. intros H.
  destruct (Py.int _) as [r|]; [|discriminate]. simpl in H.
  destruct (column_index_from_string _) as [c|] eqn:E; [|discriminate]. simpl in H.
  injection H as <- <-. eapply column_index_pos, E.
Qed.

(** ** Merged regions *)

Lemma in_range_iff (mr : cell_range) (row col : Z) :
  in_range mr row col = true <->
  min_row mr <= row <= max_row mr /\ min_col mr <= col <= max_col mr.
Proof. unfold in_range. rewrite !andb_true_iff, !Z.leb_le. lia. Qed.

Lemma range_ok_iff (mr : cell_range) :
  range_ok mr = true <->
  1 <= min_row mr <= max_row mr /\ 1 <= min_col mr <= max_col mr.
Proof. unfold range_ok. rewrite !andb_true_iff, !Z.leb_le. lia. Qed.

Lemma in_range_overlaps (a b : cell_range) (row col : Z) :
  in_range a row col = true -> in_range b row col = true -> overlaps a b = true.
Proof.
  rewrite !in_range_iff. unfold overlaps. rewrite !andb_true_iff, !Z.leb_le. lia.
Qed.

Lemma overlaps_sym (a b : cell_range) : overlaps a b = overlaps b a.
Proof.
  unfold overlaps.
  destruct (min_row a <=? max_row b), (min_row b <=? max_row a),
           (min_col a <=? max_col b), (min_col b <=? max_col a); reflexivity.
Qed.

Lemma disjoint_unique (l : list cell_range) (a b : cell_range) (row col : Z) :
  pairwise_disjoint l = true -> a ∈ l -> b ∈ l ->
  in_range a row col = true -> in_range b row col = true -> a = b.
Proof.
  intros Hd Ha Hb Hia Hib.
  induction l as [|x l IH]; [by apply elem_of_nil in Ha|].
  simpl in Hd. apply andb_true_iff in Hd as [Hx Hd].
  rewrite forallb_forall in Hx.
  apply elem_of_cons in Ha as [->|Ha]; apply elem_of_cons in Hb as [->|Hb]; auto.
  - specialize (Hx b). rewrite <- list_elem_of_In in Hx. specialize (Hx Hb).
    rewrite (in_range_overlaps x b row col Hia Hib) in Hx. discriminate.
  - specialize (Hx a). rewrite <- list_elem_of_In in Hx. specialize (Hx Ha).
    rewrite (in_range_overlaps x a row col Hib Hia) in Hx. discriminate.
Qed.

Lemma regions_ok_inv (ws : worksheet) :
  regions_ok ws = true ->
  (forall mr, mr ∈ merged_cells ws -> range_ok mr = true) /\
  pairwise_disjoint (merged_cells ws) = true.
Proof.
  unfold regions_ok. intros [Hr Hd]%andb_true_iff. split; [|exact Hd].
  intros mr Hmr. rewrite forallb_forall in Hr. apply Hr. now apply list_elem_of_In.
Qed.

Lemma anchor_in_range (mr : cell_range) :
  range_ok mr = true -> in_range mr (min_row mr) (min_col mr) = true.
Proof. rewrite range_ok_iff, in_range_iff. lia. Qed.

(** The top-left cell of a merged region is an ordinary, writable cell. *)
Lemma anchor_not_merged (ws : worksheet) (mr : cell_range) :
  regions_ok ws = true -> mr ∈ merged_cells ws ->
  is_merged_cell ws (min_row mr) (min_col mr) = false.
Proof.
  intros Hok Hmr. destruct (regions_ok_inv ws Hok) as [Hr Hd].
  unfold is_merged_cell. apply not_true_is_false. intros He.
  apply existsb_exists in He as (mr' & Hin & Hc).
  apply andb_true_iff in Hc as [Hir Hna].
  apply list_elem_of_In in Hin.
  assert (mr' = mr) as ->.
  { eapply disjoint_unique; eauto. apply anchor_in_range. now apply Hr. }
  unfold is_anchor in Hna. rewrite !Z.eqb_refl in Hna. discriminate.
Qed.

Lemma no_region_not_merged (ws : worksheet) (row col : Z) :
  (forall mr, mr ∈ merged_cells ws -> in_range mr row col = false) ->
  is_merged_cell ws row col = false.
Proof.
  intros H. unfold is_merged_cell. apply not_true_is_false. intros He.
  apply existsb_exists in He as (mr & Hin & Hc).
  apply list_elem_of_In in Hin. rewrite (H mr Hin) in Hc. discriminate.
Qed.

(** What the resolver returns, by whether a region contains the
    reference. *)
Lemma resolve_cases (ws : worksheet) (cell_ref : string) (row col : Z) :
  split_ref cell_ref = Some (row, col) ->
  (exists mr, mr ∈ merged_cells ws /\ in_range mr row col = true /\
              _get_unmerged_cell ws cell_ref = ws_cell (min_row mr) (min_col mr)) \/
  ((forall mr, mr ∈ merged_cells ws -> in_range mr row col = false) /\
   _get_unmerged_cell ws cell_ref = ws_cell row col).
Proof.
  intros Hs. unfold _get_unmerged_cell. rewrite Hs. simpl.
  destruct (find _ (merged_cells ws)) as [mr|] eqn:Hf.
  - left. apply find_some in Hf as [Hin Hir]. exists mr.
    rewrite <- list_elem_of_In in Hin. auto.
  - right. split; [|reflexivity].
    intros mr Hin. apply list_elem_of_In in Hin.
    apply (find_none _ _ Hf mr Hin).
Qed.

Lemma ws_cell_ok (row col : Z) :
  1 <= row <= MAX_ROW -> 1 <= col -> ws_cell row col = Some (row, col).
Proof.
  intros Hr Hc. unfold ws_cell.
  destruct (Z.ltb_spec row 1); [lia|]. destruct (Z.ltb_spec col 1); [lia|].
  destruct (Z.ltb_spec MAX_ROW row); [lia|]. reflexivity.
Qed.

Lemma ws_cell_inv (row col : Z) (cell : Z * Z) :
  ws_cell row col = Some cell -> cell = (row, col) /\ 1 <= row <= MAX_ROW /\ 1 <= col.
Proof.
  unfold ws_cell.
  destruct (Z.ltb_spec row 1); [discriminate|]. destruct (Z.ltb_spec col 1); [discriminate|].
  destruct (Z.ltb_spec MAX_ROW row); [discriminate|].
  intros [= <-]. auto.
Qed.


(** On well-formed regions the resolver never hands out a read-only
    cell. *)
Lemma resolved_not_merged (ws : worksheet) (cell_ref : string) (cell : Z * Z) :
  regions_ok ws = true -> _get_unmerged_cell ws cell_ref = Some cell ->
  is_merged_cell ws cell.1 cell.2 = false.
Proof.
  intros Hok Hres.
  destruct (split_ref cell_ref) as [[row col]|] eqn:Hs.
  - destruct (resolve_cases ws cell_ref row col Hs) as [(mr & Hin & Hir & Hr)|[Hno Hr]];
      rewrite Hr in Hres; apply ws_cell_inv in Hres as [-> _]; simpl.
    + now apply anchor_not_merged.
    + now apply no_region_not_merged.
  - unfold _get_unmerged_cell in Hres. rewrite Hs in Hres. discriminate.
Qed.

Lemma cell_value_set (ws ws' : worksheet) (cell : Z * Z) (v : Py.value) :
  set_value ws cell v = Some ws' ->
  merged_cells ws' = merged_cells ws /\
  cell_value ws' cell = v /\
  (forall pos, pos <> cell -> cell_value ws' pos = cell_value ws pos).
Proof.
  unfold set_value. destruct (is_merged_cell ws cell.1 cell.2) eqn:Hm; [discriminate|].
  intros [= <-]. split; [reflexivity|]. split.
  - unfold cell_value, is_merged_cell in *. simpl. rewrite Hm. simpl.
    now rewrite lookup_insert_eq.
  - intros pos Hne. unfold cell_value, is_merged_cell. simpl.
    now rewrite lookup_insert_ne.
Qed.

(** C9. For every cell reference of the sheet (a row from 1 to 1048576)
    and every worksheet with well-formed merged regions, the merged-cell
    resolver returns the top-left cell of the merged region that contains
    the coordinate when there is one, and the cell at the coordinate itself
    when no region contains it; so a write of a legal text aimed at any
    member of a merged region (of a 2x1 region in particular) lands on the
    region's top-left cell and changes no other cell. *)
Theorem C9_resolver (ws : worksheet) (cell_ref : string) (row col : Z) :
  split_ref cell_ref = Some (row, col) ->
  1 <= row <= MAX_ROW ->
  regions_ok ws = true ->
  (forall mr, mr ∈ merged_cells ws ->
     min_row mr <= row <= max_row mr -> min_col mr <= col <= max_col mr ->
     _get_unmerged_cell ws cell_ref = Some (min_row mr, min_col mr) /\
     forall v, legal_text v = true ->
       exists ws',
         write_ref ws cell_ref v = Some ws' /\
         cell_value ws' (min_row mr, min_col mr) = Py.VStr v /\
         forall pos, pos <> (min_row mr, min_col mr) -> cell_value ws' pos = cell_value ws pos) /\
  ((forall mr, mr ∈ merged_cells ws ->
      ~ (min_row mr <= row <= max_row mr /\ min_col mr <= col <= max_col mr)) ->
   _get_unmerged_cell ws cell_ref = Some (row, col)).
Proof.
  intros Hs Hrow Hok. destruct (regions_ok_inv ws Hok) as [Hr Hd].
  pose proof (split_ref_col_pos _ _ _ Hs) as Hcol.
  split.
  - intros mr Hin Hrows Hcols.
    assert (Hir : in_range mr row col = true) by (apply in_range_iff; lia).
    assert (Hres : _get_unmerged_cell ws cell_ref = Some (min_row mr, min_col mr)).
    { destruct (resolve_cases ws cell_ref row col Hs) as [(mr' & Hin' & Hir' & Hres)|[Hno _]].
      - assert (mr' = mr) as -> by (eapply disjoint_unique; eauto).
        rewrite Hres. pose proof (Hr mr Hin) as Hmr. apply range_ok_iff in Hmr.
        apply ws_cell_ok; lia.
      - rewrite (Hno mr Hin) in Hir. discriminate. }
    split; [exact Hres|].
    intros v _. unfold write_ref. rewrite Hres.
    pose proof (anchor_not_merged ws mr Hok Hin) as Hnm.
    destruct (set_value ws (min_row mr, min_col mr) (Py.VStr v)) as [ws'|] eqn:Hset.
    + exists ws'. split; [reflexivity|]. apply cell_value_set in Hset. tauto.
    + unfold set_value in Hset. simpl in Hset. rewrite Hnm in Hset. discriminate.
  - intros Hno.
    destruct (resolve_cases ws cell_ref row col Hs) as [(mr' & Hin' & Hir' & _)|[_ Hres]].
    + apply in_range_iff in Hir'. destruct (Hno mr' Hin' Hir').
    + rewrite Hres. now apply ws_cell_ok.
Qed.

Lemma C9_resolver_witness :
  (_get_unmerged_cell merged_sheet "B10" = Some (9, 2) /\
   exists ws',
     write_ref merged_sheet "B10" "OK" = Some ws' /\
     cell_value ws' (9, 2) = Py.VStr "OK" /\
     forall pos, pos <> (9, 2) -> cell_value ws' pos = cell_value merged_sheet pos) /\
  _get_unmerged_cell merged_sheet "C10" = Some (10, 3).
Proof.
  split.
  - destruct (C9_resolver merged_sheet "B10" 10 2 eq_refl ltac:(unfold MAX_ROW; lia) eq_refl)
      as [Hin _].
    destruct (Hin (CellRange 9 2 10 2)) as [Hres Hwrite];
      [apply list_elem_of_here | simpl; lia | simpl; lia |].
    split; [exact Hres|]. apply (Hwrite "OK"). reflexivity.
  - destruct (C9_resolver merged_sheet "C10" 10 3 eq_refl ltac:(unfold MAX_ROW; lia) eq_refl)
      as [_ Hout].
    apply Hout. intros mr Hmr [Hrows Hcols].
    apply list_elem_of_singleton in Hmr. subst mr. simpl in Hcols. lia.
Defined.

(** Both members of the 2x1 region B9:B10 resolve to B9, and a write to
    either one is read back from B9. *)
Example two_by_one_region :
  _get_unmerged_cell merged_sheet "B9" = Some (9, 2) /\
  _get_unmerged_cell merged_sheet "B10" = Some (9, 2) /\
  (fun ws => cell_value ws (9, 2)) <$> write_ref merged_sheet "B10" "OK" = Some (Py.VStr "OK") /\
  _get_unmerged_cell merged_sheet "C10" = Some (10, 3).
Proof. repeat split; vm_compute; reflexivity. Qed.

(** ** The write pass *)

(** The frame of the write pass, for a fixed cell. *)
Section Frame.

Variable pos : Z * Z.

Lemma unchanged_at_refl (ws : worksheet) : unchanged_at pos ws ws.
Proof. split; reflexivity. Qed.

Lemma unchanged_at_trans (a b c : worksheet) :
  unchanged_at pos a b -> unchanged_at pos b c -> unchanged_at pos a c.
Proof. intros [H1 H2] [H3 H4]. split; congruence. Qed.

Lemma resolve_merged_eq (ws ws' : worksheet) (cell_ref : string) :
  merged_cells ws' = merged_cells ws ->
  _get_unmerged_cell ws' cell_ref = _get_unmerged_cell ws cell_ref.
Proof. intros H. unfold _get_unmerged_cell. now rewrite H. Qed.

Lemma write_ref_unchanged (ws ws' : worksheet) (cell_ref v : string) :
  write_ref ws cell_ref v = Some ws' ->
  _get_unmerged_cell ws cell_ref <> Some pos ->
  unchanged_at pos ws ws'.
Proof.
  unfold write_ref. intros Hw Hne.
  destruct (_get_unmerged_cell ws cell_ref) as [cell|].
  - apply cell_value_set in Hw as (Hm & _ & Hother).
    split; [exact Hm|]. apply Hother. congruence.
  - injection Hw as <-. apply unchanged_at_refl.
Qed.

Lemma write_ref_merged (ws ws' : worksheet) (cell_ref v : string) :
  write_ref ws cell_ref v = Some ws' -> merged_cells ws' = merged_cells ws.
Proof.
  unfold write_ref. destruct (_get_unmerged_cell ws cell_ref) as [cell|].
  - intros Hw. now apply cell_value_set in Hw as (Hm & _).
  - now intros [= <-].
Qed.

Lemma write_pair_unchanged (sel : selection) (ws ws' : worksheet)
    (targets : list string) :
  write_pair sel ws targets = Some ws' ->
  (forall ref, ref ∈ targets -> _get_unmerged_cell ws ref <> Some pos) ->
  unchanged_at pos ws ws'.
Proof.
  destruct targets as [|first [|second rest]]; simpl;
    try (intros [= <-] _; apply unchanged_at_refl).
  intros Hw Hne.
  destruct (write_ref ws first (date_str sel)) as [ws1|] eqn:H1; [|discriminate].
  simpl in Hw.
  eapply unchanged_at_trans.
  - eapply write_ref_unchanged; [exact H1|]. apply Hne. set_solver.
  - eapply write_ref_unchanged; [exact Hw|].
    rewrite (resolve_merged_eq ws ws1) by (eapply write_ref_merged; eauto).
    apply Hne. set_solver.
Qed.

Lemma elem_of_firstn {A} (n : nat) (l : list A) (x : A) : x ∈ firstn n l -> x ∈ l.
Proof.
  intros (i & Hi & _)%elem_of_take. apply list_elem_of_lookup. eauto.
Qed.

Lemma next_empty_subset (ws : worksheet) (task : Task) (ref : string) :
  ref ∈ _find_next_empty_columns ws task -> ref ∈ keys (inputs task).
Proof.
  rewrite find_next_empty_columns_spec. intros H.
  rewrite <- (sorted_perm (keys (inputs task))).
  destruct (List.filter (is_empty_slot ws) (sorted (keys (inputs task))))
    as [|e1 [|e2 l]] eqn:Hf.
  - eapply elem_of_firstn, H.
  - apply list_elem_of_singleton in H as ->.
    apply list_elem_of_In.
    apply (proj1 (filter_In (is_empty_slot ws) e1 _)). rewrite Hf. now left.
  - apply list_elem_of_In.
    assert (Hin : In ref (e1 :: e2 :: l)).
    { apply elem_of_cons in H as [->|H]; [now left|].
      apply list_elem_of_singleton in H as ->. right; now left. }
    rewrite <- Hf in Hin. apply filter_In in Hin. tauto.
Qed.

Lemma write_task_unchanged (same : bool) (sel : selection) (ws ws' : worksheet)
    (task : Task) :
  (if same then write_same_task else write_new_task) sel ws task = Some ws' ->
  (is_comment_task task = false ->
   forall ref, ref ∈ keys (inputs task) -> _get_unmerged_cell ws ref <> Some pos) ->
  unchanged_at pos ws ws'.
Proof.
  intros Hw Hne.
  destruct same; unfold write_same_task, write_new_task in Hw;
    destruct (is_comment_task task) eqn:Hc;
    try (injection Hw as <-; apply unchanged_at_refl).
  - eapply write_pair_unchanged; [exact Hw|].
    intros ref Hin. apply Hne; [reflexivity|]. eapply next_empty_subset, Hin.
  - eapply write_pair_unchanged; [exact Hw|].
    intros ref Hin. apply Hne; [reflexivity|]. now rewrite <- (sorted_perm (keys (inputs task))).
Qed.

Lemma write_month_data_tasks (same : bool) (sel : selection) (ws : worksheet)
    (sheet_data : SheetData) :
  (if same then _write_same_month_data else _write_new_month_data) sel ws sheet_data
  = for_each ((if same then write_same_task else write_new_task) sel) ws (all_tasks sheet_data).
Proof.
  destruct same; unfold _write_same_month_data, _write_new_month_data, all_tasks;
    apply for_each_tasks.
Qed.

Lemma is_target_false (ws : worksheet) (sheet_data : SheetData)
    (task : Task) (cell_ref : string) :
  is_target ws sheet_data pos = false ->
  task ∈ all_tasks sheet_data -> is_comment_task task = false ->
  cell_ref ∈ keys (inputs task) ->
  _get_unmerged_cell ws cell_ref <> Some pos.
Proof.
  intros Hnt Htask Hc Href Hres.
  assert (is_target ws sheet_data pos = true); [|congruence].
  unfold is_target. apply existsb_exists. exists task.
  split; [now apply list_elem_of_In|]. rewrite Hc. simpl.
  apply existsb_exists. exists cell_ref. split; [now apply list_elem_of_In|].
  unfold resolves_to. rewrite Hres. now rewrite !Z.eqb_refl.
Qed.

Lemma is_target_merged_eq (ws ws' : worksheet) (sheet_data : SheetData) :
  merged_cells ws' = merged_cells ws ->
  is_target ws' sheet_data pos = is_target ws sheet_data pos.
Proof.
  intros Hm. unfold is_target, resolves_to, _get_unmerged_cell. now rewrite Hm.
Qed.

(** The write pass of one sheet changes no cell but its targets. *)
Lemma write_month_data_unchanged (same : bool) (sel : selection) (ws ws' : worksheet)
    (sheet_data : SheetData) :
  (if same then _write_same_month_data else _write_new_month_data) sel ws sheet_data = Some ws' ->
  is_target ws sheet_data pos = false ->
  unchanged_at pos ws ws'.
Proof.
  rewrite write_month_data_tasks. intros Hw Hnt.
  eapply (for_each_preserves (unchanged_at pos)); [| | |exact Hw].
  - apply unchanged_at_refl.
  - apply unchanged_at_trans.
  - intros ws1 task ws2 [Hm _] Hin Hstep.
    eapply write_task_unchanged; [exact Hstep|].
    intros Hc ref Href.
    rewrite (resolve_merged_eq ws ws1) by exact Hm.
    eapply is_target_false; eauto.
Qed.

End Frame.

Lemma is_comment_task_iff (task : Task) :
  is_comment_task task = true <-> Py.lower (Py.strip (task_name task)) = "comments:".
Proof.
  unfold is_comment_task. rewrite strip_lower_comm. apply String.eqb_eq.
Qed.

Lemma regions_ok_merged_eq (ws ws' : worksheet) :
  merged_cells ws' = merged_cells ws -> regions_ok ws' = regions_ok ws.
Proof. intros H. unfold regions_ok. now rewrite H. Qed.

(** A write through the resolver lands on the resolved cell and only
    there. *)
Lemma write_ref_resolved (ws : worksheet) (cell_ref v : string) (cell : Z * Z) :
  regions_ok ws = true ->
  _get_unmerged_cell ws cell_ref = Some cell ->
  exists ws',
    write_ref ws cell_ref v = Some ws' /\
    regions_ok ws' = true /\
    merged_cells ws' = merged_cells ws /\
    cell_value ws' cell = Py.VStr v /\
    forall pos, pos <> cell -> cell_value ws' pos = cell_value ws pos.
Proof.
  intros Hok Hres. unfold write_ref. rewrite Hres.
  pose proof (resolved_not_merged ws cell_ref cell Hok Hres) as Hnm.
  destruct (set_value ws cell (Py.VStr v)) as [ws'|] eqn:Hset.
  - exists ws'. apply cell_value_set in Hset as (Hm & Hv & Hother).
    repeat split; auto. now rewrite (regions_ok_merged_eq ws ws').
  - unfold set_value in Hset. rewrite Hnm in Hset. discriminate.
Qed.

(** C5, as stated, fails: a task that is not a comment task but yields
    fewer than two targets receives no write at all, be it a task with a
    single input slot (new-period mode) or a task with a single empty slot
    (same-period mode). *)
Lemma C5_fewer_than_two_targets_unwritten :
  (is_comment_task single_slot_task = false /\
   sorted (keys (inputs single_slot_task)) = ["B9"] /\
   _get_unmerged_cell sample_sheet "B9" = Some (9, 2) /\
   write_new_task sample_selection sample_sheet single_slot_task = Some sample_sheet /\
   cell_value sample_sheet (9, 2) <> Py.VStr (date_str sample_selection)) /\
  (is_comment_task sample_task = false /\
   _find_next_empty_columns sample_sheet sample_task = ["C9"] /\
   _get_unmerged_cell sample_sheet "C9" = Some (9, 3) /\
   write_same_task sample_selection sample_sheet sample_task = Some sample_sheet /\
   cell_value sample_sheet (9, 3) = Py.VNone).
Proof.
  split; repeat split; try (vm_compute; reflexivity).
  vm_compute. discriminate.
Qed.

(** C5, amended. The write pass visits the tasks of a sheet in order.  A
    task whose name, trimmed and lower-cased, is the comment marker is
    skipped without any write.  For any other task that yields at least two
    targets (the sorted input coordinates in new-period mode, the result of
    the empty-slot scan in same-period mode), the first target receives
    "INITIALS DAY PERIOD YY" with initials and period upper-cased and the
    year taken from its third character on, and the second target receives
    the upper-cased status label, each through the merged-cell resolver; a
    target the resolver cannot resolve is left out, and a task that yields
    fewer than two targets receives no write. *)
Theorem C5_write_pass (same : bool) (sel : selection) (ws : worksheet) (task : Task) :
  regions_ok ws = true ->
  let write := (if same then write_same_task else write_new_task) sel in
  let targets := if same then _find_next_empty_columns ws task
                 else sorted (keys (inputs task)) in
  let date := Py.upper (initials sel) +:+ " " +:+ selected_day sel +:+ " " +:+
              Py.upper (selected_month sel) +:+ " " +:+ Py.drop 2 (selected_year sel) in
  let status := Py.upper (task_status sel) in
  (forall sheet_data,
      (if same then _write_same_month_data else _write_new_month_data) sel ws sheet_data
      = for_each write ws (all_tasks sheet_data)) /\
  (Py.lower (Py.strip (task_name task)) = "comments:" -> write ws task = Some ws) /\
  (Py.lower (Py.strip (task_name task)) <> "comments:" ->
     match targets with
     | first :: second :: _ =>
         write ws task = write_ref ws first date ≫= fun ws1 => write_ref ws1 second status
     | _ => write ws task = Some ws
     end) /\
  (forall w ref v,
      regions_ok w = true ->
      match _get_unmerged_cell w ref with
      | Some cell =>
          exists w', write_ref w ref v = Some w' /\
                     regions_ok w' = true /\
                     merged_cells w' = merged_cells w /\
                     cell_value w' cell = Py.VStr v /\
                     forall pos, pos <> cell -> cell_value w' pos = cell_value w pos
      | None => write_ref w ref v = Some w
      end).
Proof.
  intros Hok write targets date status. repeat split.
  - intros sheet_data. apply write_month_data_tasks.
  - intros Hc. apply is_comment_task_iff in Hc.
    subst write. destruct same; unfold write_same_task, write_new_task; now rewrite Hc.
  - intros Hc.
    assert (Hf : is_comment_task task = false).
    { apply not_true_is_false. now rewrite is_comment_task_iff. }
    subst write targets. destruct same; unfold write_same_task, write_new_task; rewrite Hf.
    + destruct (_find_next_empty_columns ws task) as [|first [|second rest]]; reflexivity.
    + destruct (sorted (keys (inputs task))) as [|first [|second rest]]; reflexivity.
  - intros w ref v Hw.
    destruct (_get_unmerged_cell w ref) as [cell|] eqn:Hres.
    + now apply write_ref_resolved.
    + unfold write_ref. now rewrite Hres.
Qed.

Lemma C5_write_pass_witness :
  let sel := sample_selection in
  let ws := sample_sheet in
  let task := mkTask "Test alarm" "" [("B10", "no input"); ("C10", "no input")] in
  let write := write_same_task sel in
  let targets := _find_next_empty_columns ws task in
  let date := Py.upper (initials sel) +:+ " " +:+ selected_day sel +:+ " " +:+
              Py.upper (selected_month sel) +:+ " " +:+ Py.drop 2 (selected_year sel) in
  let status := Py.upper (task_status sel) in
  (forall sheet_data,
      _write_same_month_data sel ws sheet_data = for_each write ws (all_tasks sheet_data)) /\
  (Py.lower (Py.strip (task_name task)) = "comments:" -> write ws task = Some ws) /\
  (Py.lower (Py.strip (task_name task)) <> "comments:" ->
     match targets with
     | first :: second :: _ =>
         write ws task = write_ref ws first date ≫= fun ws1 => write_ref ws1 second status
     | _ => write ws task = Some ws
     end) /\
  (forall w ref v,
      regions_ok w = true ->
      match _get_unmerged_cell w ref with
      | Some cell =>
          exists w', write_ref w ref v = Some w' /\
                     regions_ok w' = true /\
                     merged_cells w' = merged_cells w /\
                     cell_value w' cell = Py.VStr v /\
                     forall pos, pos <> cell -> cell_value w' pos = cell_value w pos
      | None => write_ref w ref v = Some w
      end).
Proof.
  exact (C5_write_pass true sample_selection sample_sheet
           (mkTask "Test alarm" "" [("B10", "no input"); ("C10", "no input")]) eq_refl).
Defined.

(** A task with two open slots, written in same-period mode. *)
Example write_same_task_example :
  let task := mkTask "Test alarm" "" [("B10", "no input"); ("C10", "no input")] in
  _find_next_empty_columns sample_sheet task = ["B10"; "C10"] /\
  (fun ws => (cell_value ws (10, 2), cell_value ws (10, 3)))
    <$> write_same_task sample_selection sample_sheet task
  = Some (Py.VStr "AB 15 JAN 24", Py.VStr "OK").
Proof. split; vm_compute; reflexivity. Qed.

(** ** The reset pass *)

Lemma clear_cell_unchanged (col_idx : Z) (ws ws' : worksheet) (row : Z) (pos : Z * Z) :
  clear_cell col_idx ws row = Some ws' ->
  pos <> (row, col_idx) ->
  unchanged_at pos ws ws'.
Proof.
  unfold clear_cell. intros Hc Hne.
  destruct ((row <? 1) || (col_idx <? 1)); [injection Hc as <-; apply unchanged_at_refl|].
  destruct (ws_cell row col_idx) as [cell|] eqn:Hcell; [|discriminate]. simpl in Hc.
  apply ws_cell_inv in Hcell as [-> _]. simpl in Hc.
  destruct (is_merged_cell ws row col_idx); [injection Hc as <-; apply unchanged_at_refl|].
  apply cell_value_set in Hc as (Hm & _ & Hother). split; auto.
Qed.

Lemma clear_column_unchanged (ws ws' : worksheet) (column : ascii) (pos : Z * Z) :
  clear_column ws column = Some ws' ->
  pos.1 < 9 \/ (column <> "A"%char -> column_index_from_string (String column "") <> Some pos.2) ->
  unchanged_at pos ws ws'.
Proof.
  unfold clear_column. intros Hc Hpos.
  destruct (Ascii.eqb_spec column "A"); [injection Hc as <-; apply unchanged_at_refl|].
  destruct (column_index_from_string (String column "")) as [col_idx|] eqn:Hidx;
    [|discriminate].
  simpl in Hc.
  eapply (for_each_preserves (unchanged_at pos)); [| | |exact Hc].
  - apply unchanged_at_refl.
  - apply unchanged_at_trans.
  - intros ws1 row ws2 _ Hrow Hstep.
    eapply clear_cell_unchanged; [exact Hstep|].
    apply elem_of_seqZ in Hrow.
    destruct pos as [r c]; simpl in *. intros [= -> ->].
    destruct Hpos as [Hlt|Hcol]; [lia|]. now apply Hcol.
Qed.

Lemma first_chars_inner (refs : list string) (acc letters : gset ascii) (c : ascii) :
  for_each (fun acc cell_ref => c ← Py.first_char cell_ref; Some ({[c]} ∪ acc)) acc refs
  = Some letters ->
  c ∈ letters ->
  c ∈ acc \/ exists cell_ref, cell_ref ∈ refs /\ Py.first_char cell_ref = Some c.
Proof.
  revert acc; induction refs as [|r refs IH]; intros acc; simpl.
  - intros [= <-]. auto.
  - destruct (Py.first_char r) as [c'|] eqn:Hr; [|discriminate]. simpl.
    intros Hrest Hc. destruct (IH _ Hrest Hc) as [Hin|(ref & Href & Hf)].
    + apply elem_of_union in Hin as [->%elem_of_singleton|Hin]; [|now left].
      right. exists r. split; [now left | exact Hr].
    + right. exists ref. split; [now right | exact Hf].
Qed.

(** Every letter the reset pass collects is the first character of an
    input reference of one of the inspected tasks. *)
Lemma column_letters_origin (ts : list Task) (letters : gset ascii) (c : ascii) :
  column_letters ts = Some letters -> c ∈ letters ->
  exists task cell_ref,
    task ∈ ts /\ cell_ref ∈ keys (inputs task) /\ Py.first_char cell_ref = Some c.
Proof.
  unfold column_letters.
  assert (G : forall acc,
             for_each (fun acc task =>
                for_each (fun acc cell_ref => c ← Py.first_char cell_ref; Some ({[c]} ∪ acc))
                         acc (keys (inputs task))) acc ts = Some letters ->
             c ∈ letters ->
             c ∈ acc \/ exists task cell_ref,
               task ∈ ts /\ cell_ref ∈ keys (inputs task) /\ Py.first_char cell_ref = Some c).
  { induction ts as [|t ts IH]; intros acc; simpl.
    - intros [= <-]. auto.
    - destruct (for_each _ acc (keys (inputs t))) as [acc'|] eqn:Hin; [|discriminate].
      intros Hrest Hc. destruct (IH _ Hrest Hc) as [Hacc|(task & ref & Ht & Hr & Hf)].
      + destruct (first_chars_inner _ _ _ _ Hin Hacc) as [?|(ref & Hr & Hf)]; [now left|].
        right. exists t, ref. split; [now left | auto].
      + right. exists task, ref. split; [now right | auto]. }
  intros H Hc. destruct (G ∅ H Hc) as [Hempty|?]; [|assumption].
  now apply not_elem_of_empty in Hempty.
Qed.

Lemma column_one_letter (c : ascii) :
  column_index_from_string (String c "") = Some 1 -> c = "A"%char \/ c = "a"%char.
Proof.
  ascii_cases c; vm_compute; intros H;
    first [discriminate H | now left | now right].
Qed.

Lemma no_lower_a_spec (data : list SheetData) (ts : list Task) (task : Task) (cell_ref : string) :
  no_lower_a data = true ->
  first_category_tasks data = Some ts -> task ∈ ts -> cell_ref ∈ keys (inputs task) ->
  Py.first_char cell_ref <> Some "a"%char.
Proof.
  unfold no_lower_a. intros Hno Hts Htask Href Hf. rewrite Hts in Hno.
  rewrite forallb_forall in Hno. apply list_elem_of_In in Htask.
  specialize (Hno task Htask). rewrite forallb_forall in Hno.
  apply list_elem_of_In in Href. specialize (Hno cell_ref Href).
  rewrite Hf in Hno. discriminate.
Qed.

(** The reset pass of one worksheet changes no cell above row 9 and no
    cell outside the columns named by the collected letters. *)
Lemma clear_worksheet_only (data : list SheetData) (ws ws' : worksheet)
    (ts : list Task) (letters : gset ascii) (pos : Z * Z) :
  clear_worksheet data ws = Some ws' ->
  first_category_tasks data = Some ts ->
  column_letters ts = Some letters ->
  pos.1 < 9 \/
  (forall c, c ∈ letters -> c <> "A"%char ->
             column_index_from_string (String c "") <> Some pos.2) ->
  unchanged_at pos ws ws'.
Proof.
  unfold clear_worksheet. intros Hc Hts Hl Hpos.
  rewrite Hts in Hc. simpl in Hc. rewrite Hl in Hc. simpl in Hc.
  eapply (for_each_preserves (unchanged_at pos)); [| | |exact Hc].
  - apply unchanged_at_refl.
  - apply unchanged_at_trans.
  - intros ws1 column ws2 _ Hin Hstep.
    eapply clear_column_unchanged; [exact Hstep|].
    destruct Hpos as [Hlt|Hcol]; [now left|]. right.
    intros HnA. apply Hcol; [|exact HnA]. now apply elem_of_elements in Hin.
Qed.

(** The reset pass of one worksheet leaves rows 1 to 8 alone, and column A
    as well unless a reference begins with a lower-case "a". *)
Lemma clear_worksheet_unchanged (data : list SheetData) (ws ws' : worksheet) (pos : Z * Z) :
  clear_worksheet data ws = Some ws' ->
  pos.1 < 9 \/ (pos.2 = 1 /\ no_lower_a data = true) ->
  unchanged_at pos ws ws'.
Proof.
  intros Hc Hpos. pose proof Hc as Hc'. unfold clear_worksheet in Hc'.
  destruct (first_category_tasks data) as [ts|] eqn:Hts; [|discriminate]. simpl in Hc'.
  destruct (column_letters ts) as [letters|] eqn:Hl; [|discriminate].
  eapply clear_worksheet_only; eauto.
  destruct Hpos as [Hlt|[Hcol Hno]]; [now left|]. right.
  intros c Hin HnA Hidx. rewrite Hcol in Hidx.
  apply column_one_letter in Hidx as [->| ->]; [congruence|].
  destruct (column_letters_origin ts letters _ Hl Hin) as (task & ref & Ht & Hr & Hf).
  eapply no_lower_a_spec; eauto.
Qed.

Lemma clear_cell_clears (col_idx : Z) (ws ws' : worksheet) (row : Z) :
  1 <= col_idx -> 1 <= row <= ws_max_row ws ->
  clear_cell col_idx ws row = Some ws' ->
  (merged_cells ws' = merged_cells ws /\ ws_max_row ws' = ws_max_row ws) /\
  (forall pos, cell_value ws pos = Py.VNone -> cell_value ws' pos = Py.VNone) /\
  cell_value ws' (row, col_idx) = Py.VNone.
Proof.
  intros Hcol Hrow. unfold clear_cell.
  destruct (Z.ltb_spec row 1); [lia|]. destruct (Z.ltb_spec col_idx 1); [lia|]. simpl.
  destruct (ws_cell row col_idx) as [cell|] eqn:Hcell; [|discriminate].
  apply ws_cell_inv in Hcell as [-> _]. simpl.
  destruct (is_merged_cell ws row col_idx) eqn:Hm.
  - intros [= <-]. repeat split; auto.
    unfold cell_value. simpl. now rewrite Hm.
  - intros Hset. pose proof Hset as Hset'.
    apply cell_value_set in Hset as (Hmerged & Hv & Hother).
    repeat split; auto.
    + unfold set_value in Hset'. simpl in Hset'. rewrite Hm in Hset'.
      injection Hset' as <-. simpl. lia.
    + intros pos Hnone. destruct (decide (pos = (row, col_idx))) as [->|Hne]; [exact Hv|].
      now rewrite Hother.
Qed.

Lemma clear_column_clears (ws ws' : worksheet) (column : ascii) :
  clear_column ws column = Some ws' ->
  (merged_cells ws' = merged_cells ws /\ ws_max_row ws' = ws_max_row ws) /\
  (forall pos, cell_value ws pos = Py.VNone -> cell_value ws' pos = Py.VNone) /\
  (forall col row, column <> "A"%char ->
     column_index_from_string (String column "") = Some col ->
     9 <= row <= ws_max_row ws -> cell_value ws' (row, col) = Py.VNone).
Proof.
  unfold clear_column. intros Hc.
  destruct (Ascii.eqb_spec column "A"); [injection Hc as <-; repeat split; auto; congruence|].
  destruct (column_index_from_string (String column "")) as [col_idx|] eqn:Hidx;
    [|discriminate].
  simpl in Hc. pose proof (column_index_pos _ _ Hidx) as Hpos.
  set (I := fun w => merged_cells w = merged_cells ws /\ ws_max_row w = ws_max_row ws).
  assert (Hstep : forall w1 row w2, I w1 ->
            row ∈ seqZ 9 (ws_max_row ws + 1 - 9) ->
            clear_cell col_idx w1 row = Some w2 ->
            I w2 /\
            (forall pos, cell_value w1 pos = Py.VNone -> cell_value w2 pos = Py.VNone) /\
            cell_value w2 (row, col_idx) = Py.VNone).
  { intros w1 row w2 [Hm Hr] Hrow Hcl. apply elem_of_seqZ in Hrow.
    destruct (clear_cell_clears col_idx w1 w2 row Hpos ltac:(lia) Hcl) as ([Hm' Hr'] & Hn & Hv).
    repeat split; auto; unfold I; congruence. }
  split; [|split].
  - eapply (for_each_invariant I (clear_cell col_idx)); [split; reflexivity | | exact Hc].
    intros w1 row w2 Hi Hrow Hcl. eapply Hstep; eauto.
  - intros pos Hnone.
    eapply (for_each_invariant (fun w => I w /\ cell_value w pos = Py.VNone)
              (clear_cell col_idx)); [| | exact Hc].
    + split; [split; reflexivity | exact Hnone].
    + intros w1 row w2 [Hi Hn1] Hrow Hcl.
      destruct (Hstep w1 row w2 Hi Hrow Hcl) as (Hi2 & Hn & _). auto.
  - intros col row _ [= <-] Hrow.
    eapply (for_each_establishes I (fun w => cell_value w (row, col_idx) = Py.VNone)
              (clear_cell col_idx) (seqZ 9 (ws_max_row ws + 1 - 9)) row ws ws');
      [split; reflexivity | apply elem_of_seqZ; lia | | exact Hc].
    intros w1 b w2 Hi Hb Hcl.
    destruct (Hstep w1 b w2 Hi Hb Hcl) as (Hi2 & Hn & Hv).
    repeat split; auto; try apply Hi2. now intros ->.
Qed.

(** The reset pass of one worksheet empties, from row 9 to the last row,
    every column that a collected letter other than "A" names. *)
Lemma reset_pass_clears (data : list SheetData) (ws ws' : worksheet)
    (ts : list Task) (letters : gset ascii) (c : ascii) (col row : Z) :
  clear_worksheet data ws = Some ws' ->
  first_category_tasks data = Some ts ->
  column_letters ts = Some letters ->
  c ∈ letters -> c <> "A"%char ->
  column_index_from_string (String c "") = Some col ->
  9 <= row <= ws_max_row ws ->
  cell_value ws' (row, col) = Py.VNone.
Proof.
  unfold clear_worksheet. intros Hc Hts Hl Hin HnA Hidx Hrow.
  rewrite Hts in Hc. simpl in Hc. rewrite Hl in Hc. simpl in Hc.
  set (I := fun w => merged_cells w = merged_cells ws /\ ws_max_row w = ws_max_row ws).
  eapply (for_each_establishes I (fun w => cell_value w (row, col) = Py.VNone)
            clear_column (elements letters) c ws ws');
    [split; reflexivity | now apply elem_of_elements | | exact Hc].
  intros w1 b w2 [Hm Hr] Hb Hcl.
  destruct (clear_column_clears w1 w2 b Hcl) as ([Hm' Hr'] & Hn & Hv).
  split; [unfold I; split; congruence|]. split; [apply Hn|].
  intros ->. apply Hv; auto. lia.
Qed.

(** C3. Where the reset pass is meant to take the column letters of the
    input slots, it takes the first character of each reference: with slots
    in the two-letter columns BA and BB it clears column B, which holds no
    input slot, and leaves the slots in BA and BB as they were. *)
Theorem C3_first_character_only :
  first_category_tasks far_data
  = Some [mkTask "Check extinguisher" "" [("BA9", "CD 02 JAN 24"); ("BB9", "OK")]] /\
  split_ref "BA9" = Some (9, 53) /\ split_ref "BB9" = Some (9, 54) /\
  exists ws',
    _clear_previous_month_data far_data [far_sheet] = Some [ws'] /\
    cell_value far_sheet (9, 2) = Py.VStr "Monthly" /\
    cell_value ws' (9, 2) = Py.VNone /\
    cell_value ws' (9, 53) = Py.VStr "CD 02 JAN 24" /\
    cell_value ws' (9, 54) = Py.VStr "OK".
Proof.
  repeat split; try (vm_compute; reflexivity).
  eexists. split; [vm_compute; reflexivity|].
  repeat split; vm_compute; reflexivity.
Qed.

(** ** The whole rewrite *)

Lemma no_target_merged_eq (data : list SheetData) (ws ws' : worksheet) (pos : Z * Z) :
  merged_cells ws' = merged_cells ws -> no_target data ws' pos = no_target data ws pos.
Proof.
  intros Hm. unfold no_target, is_target, resolves_to, _get_unmerged_cell. now rewrite Hm.
Qed.

Lemma no_target_sheet (data : list SheetData) (ws : worksheet) (pos : Z * Z)
    (sheet_data : SheetData) :
  no_target data ws pos = true -> sheet_data ∈ data -> is_target ws sheet_data pos = false.
Proof.
  unfold no_target. rewrite forallb_forall. intros H Hin.
  apply list_elem_of_In in Hin. now apply negb_true_iff, H.
Qed.

Lemma workbook_unchanged_refl data pos wb : workbook_unchanged_at data pos wb wb.
Proof. split; [reflexivity|]. intros i ws Hi _. exists ws. split; [exact Hi | apply unchanged_at_refl]. Qed.

Lemma workbook_unchanged_trans data pos a b c :
  workbook_unchanged_at data pos a b -> workbook_unchanged_at data pos b c ->
  workbook_unchanged_at data pos a c.
Proof.
  intros [Hl1 H1] [Hl2 H2]. split; [congruence|].
  intros i ws Hi Hnt.
  destruct (H1 i ws Hi Hnt) as (ws1 & Hi1 & Hu1).
  destruct (H2 i ws1 Hi1) as (ws2 & Hi2 & Hu2).
  { rewrite (no_target_merged_eq data ws ws1); [exact Hnt | apply Hu1]. }
  exists ws2. split; [exact Hi2 | eapply unchanged_at_trans; eauto].
Qed.

Lemma write_sheet_unchanged sel old_month data pos wb wb' sheet_data :
  sheet_data ∈ data ->
  write_sheet sel old_month wb sheet_data = Some wb' ->
  workbook_unchanged_at data pos wb wb'.
Proof.
  intros Hin. unfold write_sheet. intros Hw.
  destruct (Py.from_end 1 _) as [last_word|]; [|discriminate]. simpl in Hw.
  destruct (Py.int last_word) as [n|]; [|discriminate]. simpl in Hw.
  destruct ((0 <=? n - 1) && (n - 1 <? Z.of_nat (length wb)));
    [|injection Hw as <-; apply workbook_unchanged_refl].
  destruct (wb !! Z.to_nat (n - 1)) as [ws0|] eqn:Hidx; [|discriminate]. simpl in Hw.
  set (same := String.eqb old_month (Py.upper (selected_month sel))) in *.
  assert (Hstep : exists ws1,
             (if same then _write_same_month_data else _write_new_month_data)
               sel ws0 sheet_data = Some ws1 /\ wb' = <[Z.to_nat (n - 1) := ws1]> wb).
  { destruct same;
      [destruct (_write_same_month_data sel ws0 sheet_data) as [ws1|]
      |destruct (_write_new_month_data sel ws0 sheet_data) as [ws1|]];
      try discriminate; injection Hw as <-; eauto. }
  destruct Hstep as (ws1 & Hws1 & ->).
  split; [apply length_insert|].
  intros i ws Hi Hnt.
  destruct (decide (i = Z.to_nat (n - 1))) as [->|Hne].
  - rewrite Hidx in Hi. injection Hi as <-.
    exists ws1. split.
    + apply list_lookup_insert_eq. eapply lookup_lt_Some, Hidx.
    + eapply write_month_data_unchanged; [exact Hws1|].
      eapply no_target_sheet; eauto.
  - exists ws. split; [|apply unchanged_at_refl].
    rewrite list_lookup_insert_ne by congruence. exact Hi.
Qed.

Lemma write_loop_unchanged sel old_month data pos wb wb' :
  for_each (write_sheet sel old_month) wb data = Some wb' ->
  workbook_unchanged_at data pos wb wb'.
Proof.
  intros Hw.
  eapply (for_each_preserves (workbook_unchanged_at data pos)); [| | |exact Hw].
  - apply workbook_unchanged_refl.
  - apply workbook_unchanged_trans.
  - intros wb1 sheet_data wb2 _ Hin Hstep.
    eapply write_sheet_unchanged; eauto.
Qed.

Lemma clear_workbook_unchanged data pos wb wb' :
  _clear_previous_month_data data wb = Some wb' ->
  pos.1 < 9 \/ (pos.2 = 1 /\ no_lower_a data = true) ->
  workbook_unchanged_at data pos wb wb'.
Proof.
  unfold _clear_previous_month_data. intros Hc Hpos.
  apply mapM_Some_1 in Hc. split.
  - symmetry. eapply Forall2_length, Hc.
  - intros i ws Hi _.
    destruct (Forall2_lookup_l _ _ _ _ _ Hc Hi) as (ws' & Hi' & Hcl).
    exists ws'. split; [exact Hi'|]. eapply clear_worksheet_unchanged; eauto.
Qed.

(** C4, as stated, fails.  A task extracted from row 2 has its slots in
    row 2, and a same-period rewrite writes them; and a slot merged with the
    lead cell of its row sends the write to column A. *)
Lemma C4_header_area_written :
  (_process_worksheet 1 early_rows = early_data !! 0%nat /\
   _find_input_columns early_rows = [2; 3] /\
   cell_value early_sheet (2, 2) = Py.VNone /\
   exists wb',
     _save_to_excel sample_selection early_data true "Fire Panel 12 JAN 24" [early_sheet]
     = Saved "Fire Panel 15 JAN 24.xlsx" wb' /\
     (fun ws => cell_value ws (2, 2)) <$> wb' !! 0%nat = Some (Py.VStr "AB 15 JAN 24")) /\
  (cell_value wide_lead_sheet (9, 1) = Py.VStr "Check extinguisher" /\
   exists wb',
     _save_to_excel sample_selection sample_data true "Fire Panel 12 DEC 23" [wide_lead_sheet]
     = Saved "Fire Panel 15 JAN 24.xlsx" wb' /\
     (fun ws => cell_value ws (9, 1)) <$> wb' !! 0%nat = Some (Py.VStr "AB 15 JAN 24")).
Proof.
  split.
  - repeat split; try (vm_compute; reflexivity).
    eexists. split; vm_compute; reflexivity.
  - split; [vm_compute; reflexivity|].
    eexists. split; vm_compute; reflexivity.
Qed.

(** ** Extraction: the row classifier *)

Lemma process_row_spec (input_cols : list Z) (st : parse_state) (r : list Cell) :
  process_row input_cols st r = spec_row falsy input_cols st r.
Proof.
  unfold process_row, spec_row, falsy.
  destruct (row_at r 0) as [first_cell|]; [|reflexivity]. cbn [mbind option_bind].
  unfold spec_classify, has_task, spec_apply.
  destruct (Py.truthy (value first_cell)); simpl; [|reflexivity].
  destruct (String.eqb (fill_index first_cell) CATEGORY_COLOR), (bold first_cell),
           (current_category st) as [c|]; simpl;
    try reflexivity; try (now rewrite app_nil_r);
    destruct (tasks c); reflexivity.
Qed.

(** C8, as stated, fails in its first rule.  A bold lead cell that holds
    the number 0 shows the text "0" and is ignored all the same, where the
    priority list makes it a task header; and a lead cell that holds nothing
    but blanks is not ignored: it adds a blank to the description of the
    last task. *)
Lemma C8_empty_text_is_not_the_test :
  let lead v fill b n := [mkCell v fill b n 1] in
  let zero := [lead (Py.VStr "Fire Safety") "FFFFFF00" true 1;
               lead (Py.VInt 0) "00000000" true 2] in
  let blanks := [lead (Py.VStr "Fire Safety") "FFFFFF00" true 1;
                 lead (Py.VStr "Check extinguisher") "00000000" true 2;
                 lead (Py.VStr "See gauge") "00000000" false 3;
                 lead (Py.VStr "  ") "00000000" false 4] in
  (Py.strip (Py.str (Py.VInt 0)) = "0" /\ no_text (Py.VInt 0) = false /\
   _process_worksheet 1 zero
   = Some (mkSheetData "Sheet 1" [mkCategory "Fire Safety" []]) /\
   spec_parse no_text 1 zero
   = Some (mkSheetData "Sheet 1" [mkCategory "Fire Safety" [mkTask "0" "" []]])) /\
  (Py.strip (Py.str (Py.VStr "  ")) = "" /\ no_text (Py.VStr "  ") = true /\
   _process_worksheet 1 blanks
   = Some (mkSheetData "Sheet 1"
             [mkCategory "Fire Safety" [mkTask "Check extinguisher" "See gauge " []]]) /\
   spec_parse no_text 1 blanks
   = Some (mkSheetData "Sheet 1"
             [mkCategory "Fire Safety" [mkTask "Check extinguisher" "See gauge" []]])).
Proof. repeat split; vm_compute; reflexivity. Qed.

(** C8, amended. [_process_worksheet] classifies the lead cell of every
    row by priority: a lead cell whose content fails the truth test (None,
    the empty text, 0, False) is ignored, whatever text it shows; the
    category colour together with a bold font makes a category header, which
    closes the open category and opens a new one; a bold font with any other
    fill makes a task header; a font that is not bold, while a category with
    at least one task is open, makes a description line; anything else is
    ignored.  A task header or description line that arrives before any
    category header leaves the state as it is. *)
Theorem C8_row_classification (sheet_number : Z) (rows : list (list Cell)) :
  _process_worksheet sheet_number rows = spec_parse falsy sheet_number rows /\
  (forall input_cols st r,
     process_row input_cols st r = spec_row falsy input_cols st r) /\
  (forall input_cols st r first_cell,
     row_at r 0 = Some first_cell ->
     current_category st = None ->
     String.eqb (fill_index first_cell) CATEGORY_COLOR && bold first_cell = false ->
     process_row input_cols st r = Some st /\
     spec_row falsy input_cols st r = Some st).
Proof.
  split; [|split].
  - unfold _process_worksheet, spec_parse.
    rewrite (for_each_ext (process_row (_find_input_columns rows))
                          (spec_row falsy (_find_input_columns rows)))
      by (intros; apply process_row_spec).
    destruct (for_each _ _ rows) as [st|]; [|reflexivity].
    cbn [mbind option_bind]. destruct (current_category st); [reflexivity|].
    now rewrite app_nil_r.
  - apply process_row_spec.
  - intros input_cols st r first_cell Hfirst Hnone Hcat.
    rewrite <- process_row_spec.
    assert (Hrow : process_row input_cols st r = Some st); [|now split].
    unfold process_row. rewrite Hfirst. cbn [mbind option_bind].
    rewrite Hcat, Hnone.
    destruct (negb (Py.truthy (value first_cell))); [reflexivity|].
    destruct (bold first_cell); reflexivity.
Qed.

Lemma C8_row_classification_witness :
  let header v c := mkCell (Py.VStr v) "00000000" false 1 c in
  let lead v fill b n := mkCell v fill b n 1 in
  let blank n c := mkCell Py.VNone "00000000" false n c in
  spec_parse falsy 1
    [ [lead (Py.VStr "Task") "00000000" true 1; header "OK" 2; header "OK?" 3];
      [lead (Py.VStr "Fire Safety") "FFFFFF00" true 2; blank 2 2; blank 2 3];
      [lead (Py.VStr "Check extinguisher") "00000000" true 3; blank 3 2; blank 3 3];
      [lead (Py.VStr " See gauge ") "00000000" false 4; blank 4 2; blank 4 3];
      [lead (Py.VInt 0) "00000000" true 5; blank 5 2; blank 5 3];
      [lead (Py.VStr "Electrical") "FFFFFF00" true 6; blank 6 2; blank 6 3] ]
  = Some (mkSheetData "Sheet 1"
            [mkCategory "Fire Safety"
               [mkTask "Check extinguisher" "See gauge"
                       [("B3", "no input"); ("C3", "no input")]];
             mkCategory "Electrical" []]).
Proof.
  cbv zeta.
  rewrite <- (proj1 (C8_row_classification 1 _)).
  vm_compute. reflexivity.
Defined.

(** The four styles of lead cell, one after the other, and a bold row
    that comes too early. *)
Example classification_example :
  let header v c := mkCell (Py.VStr v) "00000000" false 1 c in
  let lead v fill b n := mkCell v fill b n 1 in
  let blank n c := mkCell Py.VNone "00000000" false n c in
  _process_worksheet 1
    [ [lead (Py.VStr "Task") "00000000" true 1; header "OK" 2; header "OK?" 3];
      [lead (Py.VStr "Fire Safety") "FFFFFF00" true 2; blank 2 2; blank 2 3];
      [lead (Py.VStr "See label") "00000000" false 3; blank 3 2; blank 3 3];
      [lead (Py.VStr "Check extinguisher") "00000000" true 4; blank 4 2; blank 4 3];
      [lead (Py.VStr "See gauge") "00000000" false 5; blank 5 2; blank 5 3];
      [lead (Py.VStr "and seal") "FFFFFF00" false 6; blank 6 2; blank 6 3];
      [lead Py.VNone "FFFFFF00" true 7; blank 7 2; blank 7 3];
      [lead (Py.VStr "Comments:") "00000000" true 8; blank 8 2; blank 8 3] ]
  = Some (mkSheetData "Sheet 1"
            [mkCategory "Fire Safety"
               [mkTask "Check extinguisher" "See gauge and seal"
                       [("B4", "no input"); ("C4", "no input")];
                mkTask "Comments:" "" [("B8", "no input"); ("C8", "no input")]]]).
Proof. vm_compute. reflexivity. Qed.

(** ** Column letters, there and back *)

Lemma letter_of_ok (d : Z) :
  1 <= d <= 26 ->
  Py.isalpha (letter_of d) = true /\ Py.isupper (letter_of d) = true /\
  Py.isdigit (letter_of d) = false /\ letter_val (letter_of d) = d.
Proof.
  intros Hd.
  assert (Hk : exists k : nat, d = Z.of_nat k /\ (1 <= k <= 26)%nat).
  { exists (Z.to_nat d). lia. }
  destruct Hk as (k & -> & Hk).
  do 27 (destruct k as [|k]; [try lia; repeat split; reflexivity|]). lia.
Qed.

(** [column_index_from_string] reads back what [get_column_letter]
    wrote. *)
Lemma column_letter_roundtrip (n : Z) (s : string) :
  get_column_letter n = Some s -> column_index_from_string s = Some n.
Proof.
  unfold get_column_letter.
  destruct (Z.ltb_spec n 1); [discriminate|].
  destruct (Z.ltb_spec 18278 n); [discriminate|]. simpl.
  destruct (Z.leb_spec n 26).
  - intros [= <-]. destruct (letter_of_ok n) as (Ha & _ & _ & Hv); [lia|].
    unfold column_index_from_string. simpl. rewrite Ha. simpl. f_equal. lia.
  - pose proof (Z.div_mod (n - 1) 26 ltac:(lia)) as Hdm.
    pose proof (Z.mod_pos_bound (n - 1) 26 ltac:(lia)) as Hr.
    set (q := (n - 1) / 26) in *. set (r := (n - 1) mod 26) in *.
    assert (Hq : 1 <= q <= 702) by lia.
    destruct (Z.leb_spec q 26).
    + intros [= <-].
      destruct (letter_of_ok q) as (Ha & _ & _ & Hv); [lia|].
      destruct (letter_of_ok (r + 1)) as (Ha' & _ & _ & Hv'); [lia|].
      unfold column_index_from_string. simpl. rewrite Ha, Ha'. simpl. f_equal. lia.
    + pose proof (Z.div_mod (q - 1) 26 ltac:(lia)) as Hdm2.
      pose proof (Z.mod_pos_bound (q - 1) 26 ltac:(lia)) as Hr2.
      set (q2 := (q - 1) / 26) in *. set (r2 := (q - 1) mod 26) in *.
      intros [= <-].
      destruct (letter_of_ok q2) as (Ha & _ & _ & Hv); [lia|].
      destruct (letter_of_ok (r2 + 1)) as (Ha' & _ & _ & Hv'); [lia|].
      destruct (letter_of_ok (r + 1)) as (Ha'' & _ & _ & Hv''); [lia|].
      unfold column_index_from_string. simpl. rewrite Ha, Ha', Ha''. simpl. f_equal. lia.
Qed.

Lemma get_column_letter_inj (n m : Z) (s : string) :
  get_column_letter n = Some s -> get_column_letter m = Some s -> n = m.
Proof.
  intros Hn Hm. apply column_letter_roundtrip in Hn, Hm. congruence.
Qed.

(** ** Extraction: the slot values *)

Lemma dict_get_set_eq (d : list (string * string)) (k v : string) :
  dict_get (dict_set d k v) k = Some v.
Proof.
  induction d as [|[k' v'] d IH]; simpl.
  - now rewrite String.eqb_refl.
  - destruct (String.eqb k k') eqn:E; simpl.
    + now rewrite String.eqb_refl.
    + now rewrite E.
Qed.

Lemma dict_get_set_ne (d : list (string * string)) (k k' v : string) :
  k <> k' -> dict_get (dict_set d k v) k' = dict_get d k'.
Proof.
  intros Hne. induction d as [|[k0 v0] d IH]; simpl.
  - destruct (String.eqb_spec k' k); [congruence | reflexivity].
  - destruct (String.eqb_spec k k0) as [->|Hk]; simpl.
    + destruct (String.eqb_spec k' k0); [congruence | reflexivity].
    + destruct (String.eqb_spec k' k0); [reflexivity | exact IH].
Qed.

Lemma cells_from_lookup (row_number first_col : Z) (r : list Cell) (i : nat) (cell : Cell) :
  cells_from row_number first_col r = true -> r !! i = Some cell ->
  row cell = row_number /\ column cell = first_col + Z.of_nat i.
Proof.
  revert first_col i; induction r as [|c r IH]; intros first_col i; simpl; [discriminate|].
  intros [[Hr Hc]%andb_true_iff Hrest]%andb_true_iff.
  destruct i as [|i]; simpl.
  - intros [= <-]. lia.
  - intros Hi. destruct (IH _ _ Hrest Hi). lia.
Qed.

(** What one round of the loop of [_get_input_values] records. *)
Lemma input_value_step (row_number : Z) (r : list Cell) (values values' : list (string * string))
    (col : Z) :
  row_ok row_number r = true ->
  (cell ← row_at r (col - 1);
   letter ← get_column_letter (column cell);
   Some (dict_set values (letter +:+ Py.str (Py.VInt (row cell))) (slot_value (value cell))))
  = Some values' ->
  exists cell letter,
    r !! Z.to_nat (col - 1) = Some cell /\ 1 <= col /\
    get_column_letter col = Some letter /\
    values' = dict_set values (letter +:+ Py.str (Py.VInt row_number)) (slot_value (value cell)).
Proof.
  intros Hok. unfold row_at.
  destruct (Z.ltb_spec (col - 1) 0); [discriminate|].
  destruct (r !! Z.to_nat (col - 1)) as [cell|] eqn:Hcell; [|discriminate]. simpl.
  destruct (cells_from_lookup _ _ _ _ _ Hok Hcell) as [Hr Hc].
  replace (1 + Z.of_nat (Z.to_nat (col - 1))) with col in Hc by lia.
  rewrite Hr, Hc.
  destruct (get_column_letter col) as [letter|]; [|discriminate]. simpl.
  intros [= <-]. exists cell, letter. repeat split; auto. lia.
Qed.

Lemma get_input_values_lookup (row_number : Z) (r : list Cell) (input_cols : list Z)
    (acc values : list (string * string)) :
  row_ok row_number r = true ->
  for_each (fun values col =>
      cell ← row_at r (col - 1);
      letter ← get_column_letter (column cell);
      Some (dict_set values (letter +:+ Py.str (Py.VInt (row cell))) (slot_value (value cell))))
    acc input_cols = Some values ->
  (forall col, col ∈ input_cols ->
     exists cell letter,
       r !! Z.to_nat (col - 1) = Some cell /\
       get_column_letter col = Some letter /\
       dict_get values (letter +:+ Py.str (Py.VInt row_number))
       = Some (slot_value (value cell))) /\
  (forall k, (forall col letter, col ∈ input_cols -> get_column_letter col = Some letter ->
              k <> letter +:+ Py.str (Py.VInt row_number)) ->
             dict_get values k = dict_get acc k).
Proof.
  intros Hok. revert acc; induction input_cols as [|col cols IH]; intros acc; simpl.
  - intros [= <-]. split; [intros col Hcol; by apply elem_of_nil in Hcol | auto].
  - match goal with |- context [match ?b with Some _ => _ | None => None end] =>
      destruct b as [acc'|] eqn:Hstep; [|discriminate] end.
    intros Hrest.
    destruct (input_value_step _ _ _ _ _ Hok Hstep) as (cell & letter & Hcell & Hcol & Hl & ->).
    destruct (IH _ Hrest) as [IH1 IH2]. split.
    + intros col' Hin. apply elem_of_cons in Hin as [->|Hin]; [|now apply IH1].
      destruct (decide (col ∈ cols)) as [Hagain|Hfresh]; [now apply IH1|].
      exists cell, letter. repeat split; auto.
      rewrite IH2; [apply dict_get_set_eq|].
      intros col' letter' Hin' Hl' Heq.
      apply append_inv_tail in Heq. subst letter'.
      assert (col = col') by (eapply get_column_letter_inj; eauto). congruence.
    + intros k Hk. rewrite IH2.
      * apply dict_get_set_ne. intros <-. eapply (Hk col letter); auto. now left.
      * intros col' letter' Hin'. apply Hk. now right.
Qed.

Lemma str_int_not_sentinel (n : Z) : Py.str (Py.VInt n) <> DEFAULT_VALUE.
Proof.
  unfold Py.str, DEFAULT_VALUE. destruct n as [|p|p]; simpl; [discriminate| |discriminate].
  pose proof (DecimalPos.Unsigned.to_uint_nonnil p) as Hn.
  destruct (Pos.to_uint p); simpl; congruence.
Qed.

(** C10, as stated, fails in its "exactly when": a cell that holds the
    text "no input" passes the truth test, and the text recorded for it is
    the sentinel all the same.  The task extracted from such a row is the
    task extracted from the row with that cell left blank. *)
Lemma C10_sentinel_text_recorded :
  let header := [mkCell (Py.VStr "Task") "00000000" true 1 1;
                 mkCell (Py.VStr "OK") "00000000" false 1 2] in
  let category := [mkCell (Py.VStr "Fire Safety") "FFFFFF00" true 2 1;
                   mkCell Py.VNone "00000000" false 2 2] in
  let task v := [mkCell (Py.VStr "Check extinguisher") "00000000" true 3 1;
                 mkCell v "00000000" false 3 2] in
  Py.truthy (Py.VStr "no input") = true /\
  _get_input_values [2] (task (Py.VStr "no input")) = Some [("B3", DEFAULT_VALUE)] /\
  _process_worksheet 1 [header; category; task (Py.VStr "no input")]
  = Some (mkSheetData "Sheet 1"
            [mkCategory "Fire Safety"
               [mkTask "Check extinguisher" "" [("B3", "no input")]]]) /\
  _process_worksheet 1 [header; category; task (Py.VStr "no input")]
  = _process_worksheet 1 [header; category; task Py.VNone].
Proof. repeat split; vm_compute; reflexivity. Qed.

(** C10, amended. For a task row and every located input column, the
    value recorded under the coordinate of the cell in that column is the
    sentinel "no input" when the cell's content is falsy (as None, the
    empty text, 0 and False are) and the content's text otherwise; so the
    sentinel is recorded exactly when the content is falsy or its text is
    the sentinel itself, and a cell holding 0 records what an unfilled cell
    records. *)
Theorem C10_slot_values (input_cols : list Z) (row_number : Z) (r : list Cell)
    (values : list (string * string)) :
  row_ok row_number r = true ->
  _get_input_values input_cols r = Some values ->
  (forall col, col ∈ input_cols ->
     exists cell letter,
       r !! Z.to_nat (col - 1) = Some cell /\
       get_column_letter col = Some letter /\
       dict_get values (letter +:+ Py.str (Py.VInt row_number))
       = Some (if Py.truthy (value cell) then Py.str (value cell) else DEFAULT_VALUE) /\
       (dict_get values (letter +:+ Py.str (Py.VInt row_number)) = Some DEFAULT_VALUE
        <-> Py.truthy (value cell) = false \/ Py.str (value cell) = DEFAULT_VALUE) /\
       (value cell = Py.VNone \/ value cell = Py.VStr "" \/
        value cell = Py.VInt 0 \/ value cell = Py.VBool false ->
        dict_get values (letter +:+ Py.str (Py.VInt row_number)) = Some DEFAULT_VALUE)) /\
  slot_value (Py.VInt 0) = slot_value Py.VNone.
Proof.
  intros Hok Hvals. split; [|reflexivity].
  unfold _get_input_values in Hvals.
  destruct (get_input_values_lookup row_number r input_cols [] values Hok Hvals) as [H _].
  intros col Hcol. destruct (H col Hcol) as (cell & letter & Hcell & Hl & Hget).
  exists cell, letter. split; [exact Hcell|]. split; [exact Hl|].
  rewrite Hget. unfold slot_value. split; [reflexivity|]. split.
  - destruct (Py.truthy (value cell)); split.
    + intros [= Hs]. now right.
    + intros [Hf|Hs]; [discriminate | now rewrite Hs].
    + now left.
    + reflexivity.
  - intros [Hv|[Hv|[Hv|Hv]]]; rewrite Hv; reflexivity.
Qed.

Lemma C10_slot_values_witness :
  let r := [mkCell (Py.VStr "Check extinguisher") "00000000" true 9 1;
            mkCell (Py.VInt 0) "00000000" false 9 2;
            mkCell (Py.VStr "OK") "00000000" false 9 3] in
  let values := [("B9", "no input"); ("C9", "OK")] in
  (forall col, col ∈ [2; 3] ->
     exists cell letter,
       r !! Z.to_nat (col - 1) = Some cell /\
       get_column_letter col = Some letter /\
       dict_get values (letter +:+ Py.str (Py.VInt 9))
       = Some (if Py.truthy (value cell) then Py.str (value cell) else DEFAULT_VALUE) /\
       (dict_get values (letter +:+ Py.str (Py.VInt 9)) = Some DEFAULT_VALUE
        <-> Py.truthy (value cell) = false \/ Py.str (value cell) = DEFAULT_VALUE) /\
       (value cell = Py.VNone \/ value cell = Py.VStr "" \/
        value cell = Py.VInt 0 \/ value cell = Py.VBool false ->
        dict_get values (letter +:+ Py.str (Py.VInt 9)) = Some DEFAULT_VALUE)) /\
  slot_value (Py.VInt 0) = slot_value Py.VNone.
Proof.
  exact (C10_slot_values [2; 3] 9
           [mkCell (Py.VStr "Check extinguisher") "00000000" true 9 1;
            mkCell (Py.VInt 0) "00000000" false 9 2;
            mkCell (Py.VStr "OK") "00000000" false 9 3]
           [("B9", "no input"); ("C9", "OK")] eq_refl eq_refl).
Defined.

(** ** References written by extraction are read back by the write-back *)

Lemma column_letter_shape (n : Z) (s : string) :
  get_column_letter n = Some s ->
  sforallb Py.isalpha s = true /\
  exists c s', s = String c s' /\ Py.isupper c = true.
Proof.
  unfold get_column_letter.
  destruct (Z.ltb_spec n 1); [discriminate|].
  destruct (Z.ltb_spec 18278 n); [discriminate|]. simpl.
  destruct (Z.leb_spec n 26).
  - intros [= <-]. destruct (letter_of_ok n) as (Ha & Hu & _); [lia|].
    simpl. rewrite Ha. eauto.
  - pose proof (Z.div_mod (n - 1) 26 ltac:(lia)) as Hdm.
    pose proof (Z.mod_pos_bound (n - 1) 26 ltac:(lia)) as Hr.
    set (q := (n - 1) / 26) in *. set (r := (n - 1) mod 26) in *.
    assert (Hq : 1 <= q <= 702) by lia.
    destruct (Z.leb_spec q 26).
    + intros [= <-].
      destruct (letter_of_ok q) as (Ha & Hu & _); [lia|].
      destruct (letter_of_ok (r + 1)) as (Ha' & _); [lia|].
      simpl. rewrite Ha, Ha'. eauto.
    + pose proof (Z.div_mod (q - 1) 26 ltac:(lia)) as Hdm2.
      pose proof (Z.mod_pos_bound (q - 1) 26 ltac:(lia)) as Hr2.
      set (q2 := (q - 1) / 26) in *. set (r2 := (q - 1) mod 26) in *.
      intros [= <-].
      destruct (letter_of_ok q2) as (Ha & Hu & _); [lia|].
      destruct (letter_of_ok (r2 + 1)) as (Ha' & _); [lia|].
      destruct (letter_of_ok (r + 1)) as (Ha'' & _); [lia|].
      simpl. rewrite Ha, Ha', Ha''. eauto.
Qed.

Lemma uint_digits_nonnil (d : Decimal.uint) :
  sforallb Py.isdigit (NilEmpty.string_of_uint d) = true.
Proof.
  induction d as [|d IH|d IH|d IH|d IH|d IH|d IH|d IH|d IH|d IH|d IH];
    [reflexivity|..]; cbn [NilEmpty.string_of_uint sforallb]; rewrite IH; reflexivity.
Qed.

Lemma uint_digits (d : Decimal.uint) : sforallb Py.isdigit (NilZero.string_of_uint d) = true.
Proof. destruct d; [reflexivity|..]; apply uint_digits_nonnil. Qed.

Lemma literal_body_digits (s : string) (prev : bool) :
  sforallb Py.isdigit s = true -> (s <> "" \/ prev = true) ->
  Py.literal_body prev s = true.
Proof.
  revert prev; induction s as [|c s IH]; intros prev; simpl.
  - intros _ [?| ->]; congruence.
  - intros [Hc Hs]%andb_true_iff _. rewrite Hc. apply IH; auto.
Qed.

Lemma int_of_digits (s : string) :
  sforallb Py.isdigit s = true -> Py.int s = Py.unsigned_int s.
Proof.
  destruct s as [|c s]; [reflexivity|]. simpl.
  intros [Hc _]%andb_true_iff.
  ascii_cases c; try discriminate Hc; reflexivity.
Qed.

(** [int] reads back the decimal text of a row number. *)
Lemma int_str_roundtrip (n : Z) :
  0 <= n ->
  sforallb Py.isdigit (Py.str (Py.VInt n)) = true /\
  Py.int (Py.str (Py.VInt n)) = Some n.
Proof.
  intros Hn. destruct n as [|p|p]; [split; reflexivity| |lia].
  simpl. pose proof (uint_digits (Pos.to_uint p)) as Hd.
  split; [exact Hd|].
  rewrite int_of_digits by exact Hd. unfold Py.unsigned_int.
  rewrite literal_body_digits; [|exact Hd|].
  - rewrite sfilter_all by exact Hd.
    rewrite NilZero.usu by apply DecimalPos.Unsigned.to_uint_nonnil.
    simpl. unfold Z.of_uint. now rewrite DecimalPos.Unsigned.of_to.
  - left. pose proof (DecimalPos.Unsigned.to_uint_nonnil p) as Hnn.
    destruct (Pos.to_uint p); simpl; congruence.
Qed.

(** The reference extraction writes for column [col] of row [row_number]
    is taken apart into that row and that column. *)
Lemma split_ref_roundtrip (col row_number : Z) (letter : string) :
  get_column_letter col = Some letter -> 0 <= row_number ->
  split_ref (letter +:+ Py.str (Py.VInt row_number)) = Some (row_number, col).
Proof.
  intros Hl Hrow.
  destruct (column_letter_shape col letter Hl) as (Halpha & _).
  destruct (int_str_roundtrip row_number Hrow) as (Hdig & Hint).
  unfold split_ref. rewrite !sfilter_append.
  rewrite (sfilter_all _ letter Halpha), (sfilter_all _ _ Hdig).
  rewrite (sfilter_none Py.isalpha Py.isdigit letter alpha_not_digit Halpha).
  rewrite (sfilter_none Py.isdigit Py.isalpha _ digit_not_alpha Hdig).
  rewrite append_nil_l, append_nil_r, Hint. simpl.
  now rewrite (column_letter_roundtrip col letter Hl).
Qed.

(** ** What extraction puts into a task *)

Lemma keys_dict_set (d : list (string * string)) (k v ref : string) :
  ref ∈ keys (dict_set d k v) -> ref ∈ keys d \/ ref = k.
Proof.
  unfold keys. induction d as [|[k' v'] d IH]; simpl.
  - intros ->%list_elem_of_singleton. now right.
  - destruct (String.eqb_spec k k') as [->|Hne]; simpl.
    + intros [->|H]%elem_of_cons; [left; now left | left; now right].
    + intros [->|H]%elem_of_cons; [left; now left|].
      destruct (IH H) as [?|?]; [left; now right | now right].
Qed.

Lemma get_input_values_keys (row_number : Z) (r : list Cell) (input_cols : list Z)
    (values : list (string * string)) (ref : string) :
  row_ok row_number r = true ->
  _get_input_values input_cols r = Some values ->
  ref ∈ keys values ->
  exists col letter,
    col ∈ input_cols /\ get_column_letter col = Some letter /\
    ref = letter +:+ Py.str (Py.VInt row_number).
Proof.
  intros Hok. unfold _get_input_values.
  assert (G : forall acc,
             for_each (fun values col =>
                 cell ← row_at r (col - 1);
                 letter ← get_column_letter (column cell);
                 Some (dict_set values (letter +:+ Py.str (Py.VInt (row cell)))
                                (slot_value (value cell))))
               acc input_cols = Some values ->
             ref ∈ keys values ->
             ref ∈ keys acc \/
             exists col letter,
               col ∈ input_cols /\ get_column_letter col = Some letter /\
               ref = letter +:+ Py.str (Py.VInt row_number)).
  { induction input_cols as [|col cols IH]; intros acc; simpl.
    - intros [= <-]. auto.
    - match goal with |- context [match ?b with Some _ => _ | None => None end] =>
        destruct b as [acc'|] eqn:Hstep; [|discriminate] end.
      intros Hrest Href.
      destruct (input_value_step _ _ _ _ _ Hok Hstep) as (cell & letter & _ & _ & Hl & ->).
      destruct (IH _ Hrest Href) as [Hacc|(col' & letter' & Hin & Hl' & ->)].
      + apply keys_dict_set in Hacc as [?| ->]; [now left|].
        right. exists col, letter. split; [now left | auto].
      + right. exists col', letter'. split; [now right | auto]. }
  intros Hrun Href. destruct (G [] Hrun Href) as [Hnil|?]; [|assumption].
  by apply elem_of_nil in Hnil.
Qed.

Lemma update_last_inputs (f : Task -> Task) (l : list Task) (t' : Task) :
  (forall t, inputs (f t) = inputs t) ->
  t' ∈ update_last f l -> exists t, t ∈ l /\ inputs t' = inputs t.
Proof.
  intros Hf. induction l as [|a l IH]; simpl; [intros H; by apply elem_of_nil in H|].
  destruct l as [|b l].
  - intros ->%list_elem_of_singleton. exists a. split; [now left | apply Hf].
  - intros [->|H]%elem_of_cons.
    + exists a. split; [now left | reflexivity].
    + destruct (IH H) as (t & Ht & He). exists t. split; [now right | exact He].
Qed.

Lemma add_description_inputs (text : string) (t : Task) :
  inputs (add_description t text) = inputs t.
Proof. unfold add_description. now destruct (negb _). Qed.

Lemma elem_of_flat_map {A B} (f : A -> list B) (l : list A) (y : B) :
  y ∈ flat_map f l <-> exists x, x ∈ l /\ y ∈ f x.
Proof.
  rewrite list_elem_of_In, in_flat_map. split; intros (x & Hx & Hy); exists x;
    rewrite ?list_elem_of_In in *; auto.
Qed.

Lemma rows_ok_row (rows : list (list Cell)) (r : list Cell) :
  rows_ok rows = true -> r ∈ rows ->
  exists cell rest, r = cell :: rest /\ 0 <= row cell /\ row_ok (row cell) r = true.
Proof.
  unfold rows_ok. rewrite forallb_forall. intros H Hin.
  apply list_elem_of_In in Hin. specialize (H r Hin).
  destruct r as [|cell rest]; [discriminate|].
  apply andb_true_iff in H as [H0 Hok]. exists cell, rest.
  split; [reflexivity|]. split; [lia | exact Hok].
Qed.

Lemma state_tasks_iff (st : parse_state) (task : Task) :
  task ∈ state_tasks st <->
  exists c, (c ∈ closed st \/ current_category st = Some c) /\ task ∈ tasks c.
Proof.
  unfold state_tasks. rewrite elem_of_flat_map. split.
  - intros (c & Hc & Ht). exists c. split; [|exact Ht].
    apply elem_of_app in Hc as [Hc|Hc]; [now left|].
    destruct (current_category st) as [c'|]; [|by apply elem_of_nil in Hc].
    apply list_elem_of_singleton in Hc. subst. now right.
  - intros (c & [Hc|Hc] & Ht); exists c; (split; [|exact Ht]); apply elem_of_app.
    + now left.
    + right. rewrite Hc. now apply list_elem_of_singleton.
Qed.

(** One round of the row loop keeps all references of the form extraction
    writes. *)
Lemma process_row_refs (rows : list (list Cell)) (st st' : parse_state) (r : list Cell) :
  rows_ok rows = true -> r ∈ rows ->
  process_row (_find_input_columns rows) st r = Some st' ->
  (forall task ref, task ∈ state_tasks st -> ref ∈ keys (inputs task) ->
                    extracted_ref rows ref) ->
  forall task ref, task ∈ state_tasks st' -> ref ∈ keys (inputs task) ->
                   extracted_ref rows ref.
Proof.
  intros Hrows Hr Hstep Hinv.
  destruct (rows_ok_row rows r Hrows Hr) as (cell & rest & -> & Hk & Hok).
  unfold process_row in Hstep. simpl in Hstep.
  destruct (Py.truthy (value cell)) eqn:Htruthy; simpl in Hstep;
    [|injection Hstep as <-; exact Hinv].
  destruct (String.eqb (fill_index cell) CATEGORY_COLOR && bold cell) eqn:Hcat.
  { injection Hstep as <-. intros task ref Ht. apply Hinv.
    apply state_tasks_iff in Ht as (c & [Hc|Hc] & Ht); simpl in Hc.
    - apply state_tasks_iff. exists c. split; [|exact Ht].
      destruct (current_category st) as [c'|]; [|now left].
      apply elem_of_app in Hc as [Hc|Hc]; [now left|].
      apply list_elem_of_singleton in Hc. subst. now right.
    - injection Hc as <-. simpl in Ht. by apply elem_of_nil in Ht. }
  destruct (bold cell) eqn:Hbold.
  - destruct (current_category st) as [c|] eqn:Hcur; [|injection Hstep as <-; exact Hinv].
    destruct (_get_input_values _ _) as [values|] eqn:Hvals; [|discriminate].
    simpl in Hstep. injection Hstep as <-.
    intros task ref Ht Href.
    apply state_tasks_iff in Ht as (c' & [Hc|Hc] & Ht); simpl in Hc.
    + apply (Hinv task ref); [|exact Href]. apply state_tasks_iff. exists c'. auto.
    + injection Hc as <-. simpl in Ht. apply elem_of_app in Ht as [Ht|Ht].
      * apply (Hinv task ref); [|exact Href]. apply state_tasks_iff. exists c. auto.
      * apply list_elem_of_singleton in Ht. subst task. simpl in Href.
        destruct (get_input_values_keys _ _ _ _ _ Hok Hvals Href)
          as (col & letter & Hcol & Hl & ->).
        exists (row cell), col, letter. repeat split; auto.
        exists (cell :: rest), cell. repeat split; auto.
  - destruct (current_category st) as [c|] eqn:Hcur; [|injection Hstep as <-; exact Hinv].
    destruct (tasks c) as [|t ts] eqn:Hts; [injection Hstep as <-; exact Hinv|].
    injection Hstep as <-.
    intros task ref Ht Href.
    apply state_tasks_iff in Ht as (c' & [Hc|Hc] & Ht); simpl in Hc.
    + apply (Hinv task ref); [|exact Href]. apply state_tasks_iff. exists c'. auto.
    + injection Hc as <-.
      change (task ∈ update_last
                (fun t => add_description t (Py.strip (Py.str (value cell)))) (t :: ts)) in Ht.
      destruct (update_last_inputs _ _ _ (add_description_inputs _) Ht) as (t0 & Ht0 & He).
      apply (Hinv t0 ref); [|now rewrite <- He].
      apply state_tasks_iff. exists c. split; [now right | now rewrite Hts].
Qed.

(** Every input reference of an extracted task names a located input
    column and a task row. *)
Lemma extracted_refs (sheet_number : Z) (rows : list (list Cell)) (sheet_data : SheetData)
    (task : Task) (ref : string) :
  rows_ok rows = true ->
  _process_worksheet sheet_number rows = Some sheet_data ->
  task ∈ all_tasks sheet_data -> ref ∈ keys (inputs task) ->
  extracted_ref rows ref.
Proof.
  intros Hrows. unfold _process_worksheet.
  destruct (for_each _ _ rows) as [st|] eqn:Hrun; [|discriminate]. simpl.
  intros [= <-]. unfold all_tasks. simpl.
  assert (Hinv : forall task ref, task ∈ state_tasks st -> ref ∈ keys (inputs task) ->
                                  extracted_ref rows ref).
  { eapply (for_each_invariant
              (fun st => forall task ref, task ∈ state_tasks st ->
                                          ref ∈ keys (inputs task) -> extracted_ref rows ref));
      [| |exact Hrun].
    - intros t r Ht. by apply elem_of_nil in Ht.
    - intros st1 r st2 Hi Hr Hstep. eapply process_row_refs; eauto. }
  intros Ht Href. apply (Hinv task ref); [|exact Href].
  unfold state_tasks. destruct (current_category st); [exact Ht|].
  now rewrite app_nil_r.
Qed.

Lemma extracted_ref_split (rows : list (list Cell)) (ref : string) :
  extracted_ref rows ref ->
  exists row_number col,
    split_ref ref = Some (row_number, col) /\
    task_row rows row_number /\ col ∈ _find_input_columns rows /\
    exists c s, ref = String c s /\ Py.isupper c = true.
Proof.
  intros (k & col & letter & Hrow & Hcol & Hl & ->).
  exists k, col. split.
  - apply split_ref_roundtrip; [exact Hl|]. destruct Hrow as (r & fc & _ & _ & Hk & _). exact Hk.
  - repeat split; auto.
    destruct (column_letter_shape col letter Hl) as (_ & c & s' & -> & Hu).
    exists c, (s' +:+ Py.str (Py.VInt k)). split; [apply append_cons | exact Hu].
Qed.

(** ** The round trip: extraction, then write-back *)

Lemma is_target_true (ws : worksheet) (sheet_data : SheetData) (pos : Z * Z) :
  is_target ws sheet_data pos = true ->
  exists task cell_ref,
    task ∈ all_tasks sheet_data /\ is_comment_task task = false /\
    cell_ref ∈ keys (inputs task) /\ _get_unmerged_cell ws cell_ref = Some pos.
Proof.
  unfold is_target. intros (task & Htask & Hc)%existsb_exists.
  apply andb_true_iff in Hc as [Hcomment (ref & Href & Hres)%existsb_exists].
  exists task, ref. rewrite !list_elem_of_In. repeat split; auto.
  - now apply negb_true_iff.
  - unfold resolves_to in Hres.
    destruct (_get_unmerged_cell ws ref) as [[r c]|]; [|discriminate].
    apply andb_true_iff in Hres as [Hr Hc]. apply Z.eqb_eq in Hr, Hc.
    destruct pos; simpl in *. now subst.
Qed.

(** On a sheet without merged regions, the targets of extracted tasks are
    the cells of the located input columns on the task rows. *)
Lemma extracted_targets (sheet_number : Z) (rows : list (list Cell))
    (sheet_data : SheetData) (ws : worksheet) (pos : Z * Z) :
  rows_ok rows = true ->
  _process_worksheet sheet_number rows = Some sheet_data ->
  merged_cells ws = [] ->
  is_target ws sheet_data pos = true ->
  task_row rows pos.1 /\ pos.2 ∈ _find_input_columns rows.
Proof.
  intros Hrows Hx Hm (task & ref & Htask & _ & Href & Hres)%is_target_true.
  pose proof (extracted_refs _ _ _ _ _ Hrows Hx Htask Href) as Hext.
  destruct (extracted_ref_split rows ref Hext) as (k & col & Hs & Hrow & Hcol & _).
  unfold _get_unmerged_cell in Hres. rewrite Hs, Hm in Hres. simpl in Hres.
  apply ws_cell_inv in Hres as [-> _]. auto.
Qed.

(** References written by extraction never begin with a lower-case
    letter. *)
Lemma extracted_no_lower_a (sheet_number : Z) (rows : list (list Cell))
    (sheet_data : SheetData) (others : list SheetData) :
  rows_ok rows = true ->
  _process_worksheet sheet_number rows = Some sheet_data ->
  no_lower_a (sheet_data :: others) = true.
Proof.
  intros Hrows Hx. unfold no_lower_a, first_category_tasks. simpl.
  destruct (categories sheet_data) as [|c cs] eqn:Hcats; [reflexivity|]. simpl.
  apply forallb_forall. intros task Htask. apply forallb_forall. intros ref Href.
  assert (Hin : task ∈ all_tasks sheet_data).
  { unfold all_tasks. rewrite Hcats. simpl. apply elem_of_app. left.
    now apply list_elem_of_In. }
  apply list_elem_of_In in Href.
  pose proof (extracted_refs _ _ _ _ _ Hrows Hx Hin Href) as Hext.
  destruct (extracted_ref_split rows ref Hext) as (_ & _ & _ & _ & _ & ch & s' & -> & Hu).
  simpl. destruct (Ascii.eqb_spec ch "a"); [subst; discriminate Hu | reflexivity].
Qed.

(** C4, amended.  The reset pass never changes a cell in rows 1 to 8, nor
    a cell in column A as long as no inspected input reference begins with a
    lower-case "a"; the write pass, in either mode, changes only cells the
    merged-cell resolver returns for an input reference of a task that is
    not a comment task.  So a rewrite that reaches the save step leaves
    every cell of rows 1 to 8 and of column A that is no such target as it
    was, and a same-period rewrite leaves every cell that is no such target
    as it was.  For tasks extracted from a sheet without merged regions, the
    write pass changes only cells of a located input column on the row of a
    task. *)
Theorem C4_frame (sel : selection) (pos : Z * Z) :
  (forall (data : list SheetData) (xlsx_exists : bool) (stem new_filename : string)
          (workbook wb' : list worksheet) (i : nat) (ws : worksheet),
      _save_to_excel sel data xlsx_exists stem workbook = Saved new_filename wb' ->
      workbook !! i = Some ws ->
      no_target data ws pos = true ->
      snd <$> parse_filename stem = Some (Py.upper (selected_month sel)) \/
      pos.1 < 9 \/ (pos.2 = 1 /\ no_lower_a data = true) ->
      exists ws',
        wb' !! i = Some ws' /\
        merged_cells ws' = merged_cells ws /\
        cell_value ws' pos = cell_value ws pos) /\
  (forall (same : bool) (sheet_number : Z) (rows : list (list Cell))
          (sheet_data : SheetData) (ws ws' : worksheet),
      rows_ok rows = true ->
      _process_worksheet sheet_number rows = Some sheet_data ->
      merged_cells ws = [] ->
      (if same then _write_same_month_data else _write_new_month_data) sel ws sheet_data
      = Some ws' ->
      cell_value ws' pos <> cell_value ws pos ->
      task_row rows pos.1 /\ pos.2 ∈ _find_input_columns rows).
Proof.
  split.
  - intros data xlsx_exists stem new_filename workbook wb' i ws.
    unfold _save_to_excel. intros Hs Hi Hnt Hpos.
    destruct xlsx_exists; [|discriminate]. simpl in Hs.
    destruct (parse_filename stem) as [[base_name old_month]|]; [|discriminate].
    assert (Hwb : workbook_unchanged_at data pos workbook wb').
    { destruct (String.eqb_spec old_month (Py.upper (selected_month sel))) as [Heq|Hne];
        simpl in Hs.
      - destruct (for_each _ workbook data) as [wb2|] eqn:Hw; [|discriminate].
        injection Hs as _ <-. eapply write_loop_unchanged, Hw.
      - destruct (_clear_previous_month_data data workbook) as [wb1|] eqn:Hc; [|discriminate].
        simpl in Hs.
        destruct (for_each _ wb1 data) as [wb2|] eqn:Hw; [|discriminate].
        injection Hs as _ <-.
        eapply workbook_unchanged_trans; [|eapply write_loop_unchanged, Hw].
        eapply clear_workbook_unchanged; [exact Hc|].
        destruct Hpos as [Hsame|Hpos]; [|exact Hpos].
        simpl in Hsame. congruence. }
    destruct Hwb as [_ Hwb]. destruct (Hwb i ws Hi Hnt) as (ws' & Hi' & Hm & Hv).
    exists ws'. auto.
  - intros same sheet_number rows sheet_data ws ws' Hrows Hx Hm Hw Hchanged.
    destruct (is_target ws sheet_data pos) eqn:Ht.
    + eapply extracted_targets; eauto.
    + exfalso. apply Hchanged.
      now destruct (write_month_data_unchanged pos same sel ws ws' sheet_data Hw Ht).
Qed.

Lemma C4_frame_witness :
  (exists ws',
     saved_workbook (_save_to_excel sample_selection sample_data true
                       "Fire Panel 12 DEC 23" [sample_sheet]) !! 0%nat = Some ws' /\
     merged_cells ws' = merged_cells sample_sheet /\
     cell_value ws' (8, 2) = cell_value sample_sheet (8, 2)) /\
  (task_row early_rows 2 /\ 2 ∈ _find_input_columns early_rows).
Proof.
  split.
  - apply (proj1 (C4_frame sample_selection (8, 2)) sample_data true "Fire Panel 12 DEC 23"
             (saved_name (_save_to_excel sample_selection sample_data true
                            "Fire Panel 12 DEC 23" [sample_sheet]))
             [sample_sheet] _ 0%nat sample_sheet).
    + vm_compute. reflexivity.
    + reflexivity.
    + vm_compute. reflexivity.
    + right. left. simpl. lia.
  - apply (proj2 (C4_frame sample_selection (2, 2)) true 1 early_rows
             (mkSheetData "Sheet 1"
                [mkCategory "Fire Safety"
                   [mkTask "Check extinguisher" ""
                           [("B2", "no input"); ("C2", "no input")]]])
             early_sheet
             (default early_sheet
                (_write_same_month_data sample_selection early_sheet
                   (mkSheetData "Sheet 1"
                      [mkCategory "Fire Safety"
                         [mkTask "Check extinguisher" ""
                                 [("B2", "no input"); ("C2", "no input")]]])))).
    + reflexivity.
    + vm_compute. reflexivity.
    + reflexivity.
    + vm_compute. reflexivity.
    + vm_compute. discriminate.
Defined.

(** * Further properties *)

(** ** Extraction: the located input columns *)

Lemma elem_of_insert_uniq (x a : Z) (l : list Z) :
  x ∈ insert_uniq a l <-> x = a \/ x ∈ l.
Proof.
  induction l as [|y l IH]; simpl.
  - rewrite list_elem_of_singleton. split; [auto | intros [?|H]; [auto | by apply elem_of_nil in H]].
  - destruct (Z.ltb_spec a y).
    + rewrite elem_of_cons. tauto.
    + destruct (Z.eqb_spec a y) as [->|Hne].
      * rewrite elem_of_cons. tauto.
      * rewrite !elem_of_cons, IH. tauto.
Qed.

Lemma insert_uniq_sorted (a : Z) (l : list Z) :
  StronglySorted Z.lt l -> StronglySorted Z.lt (insert_uniq a l).
Proof.
  induction 1 as [|y l Hs IH Hall]; simpl.
  - repeat constructor.
  - destruct (Z.ltb_spec a y).
    + constructor; [now constructor|]. constructor; [exact H|].
      eapply Forall_impl; [exact Hall|]. intros z Hz. simpl in *. lia.
    + destruct (Z.eqb_spec a y) as [->|Hne]; [now constructor|].
      constructor; [exact IH|].
      apply Forall_forall. intros z Hz. apply elem_of_insert_uniq in Hz as [->|Hz]; [lia|].
      rewrite Forall_forall in Hall. now apply Hall.
Qed.

Lemma sorted_set_spec (l : list Z) :
  StronglySorted Z.lt (sorted_set l) /\ forall x, x ∈ sorted_set l <-> x ∈ l.
Proof.
  induction l as [|a l [IHs IHm]]; unfold sorted_set in *; simpl.
  - split; [constructor | reflexivity].
  - split; [now apply insert_uniq_sorted|].
    intros x. rewrite elem_of_insert_uniq, IHm, elem_of_cons. tauto.
Qed.

Lemma is_input_header_iff (v : Py.value) :
  is_input_header v = true <-> exists s, v = Py.VStr s /\ s ∈ INPUT_HEADERS.
Proof.
  destruct v as [|s|n|b|t x]; unfold is_input_header;
    try (split; [discriminate | intros (s' & Hs & _); discriminate]).
  rewrite existsb_exists. split.
  - intros (h & Hin & Heq). apply String.eqb_eq in Heq. subst.
    exists h. split; [reflexivity | now apply list_elem_of_In].
  - intros (s' & [= <-] & Hin). exists s. split; [now apply list_elem_of_In|].
    apply String.eqb_refl.
Qed.

(** X1. [_find_input_columns] returns the located columns in strictly
    ascending order, so without repetition, and a column is among them
    exactly when it lies after column A and one of the first ten rows has a
    cell in it whose content is, letter for letter, one of the input
    headers. *)
Theorem find_input_columns_spec (rows : list (list Cell)) :
  StronglySorted Z.lt (_find_input_columns rows) /\
  forall col, col ∈ _find_input_columns rows <->
    1 < col /\
    exists r cell s,
      r ∈ firstn 10 rows /\ cell ∈ r /\ column cell = col /\
      value cell = Py.VStr s /\ s ∈ INPUT_HEADERS.
Proof.
  unfold _find_input_columns.
  match goal with |- context [sorted_set ?l] => destruct (sorted_set_spec l) as [Hs Hm] end.
  split; [exact Hs|].
  intros col. rewrite Hm, elem_of_flat_map. split.
  - intros (r & Hr & Hc). apply elem_of_flat_map in Hc as (cell & Hcell & Hc).
    destruct (is_input_header (value cell) && (1 <? column cell)) eqn:E;
      [|by apply elem_of_nil in Hc].
    apply list_elem_of_singleton in Hc. subst col.
    apply andb_true_iff in E as [Hh Hgt]. apply Z.ltb_lt in Hgt.
    apply is_input_header_iff in Hh as (s & Hv & Hs').
    split; [exact Hgt|]. exists r, cell, s. auto.
  - intros (Hgt & r & cell & s & Hr & Hcell & Hcol & Hv & Hs').
    exists r. split; [exact Hr|]. apply elem_of_flat_map. exists cell. split; [exact Hcell|].
    assert (Hh : is_input_header (value cell) = true).
    { apply is_input_header_iff. eauto. }
    rewrite Hh. subst col. destruct (Z.ltb_spec 1 (column cell)); [|lia].
    simpl. now apply list_elem_of_singleton.
Qed.

(** ** Extraction: the slots of a row *)

Lemma dict_set_fresh (d : list (string * string)) (k v : string) :
  k ∉ keys d -> dict_set d k v = d ++ [(k, v)].
Proof.
  unfold keys. induction d as [|[k' v'] d IH]; simpl; [reflexivity|].
  intros Hk. destruct (String.eqb_spec k k') as [->|Hne].
  - exfalso. apply Hk. now left.
  - f_equal. apply IH. intros Hin. apply Hk. now right.
Qed.

Lemma coord_inj (k col col' : Z) (letter letter' : string) :
  get_column_letter col = Some letter -> get_column_letter col' = Some letter' ->
  letter +:+ Py.str (Py.VInt k) = letter' +:+ Py.str (Py.VInt k) -> col = col'.
Proof.
  intros Hl Hl' Heq. apply append_inv_tail in Heq. subst.
  eapply get_column_letter_inj; eauto.
Qed.

Lemma input_values_acc (k : Z) (r : list Cell) (input_cols : list Z)
    (acc values : list (string * string)) :
  row_ok k r = true -> NoDup input_cols ->
  (forall col letter, col ∈ input_cols -> get_column_letter col = Some letter ->
                      letter +:+ Py.str (Py.VInt k) ∉ keys acc) ->
  for_each (fun values col =>
      cell ← row_at r (col - 1);
      letter ← get_column_letter (column cell);
      Some (dict_set values (letter +:+ Py.str (Py.VInt (row cell))) (slot_value (value cell))))
    acc input_cols = Some values ->
  exists tail,
    values = acc ++ tail /\
    Forall2 (fun col kv => exists cell,
               r !! Z.to_nat (col - 1) = Some cell /\ slot_entry k col cell = Some kv)
            input_cols tail.
Proof.
  intros Hok. revert acc; induction input_cols as [|col cols IH]; intros acc Hnd Hfresh; simpl.
  - intros [= <-]. exists []. split; [now rewrite app_nil_r | constructor].
  - match goal with |- context [match ?b with Some _ => _ | None => None end] =>
      destruct b as [acc'|] eqn:Hstep; [|discriminate] end.
    intros Hrest.
    destruct (input_value_step _ _ _ _ _ Hok Hstep) as (cell & letter & Hcell & Hcol & Hl & ->).
    apply NoDup_cons in Hnd as [Hnotin Hnd].
    rewrite dict_set_fresh in Hrest by (eapply Hfresh; [now left | exact Hl]).
    assert (Hfresh' : forall col' letter',
               col' ∈ cols -> get_column_letter col' = Some letter' ->
               letter' +:+ Py.str (Py.VInt k)
               ∉ keys (acc ++ [(letter +:+ Py.str (Py.VInt k), slot_value (value cell))])).
    { intros col' letter' Hin' Hl'. unfold keys. rewrite map_app.
      intros [Hin|Hin]%elem_of_app.
      - eapply (Hfresh col' letter'); [now right | exact Hl' | exact Hin].
      - simpl in Hin. apply list_elem_of_singleton in Hin.
        assert (col' = col) by (eapply coord_inj; eauto). subst. contradiction. }
    destruct (IH _ Hnd Hfresh' Hrest) as (tail & -> & Hall).
    exists ((letter +:+ Py.str (Py.VInt k), slot_value (value cell)) :: tail).
    split; [now rewrite <- app_assoc|].
    constructor; [|exact Hall].
    exists cell. split; [exact Hcell|]. unfold slot_entry. now rewrite Hl.
Qed.

(** X2. For a row as [iter_rows] yields it and located columns without
    repetition, [_get_input_values] records exactly one slot per located
    column, in the order of the columns: the coordinate of the cell in that
    column with the cell's slot value. *)
Theorem get_input_values_in_order (input_cols : list Z) (k : Z) (r : list Cell)
    (values : list (string * string)) :
  row_ok k r = true ->
  NoDup input_cols ->
  Forall (fun col => 1 < col) input_cols ->
  _get_input_values input_cols r = Some values ->
  Forall2 (fun col kv => exists cell,
             r !! Z.to_nat (col - 1) = Some cell /\ slot_entry k col cell = Some kv)
          input_cols values.
Proof.
  intros Hok Hnd _ Hrun. unfold _get_input_values in Hrun.
  destruct (input_values_acc k r input_cols [] values Hok Hnd) as (tail & -> & Hall); auto.
  intros col letter _ _ Hin. by apply elem_of_nil in Hin.
Qed.

Lemma get_input_values_in_order_witness :
  Forall2 (fun col kv => exists cell,
             [mkCell (Py.VStr "Check extinguisher") "00000000" true 9 1;
              mkCell (Py.VInt 0) "00000000" false 9 2;
              mkCell (Py.VStr "OK") "00000000" false 9 3] !! Z.to_nat (col - 1) = Some cell /\
             slot_entry 9 col cell = Some kv)
          [2; 3] [("B9", "no input"); ("C9", "OK")].
Proof.
  apply (get_input_values_in_order [2; 3] 9
           [mkCell (Py.VStr "Check extinguisher") "00000000" true 9 1;
            mkCell (Py.VInt 0) "00000000" false 9 2;
            mkCell (Py.VStr "OK") "00000000" false 9 3]).
  - reflexivity.
  - apply NoDup_cons. split; [|apply NoDup_singleton].
    intros H%list_elem_of_singleton. discriminate H.
  - repeat constructor; lia.
  - reflexivity.
Defined.



(** ** Extraction: categories and tasks in row order *)

(** What one round of the row loop does to the state, by the kind of
    row. *)
Lemma process_row_shape (input_cols : list Z) (st st' : parse_state) (r : list Cell) :
  process_row input_cols st r = Some st' ->
  (is_category_row r = true /\
   st' = mkParse (state_categories st) (Some (mkCategory (row_text r) []))) \/
  (is_category_row r = false /\ is_bold_row r = true /\
   ((current_category st = None /\ st' = st) \/
    exists c values,
      current_category st = Some c /\
      _get_input_values input_cols r = Some values /\
      st' = mkParse (closed st)
              (Some (mkCategory (category_name c)
                       (tasks c ++ [mkTask (row_text r) "" values]))))) \/
  (is_category_row r = false /\ is_bold_row r = false /\
   (st' = st \/
    exists c,
      current_category st = Some c /\
      st' = mkParse (closed st)
              (Some (mkCategory (category_name c)
                       (update_last (fun t => add_description t (row_text r)) (tasks c)))))).
Proof.
  unfold process_row, is_category_row, is_bold_row, row_text, state_categories.
  destruct r as [|first_cell rest]; [discriminate|]. simpl.
  destruct (Py.truthy (value first_cell)); simpl.
  2: { intros [= <-]. right. right. split; [reflexivity|]. split; [reflexivity|]. now left. }
  destruct (String.eqb (fill_index first_cell) CATEGORY_COLOR && bold first_cell) eqn:Hcat; simpl.
  { intros [= <-]. left. split; [reflexivity|]. reflexivity. }
  destruct (bold first_cell); simpl.
  - destruct (current_category st) as [c|] eqn:Hcur.
    2: { intros [= <-]. right. left. split; [reflexivity|]. split; [reflexivity|].
         left. now split. }
    destruct (_get_input_values input_cols (first_cell :: rest)) as [values|]; [|discriminate].
    simpl. intros [= <-]. right. left. split; [reflexivity|]. split; [reflexivity|].
    right. exists c, values. now repeat split.
  - destruct (current_category st) as [c|] eqn:Hcur.
    2: { intros [= <-]. right. right. split; [reflexivity|]. split; [reflexivity|]. now left. }
    destruct (tasks c) as [|t l] eqn:Ht; intros [= <-].
    + right. right. split; [reflexivity|]. split; [reflexivity|]. now left.
    + right. right. split; [reflexivity|]. split; [reflexivity|].
      right. exists c. split; [reflexivity|]. now rewrite Ht.
Qed.

Lemma update_last_names (f : Task -> Task) (l : list Task) :
  (forall t, task_name (f t) = task_name t) ->
  map task_name (update_last f l) = map task_name l.
Proof.
  intros Hf. induction l as [|a l IH]; [reflexivity|].
  destruct l as [|b l]; simpl in *; [now rewrite Hf | now rewrite IH].
Qed.

Lemma add_description_name (text : string) (t : Task) :
  task_name (add_description t text) = task_name t.
Proof. unfold add_description. now destruct (negb _). Qed.

Lemma row_loop_categories (input_cols : list Z) (rows : list (list Cell))
    (st st' : parse_state) :
  for_each (process_row input_cols) st rows = Some st' ->
  map category_name (state_categories st')
  = map category_name (state_categories st)
    ++ map row_text (List.filter is_category_row rows).
Proof.
  revert st; induction rows as [|r rows IH]; intros st; simpl.
  - intros [= <-]. now rewrite app_nil_r.
  - destruct (process_row input_cols st r) as [st1|] eqn:Hstep; [|discriminate].
    intros Hrest. rewrite (IH _ Hrest).
    destruct (process_row_shape _ _ _ _ Hstep)
      as [[Hc ->]|[(Hc & _ & [[_ ->]|(c & values & Hcur & _ & ->)])
                  |(Hc & _ & [->|(c & Hcur & ->)])]];
      rewrite Hc; unfold state_categories; simpl; try reflexivity;
      try (rewrite Hcur; now rewrite !map_app).
    rewrite map_app. simpl. now rewrite <- app_assoc.
Qed.

Lemma row_loop_tasks (input_cols : list Z) (rows : list (list Cell))
    (st st' : parse_state) :
  for_each (process_row input_cols) st rows = Some st' ->
  map task_name (flat_map tasks (state_categories st'))
  = map task_name (flat_map tasks (state_categories st))
    ++ map row_text
         (List.filter is_bold_row
            (match current_category st with
             | Some _ => rows
             | None => after_first_category rows
             end)).
Proof.
  revert st; induction rows as [|r rows IH]; intros st; simpl.
  - intros [= <-]. destruct (current_category st); now rewrite app_nil_r.
  - destruct (process_row input_cols st r) as [st1|] eqn:Hstep; [|discriminate].
    intros Hrest. rewrite (IH _ Hrest).
    destruct (process_row_shape _ _ _ _ Hstep)
      as [[Hc ->]|[(Hc & Hb & [[Hcur ->]|(c & values & Hcur & _ & ->)])
                  |(Hc & Hb & [->|(c & Hcur & ->)])]];
      rewrite Hc.
    + assert (Hnb : is_bold_row r = false).
      { unfold is_category_row, is_bold_row in *. destruct r as [|fc rest]; [reflexivity|].
        apply andb_true_iff in Hc as [-> ->]. reflexivity. }
      unfold state_categories at 1 2. simpl.
      rewrite flat_map_app. simpl. rewrite app_nil_r.
      unfold state_categories.
      destruct (current_category st); [cbn [List.filter]; rewrite Hnb|]; reflexivity.
    + now rewrite Hcur.
    + rewrite Hcur. cbn [List.filter]. rewrite Hb. unfold state_categories. simpl. rewrite Hcur.
      rewrite !flat_map_app, !map_app. simpl. rewrite !app_nil_r, map_app. simpl.
      now rewrite <- !app_assoc.
    + destruct (current_category st); [cbn [List.filter]; rewrite Hb|]; reflexivity.
    + rewrite Hcur. cbn [List.filter]. rewrite Hb. unfold state_categories. simpl. rewrite Hcur.
      rewrite !flat_map_app, !map_app. simpl. rewrite !app_nil_r.
      now rewrite (update_last_names _ _ (add_description_name _)).
Qed.

(** X3. The categories of an extracted sheet are, in row order, the rows
    whose non-blank lead cell is bold on the category colour, each named by
    its trimmed lead text; so there are as many categories as there are such
    rows. *)
Theorem extracted_categories (sheet_number : Z) (rows : list (list Cell))
    (sheet_data : SheetData) :
  _process_worksheet sheet_number rows = Some sheet_data ->
  map category_name (categories sheet_data)
  = map row_text (List.filter is_category_row rows) /\
  length (categories sheet_data) = length (List.filter is_category_row rows).
Proof.
  unfold _process_worksheet.
  destruct (for_each _ _ rows) as [st|] eqn:Hrun; [|discriminate]. simpl.
  intros [= <-]. simpl.
  pose proof (row_loop_categories _ _ _ _ Hrun) as H. simpl in H.
  fold (state_categories st). split; [exact H|].
  apply (f_equal (@length string)) in H. now rewrite !length_map in H.
Qed.

Lemma extracted_categories_witness :
  map category_name
      [mkCategory "Fire Safety"
         [mkTask "Check extinguisher" "" [("B2", "no input"); ("C2", "no input")]]]
  = map row_text (List.filter is_category_row early_rows) /\
  length [mkCategory "Fire Safety"
            [mkTask "Check extinguisher" "" [("B2", "no input"); ("C2", "no input")]]]
  = length (List.filter is_category_row early_rows).
Proof.
  exact (extracted_categories 1 early_rows
           (mkSheetData "Sheet 1"
              [mkCategory "Fire Safety"
                 [mkTask "Check extinguisher" ""
                         [("B2", "no input"); ("C2", "no input")]]]) eq_refl).
Defined.

(** X4. The tasks of an extracted sheet are, in row order, the rows after
    the first category header whose non-blank lead cell is bold without
    being a category header, each named by its trimmed lead text; bold rows
    before the first category header leave no trace. *)
Theorem extracted_tasks (sheet_number : Z) (rows : list (list Cell))
    (sheet_data : SheetData) :
  _process_worksheet sheet_number rows = Some sheet_data ->
  map task_name (all_tasks sheet_data)
  = map row_text (List.filter is_bold_row (after_first_category rows)).
Proof.
  unfold _process_worksheet.
  destruct (for_each _ _ rows) as [st|] eqn:Hrun; [|discriminate]. simpl.
  intros [= <-]. unfold all_tasks. simpl.
  pose proof (row_loop_tasks _ _ _ _ Hrun) as H. simpl in H.
  exact H.
Qed.

Lemma extracted_tasks_witness :
  map task_name
      [mkTask "Check extinguisher" "" [("B2", "no input"); ("C2", "no input")]]
  = map row_text (List.filter is_bold_row (after_first_category early_rows)).
Proof.
  exact (extracted_tasks 1 early_rows
           (mkSheetData "Sheet 1"
              [mkCategory "Fire Safety"
                 [mkTask "Check extinguisher" ""
                         [("B2", "no input"); ("C2", "no input")]]]) eq_refl).
Defined.

(** ** Extraction never raises on the rows of a worksheet *)







(** ** Extraction and write-back agree on the position of a sheet *)

Lemma digits_word (s : string) :
  s <> "" -> sforallb Py.isdigit s = true -> is_word s = true.
Proof.
  intros Hne Hd. unfold is_word. apply andb_true_iff. split.
  - destruct s; [congruence | reflexivity].
  - clear Hne. induction s as [|c s IH]; [reflexivity|].
    simpl in *. apply andb_true_iff in Hd as [Hc Hd]. rewrite (IH Hd), andb_true_r.
    ascii_cases c; try discriminate Hc; reflexivity.
Qed.

Lemma str_int_nonempty (n : Z) : Py.str (Py.VInt n) <> "".
Proof.
  destruct n as [|p|p]; simpl; [discriminate| |discriminate].
  unfold NilZero.string_of_uint.
  pose proof (DecimalPos.Unsigned.to_uint_nonnil p) as Hn.
  destruct (Pos.to_uint p); try congruence; discriminate.
Qed.

(** The position the write-back reads off the name extraction gives the
    worksheet at position [n]. *)
Lemma sheet_name_index (n : Z) :
  0 <= n ->
  (last_word ← Py.from_end 1 (Py.split ("Sheet " +:+ Py.str (Py.VInt n))); Py.int last_word)
  = Some n.
Proof.
  intros Hn. destruct (int_str_roundtrip n Hn) as [Hd Hint].
  change ("Sheet " +:+ Py.str (Py.VInt n)) with ("Sheet" +:+ String " " (Py.str (Py.VInt n))).
  rewrite split_app_blank.
  rewrite (split_word (Py.str (Py.VInt n)) (digits_word _ (str_int_nonempty n) Hd)).
  change (Py.split "Sheet") with ["Sheet"]. simpl. exact Hint.
Qed.

Lemma process_workbook_lookup (sheets : list (list (list Cell))) (data : list SheetData)
    (k : nat) (sheet_data : SheetData) :
  process_workbook sheets = Some data -> data !! k = Some sheet_data ->
  exists rows, sheets !! k = Some rows /\
               _process_worksheet (Z.of_nat k + 1) rows = Some sheet_data.
Proof.
  unfold process_workbook. intros Hm Hk.
  apply mapM_Some in Hm.
  destruct (Forall2_lookup_r _ _ _ _ _ Hm Hk) as (o & Ho & Heq).
  rewrite list_lookup_imap in Ho.
  destruct (sheets !! k) as [rows|]; [|discriminate].
  simpl in Ho. injection Ho as <-. exists rows. split; [reflexivity | exact Heq].
Qed.

Lemma process_worksheet_name (n : Z) (rows : list (list Cell)) (sheet_data : SheetData) :
  _process_worksheet n rows = Some sheet_data ->
  sheet_name sheet_data = "Sheet " +:+ Py.str (Py.VInt n).
Proof.
  unfold _process_worksheet. destruct (for_each _ _ rows); [|discriminate].
  now intros [= <-].
Qed.

Lemma write_sheet_at (sel : selection) (old_month : string) (workbook : list worksheet)
    (sheet_data : SheetData) (k : nat) (ws : worksheet) :
  sheet_name sheet_data = "Sheet " +:+ Py.str (Py.VInt (Z.of_nat k + 1)) ->
  workbook !! k = Some ws ->
  write_sheet sel old_month workbook sheet_data
  = (ws' ← (if String.eqb old_month (Py.upper (selected_month sel))
            then _write_same_month_data sel ws sheet_data
            else _write_new_month_data sel ws sheet_data);
     Some (<[k := ws']> workbook)).
Proof.
  intros Hname Hws. unfold write_sheet. rewrite Hname.
  pose proof (sheet_name_index (Z.of_nat k + 1) ltac:(lia)) as Hidx.
  destruct (Py.from_end 1 (Py.split ("Sheet " +:+ Py.str (Py.VInt (Z.of_nat k + 1)))))
    as [last_word|]; [|discriminate].
  cbn [mbind option_bind] in Hidx |- *. rewrite Hidx. cbn [mbind option_bind].
  pose proof (lookup_lt_Some _ _ _ Hws) as Hlt.
  replace (Z.of_nat k + 1 - 1) with (Z.of_nat k) by lia.
  destruct (Z.leb_spec 0 (Z.of_nat k)); [|lia].
  destruct (Z.ltb_spec (Z.of_nat k) (Z.of_nat (length workbook))); [|lia].
  cbn [andb]. rewrite Nat2Z.id, Hws. reflexivity.
Qed.

(** X6. The sheets [process_workbook] returns are as many as the
    worksheets, and the write-back finds its way from each to the worksheet
    it was read from: the position it parses out of the name of the sheet
    extracted at position [k] is [k] again, so that sheet's tasks are written
    to worksheet [k] and to no other. *)
Theorem extracted_sheet_written_in_place (sheets : list (list (list Cell)))
    (data : list SheetData) (k : nat) (sheet_data : SheetData)
    (sel : selection) (old_month : string) (workbook : list worksheet) (ws : worksheet) :
  process_workbook sheets = Some data ->
  data !! k = Some sheet_data ->
  workbook !! k = Some ws ->
  length data = length sheets /\
  write_sheet sel old_month workbook sheet_data
  = (ws' ← (if String.eqb old_month (Py.upper (selected_month sel))
            then _write_same_month_data sel ws sheet_data
            else _write_new_month_data sel ws sheet_data);
     Some (<[k := ws']> workbook)).
Proof.
  intros Hm Hk Hws. split.
  { unfold process_workbook in Hm. apply mapM_Some, Forall2_length in Hm.
    now rewrite length_imap in Hm. }
  destruct (process_workbook_lookup _ _ _ _ Hm Hk) as (rows & _ & Hsheet).
  apply process_worksheet_name in Hsheet.
  now apply write_sheet_at.
Qed.

Lemma extracted_sheet_written_in_place_witness :
  length [mkSheetData "Sheet 1"
            [mkCategory "Fire Safety"
               [mkTask "Check extinguisher" "" [("B2", "no input"); ("C2", "no input")]]]]
  = length [early_rows] /\
  write_sheet sample_selection "JAN" [early_sheet]
    (mkSheetData "Sheet 1"
       [mkCategory "Fire Safety"
          [mkTask "Check extinguisher" "" [("B2", "no input"); ("C2", "no input")]]])
  = (ws' ← (if String.eqb "JAN" (Py.upper (selected_month sample_selection))
            then _write_same_month_data sample_selection early_sheet
                   (mkSheetData "Sheet 1"
                      [mkCategory "Fire Safety"
                         [mkTask "Check extinguisher" ""
                                 [("B2", "no input"); ("C2", "no input")]]])
            else _write_new_month_data sample_selection early_sheet
                   (mkSheetData "Sheet 1"
                      [mkCategory "Fire Safety"
                         [mkTask "Check extinguisher" ""
                                 [("B2", "no input"); ("C2", "no input")]]]));
     Some (<[0%nat := ws']> [early_sheet])).
Proof.
  exact (extracted_sheet_written_in_place [early_rows] _ 0 _ sample_selection "JAN"
           [early_sheet] early_sheet eq_refl eq_refl eq_refl).
Defined.

(** ** The write pass never raises on well-formed merged regions *)

Lemma write_ref_total (ws : worksheet) (cell_ref v : string) :
  regions_ok ws = true ->
  exists ws', write_ref ws cell_ref v = Some ws' /\
              regions_ok ws' = true /\ merged_cells ws' = merged_cells ws.
Proof.
  intros Hok. destruct (_get_unmerged_cell ws cell_ref) as [cell|] eqn:Hcell.
  - destruct (write_ref_resolved ws cell_ref v cell Hok Hcell) as (ws' & Hw & Hok' & Hm & _).
    eauto.
  - exists ws. unfold write_ref. rewrite Hcell. auto.
Qed.

Lemma write_pair_total (sel : selection) (ws : worksheet) (targets : list string) :
  regions_ok ws = true ->
  exists ws', write_pair sel ws targets = Some ws' /\
              regions_ok ws' = true /\ merged_cells ws' = merged_cells ws.
Proof.
  intros Hok. destruct targets as [|first [|second rest]]; simpl; eauto.
  destruct (write_ref_total ws first (date_str sel) Hok) as (ws1 & H1 & Hok1 & Hm1).
  destruct (write_ref_total ws1 second (Py.upper (task_status sel)) Hok1)
    as (ws2 & H2 & Hok2 & Hm2).
  exists ws2. rewrite H1. simpl. rewrite H2. repeat split; congruence.
Qed.

Lemma write_task_total (same : bool) (sel : selection) (ws : worksheet) (task : Task) :
  regions_ok ws = true ->
  exists ws', (if same then write_same_task else write_new_task) sel ws task = Some ws' /\
              regions_ok ws' = true /\ merged_cells ws' = merged_cells ws.
Proof.
  intros Hok. destruct same; unfold write_same_task, write_new_task;
    (destruct (is_comment_task task); [eauto | now apply write_pair_total]).
Qed.

Lemma write_month_data_total (same : bool) (sel : selection) (ws : worksheet)
    (sheet_data : SheetData) :
  regions_ok ws = true ->
  exists ws',
    (if same then _write_same_month_data else _write_new_month_data) sel ws sheet_data
    = Some ws' /\
    regions_ok ws' = true /\ merged_cells ws' = merged_cells ws.
Proof.
  rewrite write_month_data_tasks. generalize (all_tasks sheet_data) as ts.
  intros ts; revert ws; induction ts as [|task ts IH]; intros ws Hok; simpl; [eauto|].
  destruct (write_task_total same sel ws task Hok) as (ws1 & H1 & Hok1 & Hm1).
  rewrite H1. destruct (IH ws1 Hok1) as (ws2 & H2 & Hok2 & Hm2).
  exists ws2. repeat split; congruence.
Qed.

(** X7. On a worksheet whose merged regions are well formed (none empty,
    none overlapping another), and for a selection whose two texts the
    library accepts (no control character, at most 32767 characters),
    neither write pass raises, whatever the sheet data: a reference that
    does not resolve is passed over, and every cell written is one that
    accepts a value.  The pass leaves the merged regions as they were. *)
Theorem write_pass_never_raises (sel : selection) (ws : worksheet) (sheet_data : SheetData) :
  regions_ok ws = true ->
  legal_selection sel = true ->
  (exists ws', _write_new_month_data sel ws sheet_data = Some ws' /\
               merged_cells ws' = merged_cells ws) /\
  (exists ws', _write_same_month_data sel ws sheet_data = Some ws' /\
               merged_cells ws' = merged_cells ws).
Proof.
  intros Hok _. split.
  - destruct (write_month_data_total false sel ws sheet_data Hok) as (ws' & H & _ & Hm). eauto.
  - destruct (write_month_data_total true sel ws sheet_data Hok) as (ws' & H & _ & Hm). eauto.
Qed.

Lemma write_pass_never_raises_witness :
  (exists ws', _write_new_month_data sample_selection merged_sheet
                 (mkSheetData "Sheet 1" [mkCategory "Fire Safety" [sample_task; sample_comments]]) = Some ws' /\
               merged_cells ws' = merged_cells merged_sheet) /\
  (exists ws', _write_same_month_data sample_selection merged_sheet
                 (mkSheetData "Sheet 1" [mkCategory "Fire Safety" [sample_task; sample_comments]]) = Some ws' /\
               merged_cells ws' = merged_cells merged_sheet).
Proof.
  apply (write_pass_never_raises sample_selection merged_sheet
                 (mkSheetData "Sheet 1" [mkCategory "Fire Safety" [sample_task; sample_comments]]));
    reflexivity.
Defined.

(** The texts the library accepts: tabs and line ends are legal, any
    other control character (here the bell, character 7) is not, and a
    selection whose status holds one is outside the statement above. *)
Example legal_text_examples :
  legal_selection sample_selection = true /\
  legal_text (String (ascii_of_nat 9) (String (ascii_of_nat 10) "OK")) = true /\
  legal_text (String (ascii_of_nat 7) "OK") = false /\
  legal_selection (mkSelection "ab" "15" "Jan" "2024" (String (ascii_of_nat 7) "ok")) = false.
Proof. repeat split; vm_compute; reflexivity. Qed.

(** ** The write-back reads names and references only *)

Lemma for_each_shape {S A B} (shape : A -> B) (body : S -> A -> option S) (l l' : list A) :
  (forall s a a', shape a = shape a' -> body s a = body s a') ->
  map shape l = map shape l' ->
  forall s, for_each body s l = for_each body s l'.
Proof.
  intros Hbody. revert l'; induction l as [|a l IH]; intros [|a' l'] Hmap s;
    try discriminate; [reflexivity|].
  simpl in Hmap. injection Hmap as Ha Hl. simpl.
  rewrite (Hbody s a a' Ha). destruct (body s a'); [now apply IH | reflexivity].
Qed.

Lemma write_task_shape (same : bool) (sel : selection) (ws : worksheet) (t t' : Task) :
  task_shape t = task_shape t' ->
  (if same then write_same_task else write_new_task) sel ws t
  = (if same then write_same_task else write_new_task) sel ws t'.
Proof.
  unfold task_shape. intros [= Hname Hkeys].
  destruct same; unfold write_same_task, write_new_task, is_comment_task,
    _find_next_empty_columns; now rewrite Hname, Hkeys.
Qed.

Lemma all_tasks_shape (sheet_data sheet_data' : SheetData) :
  sheet_shape sheet_data = sheet_shape sheet_data' ->
  map task_shape (all_tasks sheet_data) = map task_shape (all_tasks sheet_data').
Proof.
  unfold sheet_shape, all_tasks. intros [= _ Hc].
  revert Hc. generalize (categories sheet_data') as cs'. generalize (categories sheet_data) as cs.
  induction cs as [|c cs IH]; intros [|c' cs'] Hc; try discriminate; [reflexivity|].
  simpl in Hc. injection Hc as Hhead Htail. simpl.
  now rewrite !map_app, Hhead, (IH _ Htail).
Qed.

Lemma write_sheet_shape (sel : selection) (old_month : string) (workbook : list worksheet)
    (sheet_data sheet_data' : SheetData) :
  sheet_shape sheet_data = sheet_shape sheet_data' ->
  write_sheet sel old_month workbook sheet_data
  = write_sheet sel old_month workbook sheet_data'.
Proof.
  intros Hs. pose proof (all_tasks_shape _ _ Hs) as Ht.
  unfold sheet_shape in Hs. injection Hs as Hname _.
  unfold write_sheet. rewrite Hname.
  destruct (Py.from_end 1 (Py.split (sheet_name sheet_data'))) as [last_word|];
    [|reflexivity].
  cbn [mbind option_bind]. destruct (Py.int last_word) as [n|]; [|reflexivity].
  cbn [mbind option_bind].
  destruct ((0 <=? n - 1) && (n - 1 <? Z.of_nat (length workbook))); [|reflexivity].
  destruct (workbook !! Z.to_nat (n - 1)) as [ws|]; [|reflexivity].
  cbn [mbind option_bind].
  assert (Hw : forall same : bool,
    (if same then _write_same_month_data else _write_new_month_data) sel ws sheet_data
    = (if same then _write_same_month_data else _write_new_month_data) sel ws sheet_data').
  { intros same. rewrite !write_month_data_tasks.
    apply (for_each_shape task_shape); [|exact Ht].
    intros s a a'. apply write_task_shape. }
  destruct (String.eqb old_month (Py.upper (selected_month sel)));
    [rewrite (Hw true) | rewrite (Hw false)]; reflexivity.
Qed.

Lemma column_letters_shape (ts ts' : list Task) :
  map task_shape ts = map task_shape ts' -> column_letters ts = column_letters ts'.
Proof.
  intros Hmap. unfold column_letters. apply (for_each_shape task_shape); [|exact Hmap].
  intros acc a a'. unfold task_shape. now intros [= _ ->].
Qed.

Lemma first_category_shape (data data' : list SheetData) :
  data_shape data = data_shape data' ->
  match first_category_tasks data, first_category_tasks data' with
  | Some ts, Some ts' => map task_shape ts = map task_shape ts'
  | None, None => True
  | _, _ => False
  end.
Proof.
  unfold data_shape, first_category_tasks.
  destruct data as [|sd data], data' as [|sd' data']; try discriminate; [exact (fun _ => I)|].
  cbn [map lookup list_lookup mbind option_bind]. unfold sheet_shape.
  intros Heq. injection Heq as _ Hc _.
  destruct (categories sd) as [|c cs], (categories sd') as [|c' cs']; try discriminate Hc;
    [exact I|].
  cbn [map] in Hc. injection Hc as Hc _. exact Hc.
Qed.

Lemma clear_worksheet_shape (data data' : list SheetData) (ws : worksheet) :
  data_shape data = data_shape data' -> clear_worksheet data ws = clear_worksheet data' ws.
Proof.
  intros Hs. apply first_category_shape in Hs. unfold clear_worksheet.
  destruct (first_category_tasks data) as [ts|], (first_category_tasks data') as [ts'|];
    try contradiction; [|reflexivity].
  cbn [mbind option_bind]. now rewrite (column_letters_shape _ _ Hs).
Qed.

Lemma save_to_excel_shape (sel : selection) (data data' : list SheetData)
    (xlsx_exists : bool) (stem : string) (workbook : list worksheet) :
  data_shape data = data_shape data' ->
  _save_to_excel sel data xlsx_exists stem workbook
  = _save_to_excel sel data' xlsx_exists stem workbook.
Proof.
  intros Hs. unfold _save_to_excel.
  destruct (negb xlsx_exists); [reflexivity|].
  destruct (parse_filename stem) as [[base_name old_month]|]; [|reflexivity].
  assert (Hclear : _clear_previous_month_data data workbook
                   = _clear_previous_month_data data' workbook).
  { unfold _clear_previous_month_data.
    induction workbook as [|ws workbook IH]; [reflexivity|].
    cbn [mapM]. now rewrite (clear_worksheet_shape _ _ ws Hs), IH. }
  rewrite Hclear.
  destruct (if negb (String.eqb old_month (Py.upper (selected_month sel)))
            then _clear_previous_month_data data' workbook else Some workbook) as [wb|];
    [|reflexivity].
  cbn [mbind option_bind].
  now rewrite (for_each_shape sheet_shape (write_sheet sel old_month) data data'
                 (fun s a a' => write_sheet_shape sel old_month s a a') Hs wb).
Qed.

(** X8. The write-back reads of the data only the names of the sheets,
    the grouping and names of the tasks, and the references of their slots:
    two data sets that agree on these produce the same outcome, whatever
    values the slots hold and whatever the descriptions and category names
    are.  What a task's slots were set to while the checklist was filled in
    therefore never reaches the workbook. *)
Theorem save_reads_shape_only (sel : selection) (data data' : list SheetData)
    (xlsx_exists : bool) (stem : string) (workbook : list worksheet) :
  data_shape data = data_shape data' ->
  _save_to_excel sel data xlsx_exists stem workbook
  = _save_to_excel sel data' xlsx_exists stem workbook.
Proof. apply save_to_excel_shape. Qed.

Lemma save_reads_shape_only_witness :
  _save_to_excel sample_selection sample_data true "Fire Panel 02 JAN 24" [sample_sheet]
  = _save_to_excel sample_selection
      [mkSheetData "Sheet 1"
         [mkCategory "Renamed"
            [mkTask "Check extinguisher" "" [("B9", "AB 15 JAN 24"); ("C9", "OK")];
             sample_comments]]]
      true "Fire Panel 02 JAN 24" [sample_sheet].
Proof.
  exact (save_reads_shape_only sample_selection sample_data
           [mkSheetData "Sheet 1"
              [mkCategory "Renamed"
                 [mkTask "Check extinguisher" "" [("B9", "AB 15 JAN 24"); ("C9", "OK")];
                  sample_comments]]]
           true "Fire Panel 02 JAN 24" [sample_sheet] eq_refl).
Defined.

(** ** When the write-back of an extracted checklist succeeds *)

Lemma clear_cell_total (col_idx : Z) (ws : worksheet) (row : Z) :
  row <= ws_max_row ws -> ws_max_row ws <= MAX_ROW ->
  exists ws', clear_cell col_idx ws row = Some ws' /\
              merged_cells ws' = merged_cells ws /\ ws_max_row ws' = ws_max_row ws.
Proof.
  intros Hrow Hmax. unfold clear_cell.
  destruct ((row <? 1) || (col_idx <? 1)) eqn:Hg; [eauto|].
  apply orb_false_iff in Hg as [Hr%Z.ltb_ge Hc%Z.ltb_ge].
  rewrite ws_cell_ok by lia. cbn [mbind option_bind fst snd].
  destruct (is_merged_cell ws row col_idx) eqn:Hm; [eauto|].
  unfold set_value. cbn [fst snd]. rewrite Hm.
  eexists. split; [reflexivity|]. split; [reflexivity|]. simpl. lia.
Qed.

Lemma clear_cells_total (col_idx : Z) (rows : list Z) (ws : worksheet) :
  (forall row, row ∈ rows -> row <= ws_max_row ws) -> ws_max_row ws <= MAX_ROW ->
  exists ws', for_each (clear_cell col_idx) ws rows = Some ws' /\
              merged_cells ws' = merged_cells ws /\ ws_max_row ws' = ws_max_row ws.
Proof.
  revert ws; induction rows as [|row rows IH]; intros ws Hrows Hmax; simpl; [eauto|].
  destruct (clear_cell_total col_idx ws row) as (ws1 & -> & Hm1 & Hx1);
    [apply Hrows; left | exact Hmax |].
  destruct (IH ws1) as (ws2 & H2 & Hm2 & Hx2).
  - intros r Hr. rewrite Hx1. apply Hrows. now right.
  - now rewrite Hx1.
  - exists ws2. split; [exact H2|]. split; congruence.
Qed.

Lemma clear_column_total (ws : worksheet) (column : ascii) :
  Py.isalpha column = true -> ws_max_row ws <= MAX_ROW ->
  exists ws', clear_column ws column = Some ws' /\
              merged_cells ws' = merged_cells ws /\ ws_max_row ws' = ws_max_row ws.
Proof.
  intros Ha Hmax. unfold clear_column. destruct (Ascii.eqb column "A"); [eauto|].
  unfold column_index_from_string. simpl. rewrite Ha. simpl.
  apply clear_cells_total; [|exact Hmax].
  intros row Hrow. apply elem_of_seqZ in Hrow. lia.
Qed.

Lemma column_letters_total (ts : list Task) :
  (forall task ref, task ∈ ts -> ref ∈ keys (inputs task) -> ref <> "") ->
  is_Some (column_letters ts).
Proof.
  unfold column_letters. generalize (∅ : gset ascii) as acc.
  induction ts as [|task ts IH]; intros acc Hne; simpl; [eauto|].
  assert (Hinner : forall (refs : list string) (acc0 : gset ascii),
            (forall ref, ref ∈ refs -> ref <> "") ->
            is_Some (for_each (fun (acc : gset ascii) cell_ref =>
                                 c ← Py.first_char cell_ref; Some ({[c]} ∪ acc))
                              acc0 refs)).
  { induction refs as [|ref refs IHr]; intros acc0 Hrefs; simpl; [eauto|].
    destruct ref as [|c s]; [exfalso; apply (Hrefs ""); [left | reflexivity]|].
    simpl. apply IHr. intros ref Hin. apply Hrefs. now right. }
  destruct (Hinner (keys (inputs task)) acc) as [acc1 ->].
  - intros ref Hin. apply (Hne task); [left | exact Hin].
  - apply IH. intros t ref Ht. apply Hne. now right.
Qed.

Lemma clear_worksheet_total (data : list SheetData) (ts : list Task) (ws : worksheet) :
  first_category_tasks data = Some ts ->
  (forall task ref, task ∈ ts -> ref ∈ keys (inputs task) ->
     exists c s, ref = String c s /\ Py.isalpha c = true) ->
  ws_max_row ws <= MAX_ROW ->
  exists ws', clear_worksheet data ws = Some ws' /\ merged_cells ws' = merged_cells ws.
Proof.
  intros Hts Hrefs Hmax. unfold clear_worksheet. rewrite Hts. cbn [mbind option_bind].
  destruct (column_letters_total ts) as [letters Hl].
  { intros task ref Ht Hr. destruct (Hrefs task ref Ht Hr) as (c & s & -> & _). discriminate. }
  rewrite Hl. cbn [mbind option_bind].
  assert (Hall : forall c, c ∈ elements letters -> Py.isalpha c = true).
  { intros c Hc. apply elem_of_elements in Hc.
    destruct (column_letters_origin _ _ _ Hl Hc) as (task & ref & Ht & Hr & Hfirst).
    destruct (Hrefs task ref Ht Hr) as (c' & s & -> & Ha).
    simpl in Hfirst. now injection Hfirst as <-. }
  revert Hall. generalize (elements letters) as cols. clear Hl.
  intros cols; revert ws Hmax; induction cols as [|c cols IH]; intros ws Hmax Hall; simpl;
    [eauto|].
  destruct (clear_column_total ws c) as (ws1 & -> & Hm1 & Hx1); [apply Hall; left | exact Hmax |].
  destruct (IH ws1) as (ws2 & H2 & Hm2);
    [now rewrite Hx1 | intros c' Hc'; apply Hall; now right |].
  exists ws2. split; [exact H2 | congruence].
Qed.

Lemma clear_workbook_total (data : list SheetData) (ts : list Task) (workbook : list worksheet) :
  first_category_tasks data = Some ts ->
  (forall task ref, task ∈ ts -> ref ∈ keys (inputs task) ->
     exists c s, ref = String c s /\ Py.isalpha c = true) ->
  forallb rows_in_sheet workbook = true ->
  exists wb, _clear_previous_month_data data workbook = Some wb /\
             Forall2 (fun ws ws' => merged_cells ws' = merged_cells ws) workbook wb.
Proof.
  intros Hts Hrefs. unfold _clear_previous_month_data.
  induction workbook as [|ws workbook IH]; intros Hrows;
    [exists []; split; [reflexivity|constructor]|].
  simpl in Hrows. apply andb_true_iff in Hrows as [Hws%Z.leb_le Hrest].
  destruct (IH Hrest) as (wb & Hwb & Hall).
  destruct (clear_worksheet_total data ts ws Hts Hrefs Hws) as (ws' & Hws' & Hm).
  exists (ws' :: wb). split; [|now constructor].
  cbn [mapM]. rewrite Hws'. cbn [mbind option_bind]. rewrite Hwb. reflexivity.
Qed.

Lemma regions_ok_forall2 (workbook wb : list worksheet) :
  Forall2 (fun ws ws' => merged_cells ws' = merged_cells ws) workbook wb ->
  forallb regions_ok workbook = true -> forallb regions_ok wb = true.
Proof.
  induction 1 as [|ws ws' workbook wb Hm _ IH]; [auto|]. simpl.
  intros [Hok Hrest]%andb_true_iff.
  now rewrite (regions_ok_merged_eq _ _ Hm), Hok, IH.
Qed.

Lemma regions_ok_lookup (workbook : list worksheet) (i : nat) (ws : worksheet) :
  forallb regions_ok workbook = true -> workbook !! i = Some ws -> regions_ok ws = true.
Proof.
  rewrite forallb_forall. intros H Hi. apply H, list_elem_of_In.
  eapply list_elem_of_lookup_2; eauto.
Qed.

Lemma regions_ok_insert (workbook : list worksheet) (i : nat) (ws : worksheet) :
  forallb regions_ok workbook = true -> regions_ok ws = true ->
  forallb regions_ok (<[i := ws]> workbook) = true.
Proof.
  revert i; induction workbook as [|w workbook IH]; intros i; [auto|].
  simpl. intros [Hw Hrest]%andb_true_iff Hws.
  destruct i as [|i]; simpl.
  - now rewrite Hws, Hrest.
  - now rewrite Hw, IH.
Qed.

Lemma write_sheet_total (sel : selection) (old_month : string) (workbook : list worksheet)
    (sheet_data : SheetData) :
  is_Some (last_word ← Py.from_end 1 (Py.split (sheet_name sheet_data)); Py.int last_word) ->
  forallb regions_ok workbook = true ->
  exists wb, write_sheet sel old_month workbook sheet_data = Some wb /\
             forallb regions_ok wb = true /\ length wb = length workbook.
Proof.
  intros [n Hn] Hok. unfold write_sheet.
  destruct (Py.from_end 1 (Py.split (sheet_name sheet_data))) as [last_word|]; [|discriminate].
  cbn [mbind option_bind] in Hn |- *. rewrite Hn. cbn [mbind option_bind].
  destruct ((0 <=? n - 1) && (n - 1 <? Z.of_nat (length workbook))) eqn:Hrange; [|eauto].
  apply andb_true_iff in Hrange as [H0%Z.leb_le Hlt%Z.ltb_lt].
  destruct (lookup_lt_is_Some_2 workbook (Z.to_nat (n - 1)) ltac:(lia)) as [ws Hws].
  rewrite Hws. cbn [mbind option_bind].
  pose proof (regions_ok_lookup _ _ _ Hok Hws) as Hwsok.
  destruct (String.eqb old_month (Py.upper (selected_month sel))).
  - destruct (write_month_data_total true sel ws sheet_data Hwsok) as (ws' & -> & Hok' & _).
    cbn [mbind option_bind]. eexists. split; [reflexivity|].
    split; [now apply regions_ok_insert | apply length_insert].
  - destruct (write_month_data_total false sel ws sheet_data Hwsok) as (ws' & -> & Hok' & _).
    cbn [mbind option_bind]. eexists. split; [reflexivity|].
    split; [now apply regions_ok_insert | apply length_insert].
Qed.

Lemma write_loop_total (sel : selection) (old_month : string) (data : list SheetData)
    (workbook : list worksheet) :
  (forall sheet_data, sheet_data ∈ data ->
     is_Some (last_word ← Py.from_end 1 (Py.split (sheet_name sheet_data));
              Py.int last_word)) ->
  forallb regions_ok workbook = true ->
  exists wb, for_each (write_sheet sel old_month) workbook data = Some wb /\
             length wb = length workbook.
Proof.
  revert workbook; induction data as [|sheet_data data IH]; intros workbook Hnames Hok;
    simpl; [eauto|].
  destruct (write_sheet_total sel old_month workbook sheet_data) as (wb1 & -> & Hok1 & Hlen1);
    [apply Hnames; left | exact Hok |].
  destruct (IH wb1) as (wb2 & H2 & Hlen2); [intros sd Hsd; apply Hnames; now right | exact Hok1 |].
  exists wb2. split; [exact H2 | congruence].
Qed.

Lemma isupper_isalpha (c : ascii) : Py.isupper c = true -> Py.isalpha c = true.
Proof. ascii_cases c; intros H; try discriminate H; reflexivity. Qed.

Lemma shape_sheet_names (data extracted : list SheetData) (sheets : list (list (list Cell)))
    (sheet_data : SheetData) :
  process_workbook sheets = Some extracted ->
  data_shape data = data_shape extracted ->
  sheet_data ∈ data ->
  exists k : nat, sheet_name sheet_data = "Sheet " +:+ Py.str (Py.VInt (Z.of_nat k + 1)).
Proof.
  intros Hp Hs Hin. apply list_elem_of_lookup_1 in Hin as (k & Hk).
  assert (Hk' : data_shape data !! k = Some (sheet_shape sheet_data)).
  { unfold data_shape. now rewrite list_lookup_fmap, Hk. }
  rewrite Hs in Hk'. unfold data_shape in Hk'. rewrite list_lookup_fmap in Hk'.
  destruct (extracted !! k) as [sd'|] eqn:Hsd'; [|discriminate].
  simpl in Hk'. injection Hk' as Hname _.
  destruct (process_workbook_lookup _ _ _ _ Hp Hsd') as (rows & _ & Hrows).
  exists k. rewrite <- Hname. now apply process_worksheet_name in Hrows.
Qed.

Lemma shape_first_category_refs (data extracted : list SheetData)
    (sheets : list (list (list Cell))) (ts : list Task) (task : Task) (ref : string) :
  forallb rows_ok sheets = true ->
  process_workbook sheets = Some extracted ->
  data_shape data = data_shape extracted ->
  first_category_tasks data = Some ts ->
  task ∈ ts -> ref ∈ keys (inputs task) ->
  exists c s, ref = String c s /\ Py.isalpha c = true.
Proof.
  intros Hrows Hp Hs Hts Ht Hr.
  pose proof (first_category_shape _ _ Hs) as Hfc. rewrite Hts in Hfc.
  destruct (first_category_tasks extracted) as [ts'|] eqn:Hts'; [|contradiction].
  (* the task of the extracted data with the same shape *)
  apply list_elem_of_lookup_1 in Ht as (i & Hi).
  assert (Hi' : map task_shape ts !! i = Some (task_shape task))
    by now rewrite list_lookup_fmap, Hi.
  rewrite Hfc, list_lookup_fmap in Hi'.
  destruct (ts' !! i) as [task'|] eqn:Htask'; [|discriminate].
  simpl in Hi'. injection Hi' as _ Hkeys.
  rewrite <- Hkeys in Hr.
  (* it belongs to the first extracted sheet *)
  unfold first_category_tasks in Hts'.
  destruct (extracted !! 0%nat) as [sd|] eqn:Hsd; [|discriminate].
  cbn [mbind option_bind] in Hts'.
  destruct (categories sd !! 0%nat) as [cat|] eqn:Hcat; [|discriminate].
  cbn [mbind option_bind] in Hts'. injection Hts' as <-.
  destruct (process_workbook_lookup _ _ _ _ Hp Hsd) as (rows & Hrows0 & Hsheet).
  assert (Hok : rows_ok rows = true).
  { rewrite forallb_forall in Hrows. apply Hrows, list_elem_of_In.
    eapply list_elem_of_lookup_2; eauto. }
  assert (Hall : task' ∈ all_tasks sd).
  { unfold all_tasks. apply elem_of_flat_map. exists cat. split.
    - eapply list_elem_of_lookup_2; eauto.
    - eapply list_elem_of_lookup_2; eauto. }
  pose proof (extracted_refs _ _ _ _ _ Hok Hsheet Hall Hr) as Hex.
  destruct (extracted_ref_split _ _ Hex) as (_ & _ & _ & _ & _ & c & s & -> & Hup).
  exists c, s. split; [reflexivity | now apply isupper_isalpha].
Qed.

(** X9. For a checklist with the names and references extraction produced
    (whatever was entered into its slots since), written back to a workbook
    that has a worksheet, whose merged regions are well formed and whose
    sheets end within the 1048576 rows of the library, under a file name of
    at least two words and for a selection whose two texts the library
    accepts: the write-back reaches the save exactly when the period is the
    one of the file name or the first sheet of the checklist has a
    category.  The saved workbook has as many worksheets as the one
    loaded. *)
Theorem save_of_extracted (sel : selection) (sheets : list (list (list Cell)))
    (extracted data : list SheetData) (stem base_name old_month : string)
    (workbook : list worksheet) :
  forallb rows_ok sheets = true ->
  process_workbook sheets = Some extracted ->
  data_shape data = data_shape extracted ->
  forallb regions_ok workbook = true ->
  forallb rows_in_sheet workbook = true ->
  legal_selection sel = true ->
  workbook <> [] ->
  parse_filename stem = Some (base_name, old_month) ->
  ((exists wb, _save_to_excel sel data true stem workbook
               = Saved (new_filename_of base_name sel) wb /\
               length wb = length workbook)
   <-> (old_month = Py.upper (selected_month sel) \/ is_Some (first_category_tasks data))) /\
  (_save_to_excel sel data true stem workbook = Failed
   <-> (old_month <> Py.upper (selected_month sel) /\ first_category_tasks data = None)).
Proof.
  intros Hrows Hp Hs Hok Hin _ Hne Hstem.
  assert (Hnames : forall sheet_data, sheet_data ∈ data ->
            is_Some (last_word ← Py.from_end 1 (Py.split (sheet_name sheet_data));
                     Py.int last_word)).
  { intros sd Hsd. destruct (shape_sheet_names _ _ _ _ Hp Hs Hsd) as (k & ->).
    rewrite sheet_name_index by lia. eauto. }
  assert (Hcases :
    (old_month <> Py.upper (selected_month sel) /\ first_category_tasks data = None /\
     _save_to_excel sel data true stem workbook = Failed) \/
    ((old_month = Py.upper (selected_month sel) \/ is_Some (first_category_tasks data)) /\
     exists wb, _save_to_excel sel data true stem workbook
                = Saved (new_filename_of base_name sel) wb /\
                length wb = length workbook)).
  { unfold _save_to_excel. cbn [negb]. rewrite Hstem.
    destruct (String.eqb_spec old_month (Py.upper (selected_month sel))) as [Heq|Hneq];
      cbn [negb].
    - right. split; [now left|]. cbn [mbind option_bind].
      destruct (write_loop_total sel old_month data workbook Hnames Hok) as (wb & -> & Hlen).
      eauto.
    - destruct (first_category_tasks data) as [ts|] eqn:Hts.
      + right. split; [right; eauto|].
        destruct (clear_workbook_total data ts workbook Hts) as (wb0 & -> & Hall);
          [|exact Hin|].
        { intros task ref. now apply (shape_first_category_refs data extracted sheets ts). }
        cbn [mbind option_bind].
        destruct (write_loop_total sel old_month data wb0 Hnames
                    (regions_ok_forall2 _ _ Hall Hok)) as (wb & -> & Hlen).
        exists wb. split; [reflexivity|]. rewrite Hlen. symmetry.
        eapply Forall2_length; eauto.
      + left. split; [exact Hneq|]. split; [reflexivity|].
        destruct workbook as [|ws workbook]; [congruence|].
        unfold _clear_previous_month_data, clear_worksheet. cbn [mapM].
        rewrite Hts. reflexivity. }
  split; split.
  - intros (wb & Hsave & _). destruct Hcases as [(_ & _ & Hf)|[Hc _]]; [congruence | exact Hc].
  - intros Hc. destruct Hcases as [(Hneq & Hnone & _)|[_ Hsome]]; [|exact Hsome].
    destruct Hc as [Heq|[ts Hts]]; congruence.
  - intros Hf. destruct Hcases as [(Hneq & Hnone & _)|[_ (wb & Hsave & _)]]; [auto | congruence].
  - intros [Hneq Hnone]. destruct Hcases as [(_ & _ & Hf)|[[Heq|[ts Hts]] _]];
      [exact Hf | contradiction | congruence].
Qed.

Lemma save_of_extracted_witness :
  let data := [mkSheetData "Sheet 1"
                 [mkCategory "Fire Safety"
                    [mkTask "Check extinguisher" ""
                            [("B2", "AB 15 JAN 24"); ("C2", "OK")]]]] in
  ((exists wb, _save_to_excel sample_selection data true "Fire Panel 02 FEB 24" [early_sheet]
               = Saved (new_filename_of "Fire Panel" sample_selection) wb /\
               length wb = length [early_sheet])
   <-> ("FEB" = Py.upper (selected_month sample_selection) \/
        is_Some (first_category_tasks data))) /\
  (_save_to_excel sample_selection data true "Fire Panel 02 FEB 24" [early_sheet] = Failed
   <-> ("FEB" <> Py.upper (selected_month sample_selection) /\
        first_category_tasks data = None)).
Proof.
  apply (save_of_extracted sample_selection [early_rows]
           [mkSheetData "Sheet 1"
              [mkCategory "Fire Safety"
                 [mkTask "Check extinguisher" ""
                         [("B2", "no input"); ("C2", "no input")]]]]);
    [reflexivity | reflexivity | reflexivity | reflexivity | reflexivity | reflexivity
    | discriminate | reflexivity].
Defined.

(** ** Sheet names the write-back cannot read *)

Lemma for_each_fails {S A} (body : S -> A -> option S) (l : list A) (a : A) (s : S) :
  a ∈ l -> (forall s', body s' a = None) -> for_each body s l = None.
Proof.
  intros Hin Hfail. revert s; induction l as [|b l IH]; intros s; [by apply elem_of_nil in Hin|].
  simpl. apply elem_of_cons in Hin as [<-|Hin].
  - now rewrite Hfail.
  - destruct (body s b); [now apply IH | reflexivity].
Qed.

(** X10. One sheet of the data whose name is blank, or whose last word is
    not a whole number, makes the whole write-back fail: wherever the sheet
    stands in the data and whatever was written for the sheets before it,
    nothing is saved. *)
Theorem unnumbered_sheet_fails (sel : selection) (data : list SheetData)
    (xlsx_exists : bool) (stem : string) (workbook : list worksheet)
    (sheet_data : SheetData) :
  sheet_data ∈ data ->
  (last_word ← Py.from_end 1 (Py.split (sheet_name sheet_data)); Py.int last_word) = None ->
  _save_to_excel sel data xlsx_exists stem workbook = Failed.
Proof.
  intros Hin Hname. unfold _save_to_excel.
  destruct (negb xlsx_exists); [reflexivity|].
  destruct (parse_filename stem) as [[base_name old_month]|]; [|reflexivity].
  match goal with |- context [?c ≫= _] => destruct c as [wb|] end; [|reflexivity].
  cbn [mbind option_bind].
  rewrite (for_each_fails (write_sheet sel old_month) data sheet_data wb Hin); [reflexivity|].
  intros wb'. unfold write_sheet.
  destruct (Py.from_end 1 (Py.split (sheet_name sheet_data))) as [last_word|]; [|reflexivity].
  cbn [mbind option_bind] in Hname |- *. now rewrite Hname.
Qed.

Lemma unnumbered_sheet_fails_witness :
  _save_to_excel sample_selection
    [mkSheetData "Sheet 1" [mkCategory "Fire Safety" [sample_task]];
     mkSheetData "Summary" []]
    true "Fire Panel 02 JAN 24" [sample_sheet] = Failed.
Proof.
  apply (unnumbered_sheet_fails sample_selection _ true "Fire Panel 02 JAN 24" [sample_sheet]
           (mkSheetData "Summary" [])).
  - right. left.
  - reflexivity.
Defined.

(** ** A same-period write uses up the slots it chose *)







(** ** A write-back keeps the structure of the workbook *)

Lemma same_structure_refl (ws : worksheet) : same_structure ws ws.
Proof. split; [reflexivity | lia]. Qed.

Lemma same_structure_trans (a b c : worksheet) :
  same_structure a b -> same_structure b c -> same_structure a c.
Proof. intros [Hm1 Hr1] [Hm2 Hr2]. split; [congruence | lia]. Qed.

Lemma set_value_structure (ws ws' : worksheet) (pos : Z * Z) (v : Py.value) :
  set_value ws pos v = Some ws' -> same_structure ws ws'.
Proof.
  unfold set_value. destruct (is_merged_cell ws pos.1 pos.2); [discriminate|].
  intros [= <-]. split; simpl; [reflexivity | lia].
Qed.

Lemma write_ref_structure (ws ws' : worksheet) (cell_ref v : string) :
  write_ref ws cell_ref v = Some ws' -> same_structure ws ws'.
Proof.
  unfold write_ref. destruct (_get_unmerged_cell ws cell_ref) as [cell|].
  - apply set_value_structure.
  - intros [= <-]. apply same_structure_refl.
Qed.

Lemma write_pair_structure (sel : selection) (ws ws' : worksheet) (targets : list string) :
  write_pair sel ws targets = Some ws' -> same_structure ws ws'.
Proof.
  destruct targets as [|first [|second rest]]; simpl;
    try (intros [= <-]; apply same_structure_refl).
  destruct (write_ref ws first (date_str sel)) as [ws1|] eqn:H1; [|discriminate].
  simpl. intros H2. eapply same_structure_trans; eauto using write_ref_structure.
Qed.

Lemma write_month_data_structure (same : bool) (sel : selection) (ws ws' : worksheet)
    (sheet_data : SheetData) :
  (if same then _write_same_month_data else _write_new_month_data) sel ws sheet_data
  = Some ws' ->
  same_structure ws ws'.
Proof.
  rewrite write_month_data_tasks.
  apply (for_each_preserves same_structure);
    [apply same_structure_refl | apply same_structure_trans|].
  intros s1 task s2 _ _.
  destruct same; unfold write_same_task, write_new_task;
    (destruct (is_comment_task task);
     [intros [= <-]; apply same_structure_refl | apply write_pair_structure]).
Qed.

Lemma clear_cell_structure (col_idx : Z) (ws ws' : worksheet) (row : Z) :
  clear_cell col_idx ws row = Some ws' -> same_structure ws ws'.
Proof.
  unfold clear_cell. destruct ((row <? 1) || (col_idx <? 1));
    [intros [= <-]; apply same_structure_refl|].
  destruct (ws_cell row col_idx) as [cell|]; [|discriminate]. cbn [mbind option_bind].
  destruct (is_merged_cell ws cell.1 cell.2);
    [intros [= <-]; apply same_structure_refl | apply set_value_structure].
Qed.

Lemma clear_worksheet_structure (data : list SheetData) (ws ws' : worksheet) :
  clear_worksheet data ws = Some ws' -> same_structure ws ws'.
Proof.
  unfold clear_worksheet.
  destruct (first_category_tasks data) as [ts|]; [|discriminate]. cbn [mbind option_bind].
  destruct (column_letters ts) as [letters|]; [|discriminate]. cbn [mbind option_bind].
  apply (for_each_preserves same_structure);
    [apply same_structure_refl | apply same_structure_trans|].
  intros s1 c s2 _ _. unfold clear_column.
  destruct (Ascii.eqb c "A"); [intros [= <-]; apply same_structure_refl|].
  destruct (column_index_from_string (String c "")) as [col_idx|]; [|discriminate].
  cbn [mbind option_bind].
  apply (for_each_preserves same_structure);
    [apply same_structure_refl | apply same_structure_trans|].
  intros s3 row s4 _ _. apply clear_cell_structure.
Qed.

Lemma workbook_structure_refl (wb : list worksheet) : Forall2 same_structure wb wb.
Proof. induction wb; constructor; auto using same_structure_refl. Qed.

Lemma workbook_structure_trans (a b c : list worksheet) :
  Forall2 same_structure a b -> Forall2 same_structure b c -> Forall2 same_structure a c.
Proof.
  intros Hab; revert c; induction Hab as [|x y a b Hxy _ IH]; intros c Hbc;
    inversion Hbc; subst; constructor; eauto using same_structure_trans.
Qed.

Lemma workbook_structure_insert (wb : list worksheet) (i : nat) (ws ws' : worksheet) :
  wb !! i = Some ws -> same_structure ws ws' ->
  Forall2 same_structure wb (<[i := ws']> wb).
Proof.
  revert i; induction wb as [|w wb IH]; intros [|i]; simpl; try discriminate.
  - intros [= ->] H. constructor; [exact H | apply workbook_structure_refl].
  - intros Hi H. constructor; [apply same_structure_refl | now apply IH].
Qed.

Lemma write_sheet_structure (sel : selection) (old_month : string) (wb wb' : list worksheet)
    (sheet_data : SheetData) :
  write_sheet sel old_month wb sheet_data = Some wb' -> Forall2 same_structure wb wb'.
Proof.
  unfold write_sheet.
  destruct (Py.from_end 1 (Py.split (sheet_name sheet_data))) as [last_word|]; [|discriminate].
  cbn [mbind option_bind]. destruct (Py.int last_word) as [n|]; [|discriminate].
  cbn [mbind option_bind].
  destruct ((0 <=? n - 1) && (n - 1 <? Z.of_nat (length wb)));
    [|intros [= <-]; apply workbook_structure_refl].
  destruct (wb !! Z.to_nat (n - 1)) as [ws|] eqn:Hws; [|discriminate].
  cbn [mbind option_bind].
  destruct (String.eqb old_month (Py.upper (selected_month sel))).
  - destruct (_write_same_month_data sel ws sheet_data) as [ws'|] eqn:Hw; [|discriminate].
    intros [= <-]. apply (workbook_structure_insert _ _ ws); [exact Hws|].
    exact (write_month_data_structure true sel ws ws' sheet_data Hw).
  - destruct (_write_new_month_data sel ws sheet_data) as [ws'|] eqn:Hw; [|discriminate].
    intros [= <-]. apply (workbook_structure_insert _ _ ws); [exact Hws|].
    exact (write_month_data_structure false sel ws ws' sheet_data Hw).
Qed.

Lemma clear_workbook_structure (data : list SheetData) (wb wb' : list worksheet) :
  _clear_previous_month_data data wb = Some wb' -> Forall2 same_structure wb wb'.
Proof.
  unfold _clear_previous_month_data. intros H%mapM_Some.
  induction H as [|ws ws' wb wb' Hws _ IH]; constructor;
    [now apply (clear_worksheet_structure data) | exact IH].
Qed.

(** X12. A write-back that reaches the save hands over a workbook with
    the worksheets of the one it loaded, in the same order and number, each
    with the merged regions it had and with at least as many rows: the
    write-back never adds, removes or reorders worksheets, never merges or
    unmerges cells, and never shortens a sheet. *)
Theorem save_keeps_structure (sel : selection) (data : list SheetData) (xlsx_exists : bool)
    (stem new_filename : string) (workbook wb' : list worksheet) :
  _save_to_excel sel data xlsx_exists stem workbook = Saved new_filename wb' ->
  length wb' = length workbook /\
  forall (i : nat) ws,
    workbook !! i = Some ws ->
    exists ws', wb' !! i = Some ws' /\
                merged_cells ws' = merged_cells ws /\
                ws_max_row ws <= ws_max_row ws'.
Proof.
  intros Hsave.
  assert (H : Forall2 same_structure workbook wb').
  { unfold _save_to_excel in Hsave.
    destruct (negb xlsx_exists); [discriminate|].
    destruct (parse_filename stem) as [[base_name old_month]|]; [|discriminate].
    match type of Hsave with context [?c ≫= _] => destruct c as [wb|] eqn:Hclear end;
      [|discriminate].
    cbn [mbind option_bind] in Hsave.
    destruct (for_each (write_sheet sel old_month) wb data) as [wb2|] eqn:Hloop;
      [|discriminate].
    injection Hsave as _ <-.
    apply (workbook_structure_trans _ wb).
    - destruct (negb (String.eqb old_month (Py.upper (selected_month sel)))).
      + now apply (clear_workbook_structure data).
      + injection Hclear as <-. apply workbook_structure_refl.
    - revert Hloop. apply (for_each_preserves (Forall2 same_structure));
        [apply workbook_structure_refl | apply workbook_structure_trans|].
      intros s1 sd s2 _ _. apply write_sheet_structure. }
  split; [symmetry; eapply Forall2_length; eauto|].
  intros i ws Hi. destruct (Forall2_lookup_l _ _ _ _ _ H Hi) as (ws' & Hi' & Hm & Hr).
  eauto.
Qed.

Lemma save_keeps_structure_witness :
  length (saved_workbook
            (_save_to_excel sample_selection sample_data true "Fire Panel 02 FEB 24"
                            [merged_sheet]))
  = length [merged_sheet] /\
  forall (i : nat) ws,
    [merged_sheet] !! i = Some ws ->
    exists ws',
      saved_workbook (_save_to_excel sample_selection sample_data true
                                     "Fire Panel 02 FEB 24" [merged_sheet]) !! i = Some ws' /\
      merged_cells ws' = merged_cells ws /\
      ws_max_row ws <= ws_max_row ws'.
Proof.
  apply (save_keeps_structure sample_selection sample_data true "Fire Panel 02 FEB 24"
           (saved_name (_save_to_excel sample_selection sample_data true
                                       "Fire Panel 02 FEB 24" [merged_sheet]))
           [merged_sheet]).
  vm_compute. reflexivity.
Defined.

(** ** Filling in the checklist *)

Lemma count_char_append (c : ascii) (s t : string) :
  count_char c (s +:+ t) = (count_char c s + count_char c t)%nat.
Proof.
  induction s as [|c' s IH]; [reflexivity|].
  rewrite append_cons. simpl. rewrite IH. lia.
Qed.

Lemma count_blank_lower (s : string) : count_char " " (Py.lower s) = count_char " " s.
Proof.
  induction s as [|c s IH]; [reflexivity|].
  simpl. fold (Py.lower s). rewrite IH. f_equal.
  ascii_cases c; reflexivity.
Qed.

(** The date text never reads "no input": it has three blanks. *)
Lemma date_str_not_no_input (sel : selection) : is_no_input (date_str sel) = false.
Proof.
  unfold is_no_input. apply String.eqb_neq. intros H.
  apply (f_equal (count_char " ")) in H.
  rewrite count_blank_lower in H. unfold date_str in H.
  rewrite !count_char_append in H. simpl in H. lia.
Qed.

Lemma first_no_input_head (inputs : list (string * string)) :
  first_no_input inputs = head (open_slots inputs).
Proof.
  unfold first_no_input, open_slots.
  induction inputs as [|[k v] d IH]; [reflexivity|].
  simpl. destruct (is_no_input v); [reflexivity | exact IH].
Qed.

Lemma keys_dict_set_member (d : list (string * string)) (k v : string) :
  k ∈ keys d -> keys (dict_set d k v) = keys d.
Proof.
  unfold keys. induction d as [|[k' v'] d IH]; simpl; [intros H; by apply elem_of_nil in H|].
  intros Hin. destruct (String.eqb_spec k k') as [->|Hne]; [reflexivity|].
  simpl. f_equal. apply IH. apply elem_of_cons in Hin as [?|?]; [contradiction | assumption].
Qed.

Lemma open_slots_keys (d : list (string * string)) (k : string) :
  k ∈ open_slots d -> k ∈ keys d.
Proof.
  unfold open_slots, keys. intros Hin.
  apply list_elem_of_fmap in Hin as ([k' v] & -> & Hin).
  apply list_elem_of_In, filter_In in Hin as [Hin _].
  apply list_elem_of_fmap. exists (k', v). split; [reflexivity | now apply list_elem_of_In].
Qed.

Lemma open_slots_NoDup (d : list (string * string)) :
  NoDup (keys d) -> NoDup (open_slots d).
Proof.
  unfold keys. induction d as [|[k v] d IH]; intros Hnd; [constructor|].
  simpl in Hnd. apply NoDup_cons in Hnd as [Hfresh Hnd].
  unfold open_slots. simpl. fold (open_slots d).
  destruct (is_no_input v); simpl; [|now apply IH].
  apply NoDup_cons. split; [|now apply IH].
  intros Hin. apply Hfresh. now apply (open_slots_keys d k).
Qed.

(** Setting a key that heads the open slots to a value that does not read
    "no input" closes that slot and no other. *)
Lemma open_slots_close_first (d : list (string * string)) (k v : string) (rest : list string) :
  NoDup (keys d) -> open_slots d = k :: rest -> is_no_input v = false ->
  open_slots (dict_set d k v) = rest.
Proof.
  unfold open_slots, keys. revert rest.
  induction d as [|[k' v'] d IH]; intros rest Hnd Hopen Hv; [discriminate|].
  simpl in *. apply NoDup_cons in Hnd as [Hfresh Hnd].
  destruct (is_no_input v') eqn:Hv'.
  - simpl in Hopen. injection Hopen as -> <-. rewrite String.eqb_refl. simpl. now rewrite Hv.
  - destruct (String.eqb_spec k k') as [->|Hne].
    + exfalso. apply Hfresh. apply (open_slots_keys d k').
      unfold open_slots. rewrite Hopen. left.
    + simpl. rewrite Hv'. now apply IH.
Qed.

(** Setting an open slot to a value that reads "no input" changes no open
    slot. *)
Lemma open_slots_keep (d : list (string * string)) (k v : string) :
  NoDup (keys d) -> k ∈ open_slots d -> is_no_input v = true ->
  open_slots (dict_set d k v) = open_slots d.
Proof.
  unfold open_slots, keys.
  induction d as [|[k' v'] d IH]; intros Hnd Hin Hv; [by apply elem_of_nil in Hin|].
  simpl in *. apply NoDup_cons in Hnd as [Hfresh Hnd].
  destruct (String.eqb_spec k k') as [->|Hne].
  - simpl. rewrite Hv. destruct (is_no_input v') eqn:Hv'; [reflexivity|].
    exfalso. apply Hfresh. now apply (open_slots_keys d k').
  - simpl. destruct (is_no_input v') eqn:Hv'; simpl.
    + f_equal. apply IH; auto. simpl in Hin.
      apply elem_of_cons in Hin as [?|?]; [contradiction | assumption].
    + now apply IH.
Qed.

Lemma fill_inputs_keys (sel : selection) (inputs : list (string * string)) :
  keys (fill_inputs sel inputs) = keys inputs.
Proof.
  unfold fill_inputs. rewrite first_no_input_head.
  destruct (open_slots inputs) as [|k1 rest] eqn:Hopen; [reflexivity|]. simpl.
  destruct (String.eqb k1 ""); [reflexivity|].
  assert (Hk1 : k1 ∈ keys inputs) by (apply open_slots_keys; rewrite Hopen; left).
  pose proof (keys_dict_set_member inputs k1 (date_str sel) Hk1) as Hkeys1.
  rewrite first_no_input_head.
  destruct (open_slots (dict_set inputs k1 (date_str sel))) as [|k2 rest2] eqn:Hopen2;
    [exact Hkeys1|]. simpl.
  destruct (String.eqb k2 ""); [exact Hkeys1|].
  rewrite keys_dict_set_member; [exact Hkeys1|].
  apply open_slots_keys. rewrite Hopen2. left.
Qed.

(** X13. What [_save_current_task] stores for a task with at least two
    open slots (values reading "no input" in any case, under keys that are
    not empty): the date text goes to the first open slot and the upper-case
    status to the second, in the order of the [dict]; no key is added,
    removed or moved and every other value is kept.  Afterwards the open
    slots are the remaining ones, together with the second when the status
    itself reads "no input". *)
Theorem save_task_fills_first_two (sel : selection) (inputs : list (string * string))
    (k1 k2 : string) (rest : list string) :
  NoDup (keys inputs) ->
  open_slots inputs = k1 :: k2 :: rest ->
  k1 <> "" -> k2 <> "" ->
  let filled := fill_inputs sel inputs in
  filled = dict_set (dict_set inputs k1 (date_str sel)) k2 (Py.upper (task_status sel)) /\
  keys filled = keys inputs /\
  dict_get filled k1 = Some (date_str sel) /\
  dict_get filled k2 = Some (Py.upper (task_status sel)) /\
  (forall k, k <> k1 -> k <> k2 -> dict_get filled k = dict_get inputs k) /\
  open_slots filled
  = (if is_no_input (Py.upper (task_status sel)) then k2 :: rest else rest).
Proof.
  intros Hnd Hopen Hk1 Hk2 filled.
  assert (Hopen1 : open_slots (dict_set inputs k1 (date_str sel)) = k2 :: rest)
    by (apply (open_slots_close_first inputs k1); auto using date_str_not_no_input).
  assert (Hin1 : k1 ∈ keys inputs) by (apply open_slots_keys; rewrite Hopen; left).
  assert (Hkeys1 : keys (dict_set inputs k1 (date_str sel)) = keys inputs)
    by now apply keys_dict_set_member.
  assert (Hne : k1 <> k2).
  { intros <-. pose proof (open_slots_NoDup inputs Hnd) as Hd.
    rewrite Hopen in Hd. apply NoDup_cons in Hd as [Hfresh _]. apply Hfresh. left. }
  assert (Heq : filled
    = dict_set (dict_set inputs k1 (date_str sel)) k2 (Py.upper (task_status sel))).
  { unfold filled, fill_inputs. rewrite first_no_input_head, Hopen. simpl.
    destruct (String.eqb_spec k1 ""); [contradiction|].
    rewrite first_no_input_head, Hopen1. simpl.
    destruct (String.eqb_spec k2 ""); [contradiction|]. reflexivity. }
  split; [exact Heq|].
  split; [apply fill_inputs_keys|].
  split; [rewrite Heq, dict_get_set_ne by congruence; apply dict_get_set_eq|].
  split; [rewrite Heq; apply dict_get_set_eq|].
  split.
  { intros k Hn1 Hn2. rewrite Heq, !dict_get_set_ne by congruence. reflexivity. }
  rewrite Heq. destruct (is_no_input (Py.upper (task_status sel))) eqn:Hs.
  - rewrite open_slots_keep; [exact Hopen1 | now rewrite Hkeys1 | | exact Hs].
    rewrite Hopen1. left.
  - apply (open_slots_close_first _ k2); [now rewrite Hkeys1 | exact Hopen1 | exact Hs].
Qed.

Lemma save_task_fills_first_two_witness :
  let inputs := [("B9", "AB 02 JAN 24"); ("C9", "OK"); ("D9", "no input"); ("E9", "No Input");
                 ("F9", "no input")] in
  let filled := fill_inputs sample_selection inputs in
  filled = dict_set (dict_set inputs "D9" (date_str sample_selection)) "E9"
                    (Py.upper (task_status sample_selection)) /\
  keys filled = keys inputs /\
  dict_get filled "D9" = Some (date_str sample_selection) /\
  dict_get filled "E9" = Some (Py.upper (task_status sample_selection)) /\
  (forall k, k <> "D9" -> k <> "E9" -> dict_get filled k = dict_get inputs k) /\
  open_slots filled
  = (if is_no_input (Py.upper (task_status sample_selection)) then ["E9"; "F9"] else ["F9"]).
Proof.
  apply (save_task_fills_first_two sample_selection
           [("B9", "AB 02 JAN 24"); ("C9", "OK"); ("D9", "no input"); ("E9", "No Input");
            ("F9", "no input")] "D9" "E9" ["F9"]);
    [|reflexivity | discriminate | discriminate].
  apply (bool_decide_unpack _). vm_compute. exact I.
Defined.

(** ** Saving the current task touches that task only *)

Lemma py_index_nonneg {A} (l : list A) (i : Z) : 0 <= i -> py_index l i = l !! Z.to_nat i.
Proof. intros Hi. unfold py_index. destruct (Z.leb_spec 0 i); [reflexivity | lia]. Qed.

Lemma get_current_task_at (data : list SheetData) (cur : UI.cursor) :
  _get_current_task data cur
  = if (0 <=? UI.current_sheet cur) && (0 <=? UI.current_category cur)
       && (0 <=? UI.current_task cur)
    then task_at data (Z.to_nat (UI.current_sheet cur)) (Z.to_nat (UI.current_category cur))
                 (Z.to_nat (UI.current_task cur))
    else None.
Proof.
  destruct cur as [cs cc ct]. unfold _get_current_task, _validate_indices, task_at. simpl.
  destruct (Z.leb_spec 0 cs); simpl; [|reflexivity].
  rewrite py_index_nonneg by assumption.
  destruct (Z.ltb_spec cs (Z.of_nat (length data))); simpl.
  2: { rewrite lookup_ge_None_2 by lia. simpl. now destruct (_ && _). }
  destruct (data !! Z.to_nat cs) as [sheet|]; simpl; [|now destruct (_ && _)].
  destruct (Z.leb_spec 0 cc); simpl; [|reflexivity].
  rewrite py_index_nonneg by assumption.
  destruct (Z.ltb_spec cc (Z.of_nat (length (categories sheet)))); simpl.
  2: { rewrite lookup_ge_None_2 by lia. simpl. now destruct (0 <=? ct). }
  destruct (categories sheet !! Z.to_nat cc) as [category|]; simpl; [|now destruct (0 <=? ct)].
  destruct (Z.leb_spec 0 ct); simpl; [|reflexivity].
  rewrite py_index_nonneg by assumption.
  destruct (Z.ltb_spec ct (Z.of_nat (length (tasks category)))); simpl; [reflexivity|].
  now rewrite lookup_ge_None_2 by lia.
Qed.

Lemma map_alter_same {A B} (h : A -> B) (g : A -> A) (i : nat) (l : list A) :
  (forall x, l !! i = Some x -> h (g x) = h x) -> map h (alter g i l) = map h l.
Proof.
  revert i; induction l as [|a l IH]; intros [|i] Hg; simpl; try reflexivity.
  - f_equal. now apply Hg.
  - f_equal. apply IH. intros x Hx. now apply Hg.
Qed.

(** The data with the task at position [i], [j], [k] replaced. *)
Lemma task_at_alter (f : Task -> Task) (data : list SheetData) (i j k i' j' k' : nat) :
  task_at
    (alter (fun sheet =>
              mkSheetData (sheet_name sheet)
                (alter (fun category =>
                          mkCategory (category_name category) (alter f k (tasks category)))
                       j (categories sheet)))
           i data) i' j' k'
  = if decide (i = i' /\ j = j' /\ k = k') then f <$> task_at data i j k
    else task_at data i' j' k'.
Proof.
  unfold task_at.
  destruct (decide (i = i')) as [<-|Hi].
  2: { rewrite list_lookup_alter_ne by exact Hi.
       destruct (decide _) as [[? _]|_]; [contradiction | reflexivity]. }
  rewrite list_lookup_alter_eq. destruct (data !! i) as [sheet|]; simpl.
  2: { now destruct (decide _). }
  destruct (decide (j = j')) as [<-|Hj].
  2: { rewrite list_lookup_alter_ne by exact Hj.
       destruct (decide _) as [(_ & ? & _)|_]; [contradiction | reflexivity]. }
  rewrite list_lookup_alter_eq. destruct (categories sheet !! j) as [category|]; simpl.
  2: { now destruct (decide _). }
  destruct (decide (k = k')) as [<-|Hk].
  - rewrite list_lookup_alter_eq. destruct (decide _) as [_|Hn]; [reflexivity|].
    exfalso. apply Hn. auto.
  - rewrite list_lookup_alter_ne by exact Hk.
    destruct (decide _) as [(_ & _ & ?)|_]; [contradiction | reflexivity].
Qed.

Lemma save_current_task_alter (sel : selection) (data : list SheetData) (cur : UI.cursor) :
  _save_current_task sel data cur = data \/
  (0 <= UI.current_sheet cur /\ 0 <= UI.current_category cur /\ 0 <= UI.current_task cur /\
   _save_current_task sel data cur
   = alter (fun sheet =>
              mkSheetData (sheet_name sheet)
                (alter (fun category =>
                          mkCategory (category_name category)
                            (alter (saved_task sel) (Z.to_nat (UI.current_task cur))
                                   (tasks category)))
                       (Z.to_nat (UI.current_category cur)) (categories sheet)))
           (Z.to_nat (UI.current_sheet cur)) data).
Proof.
  unfold _save_current_task. rewrite get_current_task_at.
  destruct (Z.leb_spec 0 (UI.current_sheet cur)); [|now left].
  destruct (Z.leb_spec 0 (UI.current_category cur)); [|now left].
  destruct (Z.leb_spec 0 (UI.current_task cur)); [|now left].
  simpl. unfold task_at.
  destruct (data !! Z.to_nat (UI.current_sheet cur)) as [sheet|] eqn:Hs; [|now left].
  simpl.
  destruct (categories sheet !! Z.to_nat (UI.current_category cur)) as [category|] eqn:Hc;
    [|now left].
  simpl.
  destruct (tasks category !! Z.to_nat (UI.current_task cur)) as [task|] eqn:Ht; [|now left].
  destruct (is_comment_task task) eqn:Hcomment; [now left|].
  right. repeat (split; [assumption|]).
  (* only the task at the cursor is altered, and it is no comment task *)
  apply list_eq. intros i.
  destruct (decide (i = Z.to_nat (UI.current_sheet cur))) as [->|Hi];
    [|now rewrite !list_lookup_alter_ne by congruence].
  rewrite !list_lookup_alter_eq, Hs. simpl. f_equal. f_equal.
  apply list_eq. intros j.
  destruct (decide (j = Z.to_nat (UI.current_category cur))) as [->|Hj];
    [|now rewrite !list_lookup_alter_ne by congruence].
  rewrite !list_lookup_alter_eq, Hc. simpl. f_equal. f_equal.
  apply list_eq. intros k.
  destruct (decide (k = Z.to_nat (UI.current_task cur))) as [->|Hk];
    [|now rewrite !list_lookup_alter_ne by congruence].
  rewrite !list_lookup_alter_eq, Ht. simpl. unfold saved_task. now rewrite Hcomment.
Qed.

Lemma saved_task_shape (sel : selection) (task : Task) :
  task_shape (saved_task sel task) = task_shape task.
Proof.
  unfold saved_task, task_shape. destruct (is_comment_task task); [reflexivity|].
  simpl. now rewrite fill_inputs_keys.
Qed.

Lemma save_current_task_shape (sel : selection) (data : list SheetData) (cur : UI.cursor) :
  data_shape (_save_current_task sel data cur) = data_shape data.
Proof.
  destruct (save_current_task_alter sel data cur) as [->|(_ & _ & _ & ->)]; [reflexivity|].
  unfold data_shape. apply map_alter_same. intros sheet _.
  unfold sheet_shape. simpl. f_equal.
  apply map_alter_same. intros category _. simpl.
  apply map_alter_same. intros task _. apply saved_task_shape.
Qed.

(** X14. [_save_current_task] changes the task under the cursor and
    nothing else: that task keeps its name, its description and the keys of
    its inputs (a comment task is kept as it is), every task at another
    position is the same as before, and the data keep the shape the
    write-back reads, so that the outcome of a later write-back does not
    depend on which tasks were saved, nor on how often. *)
Theorem save_current_task_frame (sel : selection) (data : list SheetData) (cur : UI.cursor) :
  let data' := _save_current_task sel data cur in
  _get_current_task data' cur = saved_task sel <$> _get_current_task data cur /\
  (forall cur', cur' <> cur -> _get_current_task data' cur' = _get_current_task data cur') /\
  data_shape data' = data_shape data /\
  (forall sel' xlsx_exists stem workbook,
     _save_to_excel sel' data' xlsx_exists stem workbook
     = _save_to_excel sel' data xlsx_exists stem workbook).
Proof.
  intros data'.
  assert (Hcur : _get_current_task data' cur = saved_task sel <$> _get_current_task data cur).
  { unfold data'.
    destruct (save_current_task_alter sel data cur) as [Hsame|(Hs & Hc & Ht & Halter)].
    - rewrite Hsame.
      (* nothing changed: the cursor is off the data or on a comment task *)
      unfold _save_current_task in Hsame.
      destruct (_get_current_task data cur) as [task|] eqn:Hcur; [|reflexivity].
      simpl. unfold saved_task.
      destruct (is_comment_task task) eqn:Hcomment; [reflexivity|].
      f_equal. rewrite get_current_task_at in Hcur.
      destruct (_ && _) in Hcur; [|discriminate].
      apply (f_equal (fun d => task_at d (Z.to_nat (UI.current_sheet cur))
                                 (Z.to_nat (UI.current_category cur))
                                 (Z.to_nat (UI.current_task cur)))) in Hsame.
      rewrite task_at_alter in Hsame.
      destruct (decide _) as [_|Hn]; [|exfalso; apply Hn; auto].
      rewrite Hcur in Hsame. simpl in Hsame. injection Hsame as Hsame.
      rewrite <- Hsame at 1. reflexivity.
    - rewrite Halter, !get_current_task_at, task_at_alter.
      destruct (Z.leb_spec 0 (UI.current_sheet cur)); [|lia].
      destruct (Z.leb_spec 0 (UI.current_category cur)); [|lia].
      destruct (Z.leb_spec 0 (UI.current_task cur)); [|lia]. simpl.
      destruct (decide _) as [_|Hn]; [reflexivity | exfalso; apply Hn; auto]. }
  split; [exact Hcur|].
  split.
  { intros cur' Hne. unfold data'.
    destruct (save_current_task_alter sel data cur) as [->|(Hs & Hc & Ht & ->)];
      [reflexivity|].
    rewrite !get_current_task_at, task_at_alter.
    destruct cur as [cs cc ct], cur' as [cs' cc' ct']. simpl in *.
    destruct (Z.leb_spec 0 cs'), (Z.leb_spec 0 cc'), (Z.leb_spec 0 ct'); simpl;
      try reflexivity.
    destruct (decide _) as [(Ei & Ej & Ek)|_]; [|reflexivity].
    exfalso. apply Hne. f_equal; lia. }
  split; [apply save_current_task_shape|].
  intros sel' xlsx_exists stem workbook.
  apply save_to_excel_shape, save_current_task_shape.
Qed.

(** ** The loop of the Next button *)

Lemma cursor_ltb_lt (p q : UI.cursor) :
  cursor_ltb p q = true <->
  UI.current_sheet p < UI.current_sheet q \/
  (UI.current_sheet p = UI.current_sheet q /\
   (UI.current_category p < UI.current_category q \/
    (UI.current_category p = UI.current_category q /\
     UI.current_task p < UI.current_task q))).
Proof.
  unfold cursor_ltb.
  rewrite !orb_true_iff, !andb_true_iff, !orb_true_iff, !andb_true_iff,
    !Z.ltb_lt, !Z.eqb_eq. reflexivity.
Qed.

Lemma cursor_eq (p q : UI.cursor) :
  UI.current_sheet p = UI.current_sheet q ->
  UI.current_category p = UI.current_category q ->
  UI.current_task p = UI.current_task q -> p = q.
Proof. destruct p, q. simpl. now intros -> -> ->. Qed.

Lemma get_current_task_Some (data : list SheetData) (cur : UI.cursor) (task : Task) :
  _get_current_task data cur = Some task <->
  0 <= UI.current_sheet cur /\ 0 <= UI.current_category cur /\ 0 <= UI.current_task cur /\
  exists sheet category,
    data !! Z.to_nat (UI.current_sheet cur) = Some sheet /\
    categories sheet !! Z.to_nat (UI.current_category cur) = Some category /\
    tasks category !! Z.to_nat (UI.current_task cur) = Some task.
Proof.
  rewrite get_current_task_at. unfold task_at.
  destruct (Z.leb_spec 0 (UI.current_sheet cur)); simpl; [|split; [discriminate | lia]].
  destruct (Z.leb_spec 0 (UI.current_category cur)); simpl; [|split; [discriminate | lia]].
  destruct (Z.leb_spec 0 (UI.current_task cur)); simpl; [|split; [discriminate | lia]].
  split.
  - intros Hget. repeat (split; [assumption|]).
    destruct (data !! Z.to_nat (UI.current_sheet cur)) as [sheet|]; [|discriminate].
    simpl in Hget.
    destruct (categories sheet !! Z.to_nat (UI.current_category cur)) as [category|] eqn:Hc;
      [|discriminate].
    simpl in Hget. exists sheet, category. auto.
  - intros (_ & _ & _ & sheet & category & -> & Hc & Ht). simpl. rewrite Hc. exact Ht.
Qed.

Lemma advance_None (data : list SheetData) (cur : UI.cursor) :
  0 <= UI.current_sheet cur -> 0 <= UI.current_category cur ->
  advance data cur = None ->
  data !! Z.to_nat (UI.current_sheet cur) = None \/
  exists sheet, data !! Z.to_nat (UI.current_sheet cur) = Some sheet /\
                categories sheet !! Z.to_nat (UI.current_category cur) = None.
Proof.
  intros Hs Hc. unfold advance. rewrite py_index_nonneg by assumption.
  destruct (data !! Z.to_nat (UI.current_sheet cur)) as [sheet|] eqn:Hsheet; [|now left].
  cbn [mbind option_bind]. rewrite py_index_nonneg by assumption.
  destruct (categories sheet !! Z.to_nat (UI.current_category cur)) as [category|] eqn:Hcat;
    [|right; eauto].
  cbn [mbind option_bind]. repeat (destruct (_ <? _)); discriminate.
Qed.

(** One step of the cursor: it moves forward, past no task. *)
Lemma advance_spec (data : list SheetData) (cur : UI.cursor) :
  0 <= UI.current_sheet cur -> 0 <= UI.current_category cur ->
  match advance data cur with
  | None =>
      data !! Z.to_nat (UI.current_sheet cur) = None \/
      exists sheet, data !! Z.to_nat (UI.current_sheet cur) = Some sheet /\
                    categories sheet !! Z.to_nat (UI.current_category cur) = None
  | Some (Some cur') =>
      cursor_ltb cur cur' = true /\
      0 <= UI.current_sheet cur' /\ 0 <= UI.current_category cur' /\
      (forall q, cursor_ltb cur q = true -> cursor_ltb q cur' = true ->
                 _get_current_task data q = None) /\
      (advance data cur' = None ->
       UI.current_category cur' = 0 /\ UI.current_task cur' = 0 /\
       exists sheet', data !! Z.to_nat (UI.current_sheet cur') = Some sheet' /\
                      categories sheet' = [])
  | Some None =>
      forall q, cursor_ltb cur q = true -> _get_current_task data q = None
  end.
Proof.
  intros Hs Hc. unfold advance. rewrite py_index_nonneg by assumption.
  destruct (data !! Z.to_nat (UI.current_sheet cur)) as [sheet|] eqn:Hsheet; [|now left].
  cbn [mbind option_bind]. rewrite py_index_nonneg by assumption.
  destruct (categories sheet !! Z.to_nat (UI.current_category cur)) as [category|] eqn:Hcat;
    [|right; eauto].
  cbn [mbind option_bind].
  pose proof (lookup_lt_Some _ _ _ Hsheet) as Hlen_s.
  pose proof (lookup_lt_Some _ _ _ Hcat) as Hlen_c.
  assert (Hnone : forall q,
    (forall sheet' category' task,
       data !! Z.to_nat (UI.current_sheet q) = Some sheet' ->
       categories sheet' !! Z.to_nat (UI.current_category q) = Some category' ->
       tasks category' !! Z.to_nat (UI.current_task q) = Some task ->
       0 <= UI.current_sheet q -> 0 <= UI.current_category q -> 0 <= UI.current_task q ->
       False) ->
    _get_current_task data q = None).
  { intros q Hq. destruct (_get_current_task data q) as [task|] eqn:Hget; [|reflexivity].
    apply get_current_task_Some in Hget as (? & ? & ? & sheet' & category' & ? & ? & ?).
    exfalso. eauto. }
  destruct (Z.ltb_spec (UI.current_task cur) (Z.of_nat (length (tasks category)) - 1)) as [Ht1|Ht1].
  { split; [apply cursor_ltb_lt; simpl; lia|]. split; [assumption|]. split; [assumption|].
    split; [intros q Ha%cursor_ltb_lt Hb%cursor_ltb_lt; simpl in *; lia|].
    intros Hadv. exfalso.
    apply advance_None in Hadv as [Hn|(sheet' & Hs' & Hn)]; simpl in *; try assumption;
      congruence. }
  destruct (Z.ltb_spec (UI.current_category cur) (Z.of_nat (length (categories sheet)) - 1)) as [Hc1|Hc1].
  { split; [apply cursor_ltb_lt; simpl; lia|]. split; [assumption|]. split; [simpl; lia|].
    split.
    - intros q Ha%cursor_ltb_lt Hb%cursor_ltb_lt. simpl in *.
      apply Hnone. intros sheet' category' task Hs' Hc' Ht' ? ? ?.
      assert (UI.current_sheet q = UI.current_sheet cur) as Eq by lia.
      rewrite Eq, Hsheet in Hs'. injection Hs' as <-.
      assert (UI.current_category q = UI.current_category cur) as Eq' by lia.
      rewrite Eq', Hcat in Hc'. injection Hc' as <-.
      apply lookup_lt_Some in Ht'. lia.
    - intros Hadv. exfalso.
      apply advance_None in Hadv as [Hn|(sheet' & Hs' & Hn)]; simpl in *; try lia;
        [congruence|].
      rewrite Hsheet in Hs'. injection Hs' as <-.
      apply lookup_ge_None in Hn. lia. }
  assert (Hrest : forall q sheet' category' task,
    UI.current_sheet q = UI.current_sheet cur ->
    cursor_ltb cur q = true ->
    data !! Z.to_nat (UI.current_sheet q) = Some sheet' ->
    categories sheet' !! Z.to_nat (UI.current_category q) = Some category' ->
    tasks category' !! Z.to_nat (UI.current_task q) = Some task ->
    0 <= UI.current_category q -> 0 <= UI.current_task q -> False).
  { intros q sheet' category' task Eq Ha%cursor_ltb_lt Hs' Hc' Ht' ? ?.
    rewrite Eq, Hsheet in Hs'. injection Hs' as <-.
    pose proof (lookup_lt_Some _ _ _ Hc') as Hlen_c'.
    assert (UI.current_category q = UI.current_category cur) as Eq' by lia.
    rewrite Eq', Hcat in Hc'. injection Hc' as <-.
    apply lookup_lt_Some in Ht'. lia. }
  destruct (Z.ltb_spec (UI.current_sheet cur) (Z.of_nat (length data) - 1)) as [Hs1|Hs1].
  { split; [apply cursor_ltb_lt; simpl; lia|]. split; [simpl; lia|]. split; [simpl; lia|].
    split.
    - intros q Ha0 Hb%cursor_ltb_lt. simpl in *.
      apply Hnone. intros sheet' category' task Hs' Hc' Ht' ? ? ?.
      pose proof Ha0 as Ha. apply cursor_ltb_lt in Ha.
      assert (UI.current_sheet q = UI.current_sheet cur) as Eq by lia.
      eapply Hrest; eauto.
    - intros Hadv. split; [reflexivity|]. split; [reflexivity|].
      apply advance_None in Hadv as [Hn|(sheet' & Hs' & Hn)]; simpl in *; try lia.
      + apply lookup_ge_None in Hn. lia.
      + exists sheet'. split; [exact Hs'|].
        destruct (categories sheet'); [reflexivity | discriminate]. }
  intros q Ha0. apply Hnone. intros sheet' category' task Hs' Hc' Ht' ? ? ?.
  pose proof Ha0 as Ha. apply cursor_ltb_lt in Ha.
  pose proof (lookup_lt_Some _ _ _ Hs') as Hlen_s'.
  assert (UI.current_sheet q = UI.current_sheet cur) as Eq by lia.
  eapply Hrest; eauto.
Qed.

Lemma cursor_ltb_trans (p q r : UI.cursor) :
  cursor_ltb p q = true -> cursor_ltb q r = true -> cursor_ltb p r = true.
Proof. rewrite !cursor_ltb_lt. lia. Qed.

Lemma cursor_trichotomy (p q : UI.cursor) :
  cursor_ltb p q = true \/ p = q \/ cursor_ltb q p = true.
Proof.
  destruct (Z.lt_trichotomy (UI.current_sheet p) (UI.current_sheet q)) as [?|[Es|?]];
    [left; apply cursor_ltb_lt; lia | | right; right; apply cursor_ltb_lt; lia].
  destruct (Z.lt_trichotomy (UI.current_category p) (UI.current_category q)) as [?|[Ec|?]];
    [left; apply cursor_ltb_lt; lia | | right; right; apply cursor_ltb_lt; lia].
  destruct (Z.lt_trichotomy (UI.current_task p) (UI.current_task q)) as [?|[Et|?]];
    [left; apply cursor_ltb_lt; lia | | right; right; apply cursor_ltb_lt; lia].
  right. left. now apply cursor_eq.
Qed.

Lemma next_loop_mono (data : list SheetData) (fuel fuel' : nat) (cur : UI.cursor)
    (r : nav_result) :
  next_loop fuel data cur = Some r -> (fuel <= fuel')%nat ->
  next_loop fuel' data cur = Some r.
Proof.
  revert fuel' cur; induction fuel as [|fuel IH]; intros fuel' cur; [discriminate|].
  intros Hrun Hle. destruct fuel' as [|fuel']; [lia|].
  simpl in *. destruct (advance data cur) as [[cur'|]|]; try exact Hrun.
  destruct (_get_current_task data cur') as [task|].
  - destruct (negb (is_comment_task task)); [exact Hrun | apply IH; [exact Hrun | lia]].
  - apply IH; [exact Hrun | lia].
Qed.

Lemma categories_bound (data : list SheetData) (i : nat) (sheet : SheetData) :
  data !! i = Some sheet ->
  (length (categories sheet)
   <= max_list (map (fun sheet => length (categories sheet)) data))%nat.
Proof.
  intros Hi. apply max_list_elem_of_le.
  apply list_elem_of_fmap. exists sheet. split; [reflexivity|].
  eapply list_elem_of_lookup_2; eauto.
Qed.

Lemma tasks_bound (data : list SheetData) (i j : nat) (sheet : SheetData)
    (category : Category) :
  data !! i = Some sheet -> categories sheet !! j = Some category ->
  (length (tasks category)
   <= max_list (map (fun category => length (tasks category))
                    (flat_map categories data)))%nat.
Proof.
  intros Hi Hj. apply max_list_elem_of_le.
  apply list_elem_of_fmap. exists category. split; [reflexivity|].
  apply elem_of_flat_map. exists sheet.
  split; eapply list_elem_of_lookup_2; eauto.
Qed.

(** Each round of the loop uses up one of the rounds left. *)
Lemma advance_rounds_left (data : list SheetData) (cur cur' : UI.cursor) :
  0 <= UI.current_sheet cur -> 0 <= UI.current_category cur ->
  advance data cur = Some (Some cur') ->
  0 <= rounds_left data cur' < rounds_left data cur.
Proof.
  intros Hs Hc. unfold advance. rewrite py_index_nonneg by assumption.
  destruct (data !! Z.to_nat (UI.current_sheet cur)) as [sheet|] eqn:Hsheet; [|discriminate].
  cbn [mbind option_bind]. rewrite py_index_nonneg by assumption.
  destruct (categories sheet !! Z.to_nat (UI.current_category cur)) as [category|] eqn:Hcat;
    [|discriminate].
  cbn [mbind option_bind].
  pose proof (lookup_lt_Some _ _ _ Hsheet) as Hlen_s.
  pose proof (lookup_lt_Some _ _ _ Hcat) as Hlen_c.
  pose proof (categories_bound _ _ _ Hsheet) as HC.
  pose proof (tasks_bound _ _ _ _ _ Hsheet Hcat) as HM.
  unfold rounds_left.
  set (C := Z.of_nat (max_list (map (fun sheet => length (categories sheet)) data))) in *.
  set (M := Z.of_nat (max_list (map (fun category => length (tasks category))
                                    (flat_map categories data)))) in *.
  assert (0 <= C) by (unfold C; lia). assert (0 <= M) by (unfold M; lia).
  assert (Z.of_nat (length (categories sheet)) <= C) by (unfold C; lia).
  assert (Z.of_nat (length (tasks category)) <= M) by (unfold M; lia).
  set (L := Z.of_nat (length data)) in *.
  assert (UI.current_sheet cur < L) by (unfold L; lia).
  assert (UI.current_category cur < Z.of_nat (length (categories sheet))) by lia.
  destruct (Z.ltb_spec (UI.current_task cur) (Z.of_nat (length (tasks category)) - 1));
    [intros [= <-]; simpl; nia|].
  destruct (Z.ltb_spec (UI.current_category cur) (Z.of_nat (length (categories sheet)) - 1));
    [intros [= <-]; simpl; nia|].
  destruct (Z.ltb_spec (UI.current_sheet cur) (L - 1)); [|discriminate].
  intros [= <-]. simpl. nia.
Qed.

Lemma next_loop_terminates (data : list SheetData) (cur : UI.cursor) :
  0 <= UI.current_sheet cur -> 0 <= UI.current_category cur ->
  exists fuel r, next_loop fuel data cur = Some r.
Proof.
  remember (Z.to_nat (rounds_left data cur)) as n eqn:Hn.
  assert (Hle : rounds_left data cur <= Z.of_nat n) by lia. clear Hn.
  revert cur Hle; induction n as [|n IH]; intros cur Hle Hs Hc.
  - exists 1%nat. simpl.
    destruct (advance data cur) as [[cur'|]|] eqn:Hadv; [|eauto|eauto].
    pose proof (advance_rounds_left _ _ _ Hs Hc Hadv). lia.
  - destruct (advance data cur) as [[cur'|]|] eqn:Hadv.
    + pose proof (advance_rounds_left _ _ _ Hs Hc Hadv) as Hdec.
      pose proof (advance_spec data cur Hs Hc) as Hspec. rewrite Hadv in Hspec.
      destruct Hspec as (_ & Hs' & Hc' & _).
      destruct (IH cur') as (fuel & r & Hrun); [lia | assumption | assumption|].
      destruct (_get_current_task data cur') as [task|] eqn:Hget.
      * destruct (is_comment_task task) eqn:Hcomment.
        -- exists (S fuel), r. simpl. now rewrite Hadv, Hget, Hcomment.
        -- exists 1%nat, (Shown cur'). simpl. now rewrite Hadv, Hget, Hcomment.
      * exists (S fuel), r. simpl. now rewrite Hadv, Hget.
    + exists 1%nat, (Completed cur). simpl. now rewrite Hadv.
    + exists 1%nat, (NavError cur). simpl. now rewrite Hadv.
Qed.

Lemma next_loop_spec (data : list SheetData) (fuel : nat) (cur : UI.cursor)
    (r : nav_result) :
  0 <= UI.current_sheet cur -> 0 <= UI.current_category cur ->
  next_loop fuel data cur = Some r ->
  match r with
  | Shown cur' =>
      cursor_ltb cur cur' = true /\
      (exists task, _get_current_task data cur' = Some task /\
                    is_comment_task task = false) /\
      only_comments_between data cur cur'
  | Completed cur' =>
      (cur' = cur \/ cursor_ltb cur cur' = true) /\
      only_comments_after data cur
  | NavError cur' =>
      only_comments_between data cur cur' /\
      _get_current_task data cur' = None /\
      ((cur' = cur /\
        (data !! Z.to_nat (UI.current_sheet cur) = None \/
         exists sheet, data !! Z.to_nat (UI.current_sheet cur) = Some sheet /\
                       categories sheet !! Z.to_nat (UI.current_category cur) = None)) \/
       (cursor_ltb cur cur' = true /\
        UI.current_category cur' = 0 /\ UI.current_task cur' = 0 /\
        exists sheet', data !! Z.to_nat (UI.current_sheet cur') = Some sheet' /\
                       categories sheet' = []))
  end.
Proof.
  revert cur; induction fuel as [|fuel IH]; intros cur Hs Hc; [discriminate|].
  cbn [next_loop]. pose proof (advance_spec data cur Hs Hc) as Hspec.
  destruct (advance data cur) as [[cur'|]|] eqn:Hadv.
  - destruct Hspec as (Hlt & Hs' & Hc' & Hbetween & Hnone).
    assert (Hrec : next_loop fuel data cur' = Some r ->
                   (forall task, _get_current_task data cur' = Some task ->
                                 is_comment_task task = true) ->
                   match r with
                   | Shown cur'' =>
                       cursor_ltb cur cur'' = true /\
                       (exists task, _get_current_task data cur'' = Some task /\
                                     is_comment_task task = false) /\
                       only_comments_between data cur cur''
                   | Completed cur'' =>
                       (cur'' = cur \/ cursor_ltb cur cur'' = true) /\
                       only_comments_after data cur
                   | NavError cur'' =>
                       only_comments_between data cur cur'' /\
                       _get_current_task data cur'' = None /\
                       ((cur'' = cur /\
                         (data !! Z.to_nat (UI.current_sheet cur) = None \/
                          exists sheet, data !! Z.to_nat (UI.current_sheet cur) = Some sheet /\
                                        categories sheet !! Z.to_nat (UI.current_category cur)
                                        = None)) \/
                        (cursor_ltb cur cur'' = true /\
                         UI.current_category cur'' = 0 /\ UI.current_task cur'' = 0 /\
                         exists sheet', data !! Z.to_nat (UI.current_sheet cur'') = Some sheet' /\
                                        categories sheet' = []))
                   end).
    { intros Hrun Hhere. specialize (IH cur' Hs' Hc' Hrun).
      assert (Hpast : forall q task, cursor_ltb cur q = true ->
                (cursor_ltb q cur' = true \/ q = cur') ->
                _get_current_task data q = Some task -> is_comment_task task = true).
      { intros q task Hq [Hq'| ->] Hget; [|now apply Hhere].
        rewrite (Hbetween q Hq Hq') in Hget. discriminate. }
      destruct r as [cur''|cur''|cur''].
      - destruct IH as (Hlt' & Htask & Hbetween').
        split; [eapply cursor_ltb_trans; eauto|]. split; [exact Htask|].
        intros q task Hq Hq'' Hget.
        destruct (cursor_trichotomy q cur') as [Hq'|[->|Hq']]; eauto.
      - destruct IH as (Hrel & Hafter).
        split.
        { right. destruct Hrel as [->|Hrel]; [exact Hlt | eapply cursor_ltb_trans; eauto]. }
        intros q task Hq Hget.
        destruct (cursor_trichotomy q cur') as [Hq'|[->|Hq']]; eauto.
      - destruct IH as (Hbetween' & Hget'' & Hwhere).
        split.
        { intros q task Hq Hq'' Hget.
          destruct (cursor_trichotomy q cur') as [Hq'|[->|Hq']]; eauto. }
        split; [exact Hget''|]. right.
        destruct Hwhere as [[-> Hoff]|(Hlt' & Hrest)].
        + split; [exact Hlt|]. apply Hnone.
          unfold advance. rewrite py_index_nonneg by assumption.
          destruct Hoff as [->|(sheet & -> & Hoff)]; [reflexivity|].
          cbn [mbind option_bind]. rewrite py_index_nonneg by assumption.
          now rewrite Hoff.
        + split; [eapply cursor_ltb_trans; eauto | exact Hrest]. }
    destruct (_get_current_task data cur') as [task|] eqn:Hget.
    + destruct (is_comment_task task) eqn:Hcomment; cbn [negb].
      * intros Hrun. apply Hrec; [exact Hrun|]. intros task' [= <-]. exact Hcomment.
      * intros [= <-]. split; [exact Hlt|]. split; [eauto|].
        intros q task' Hq Hq' Hget'. rewrite (Hbetween q Hq Hq') in Hget'. discriminate.
    + intros Hrun. apply Hrec; [exact Hrun|]. intros task' Hn. discriminate.
  - intros [= <-]. split; [now left|].
    intros q task Hq Hget. rewrite (Hspec q Hq) in Hget. discriminate.
  - intros [= <-]. split.
    { intros q task Hq Hq'. exfalso. apply cursor_ltb_lt in Hq, Hq'. lia. }
    split; [|left; split; [reflexivity | exact Hspec]].
    destruct (_get_current_task data cur) as [task|] eqn:Hget; [|reflexivity].
    apply get_current_task_Some in Hget as (_ & _ & _ & sheet & category & H1 & H2 & _).
    destruct Hspec as [Hn|(sheet' & H1' & Hn)]; congruence.
Qed.

(** X15. The loop of the Next button, started at a cursor that is not
    negative in sheet and category, comes to an end, with one and the same
    result for every sufficient number of rounds.  When it stops to show a
    task, that task lies ahead of the cursor, is no comment task, and every
    task passed on the way is a comment task: no task is skipped.  When it
    completes the checklist, every task ahead of the cursor is a comment
    task.  When it raises, it does so at the first place of a sheet without
    categories (or at a start that is itself off the data), again having
    passed comment tasks only. *)
Theorem next_loop_finds_next_task (data : list SheetData) (cur : UI.cursor) :
  0 <= UI.current_sheet cur -> 0 <= UI.current_category cur ->
  exists fuel0 r,
    (forall fuel, (fuel0 <= fuel)%nat -> next_loop fuel data cur = Some r) /\
    match r with
    | Shown cur' =>
        cursor_ltb cur cur' = true /\
        (exists task, _get_current_task data cur' = Some task /\
                      is_comment_task task = false) /\
        only_comments_between data cur cur'
    | Completed cur' =>
        (cur' = cur \/ cursor_ltb cur cur' = true) /\
        only_comments_after data cur
    | NavError cur' =>
        only_comments_between data cur cur' /\
        _get_current_task data cur' = None /\
        ((cur' = cur /\
          (data !! Z.to_nat (UI.current_sheet cur) = None \/
           exists sheet, data !! Z.to_nat (UI.current_sheet cur) = Some sheet /\
                         categories sheet !! Z.to_nat (UI.current_category cur) = None)) \/
         (cursor_ltb cur cur' = true /\
          UI.current_category cur' = 0 /\ UI.current_task cur' = 0 /\
          exists sheet', data !! Z.to_nat (UI.current_sheet cur') = Some sheet' /\
                         categories sheet' = []))
    end.
Proof.
  intros Hs Hc. destruct (next_loop_terminates data cur Hs Hc) as (fuel0 & r & Hrun).
  exists fuel0, r. split.
  - intros fuel Hle. eapply next_loop_mono; eauto.
  - exact (next_loop_spec data fuel0 cur r Hs Hc Hrun).
Qed.

Lemma next_loop_finds_next_task_witness :
  let data := [mkSheetData "Sheet 1"
                 [mkCategory "Fire Safety" [sample_task; sample_comments];
                  mkCategory "Exits" [];
                  mkCategory "Alarms" [single_slot_task]]] in
  let cur := UI.mkCursor 0 0 0 in
  exists fuel0 r,
    (forall fuel, (fuel0 <= fuel)%nat -> next_loop fuel data cur = Some r) /\
    match r with
    | Shown cur' =>
        cursor_ltb cur cur' = true /\
        (exists task, _get_current_task data cur' = Some task /\
                      is_comment_task task = false) /\
        only_comments_between data cur cur'
    | Completed cur' =>
        (cur' = cur \/ cursor_ltb cur cur' = true) /\
        only_comments_after data cur
    | NavError cur' =>
        only_comments_between data cur cur' /\
        _get_current_task data cur' = None /\
        ((cur' = cur /\
          (data !! Z.to_nat (UI.current_sheet cur) = None \/
           exists sheet, data !! Z.to_nat (UI.current_sheet cur) = Some sheet /\
                         categories sheet !! Z.to_nat (UI.current_category cur) = None)) \/
         (cursor_ltb cur cur' = true /\
          UI.current_category cur' = 0 /\ UI.current_task cur' = 0 /\
          exists sheet', data !! Z.to_nat (UI.current_sheet cur') = Some sheet' /\
                         categories sheet' = []))
    end.
Proof.
  apply (next_loop_finds_next_task
           [mkSheetData "Sheet 1"
              [mkCategory "Fire Safety" [sample_task; sample_comments];
               mkCategory "Exits" [];
               mkCategory "Alarms" [single_slot_task]]]
           (UI.mkCursor 0 0 0)); simpl; lia.
Defined.

(** ** The Next button *)

Lemma saved_task_name (sel : selection) (task : Task) :
  task_name (saved_task sel task) = task_name task.
Proof. unfold saved_task. now destruct (is_comment_task task). Qed.

Lemma saved_task_comment (sel : selection) (task : Task) :
  is_comment_task (saved_task sel task) = is_comment_task task.
Proof. unfold is_comment_task. now rewrite saved_task_name. Qed.

(** Saving the current task changes no name, at any cursor. *)
Lemma get_current_task_saved (sel : selection) (data : list SheetData) (cur q : UI.cursor) :
  exists f : Task -> Task,
    (forall task, is_comment_task (f task) = is_comment_task task) /\
    _get_current_task (_save_current_task sel data cur) q = f <$> _get_current_task data q.
Proof.
  destruct (save_current_task_alter sel data cur) as [->|(Hs & Hc & Ht & ->)].
  { exists id. split; [reflexivity|]. now destruct (_get_current_task data q). }
  rewrite !get_current_task_at, task_at_alter.
  destruct ((0 <=? UI.current_sheet q) && (0 <=? UI.current_category q)
            && (0 <=? UI.current_task q)) eqn:Hq.
  2: { exists id. split; reflexivity. }
  destruct (decide _) as [(Ei & Ej & Ek)|_].
  - exists (saved_task sel). split; [apply saved_task_comment|]. now rewrite Ei, Ej, Ek.
  - exists id. split; [reflexivity|]. now destruct (task_at data _ _ _).
Qed.

Lemma get_current_task_saved_Some (sel : selection) (data : list SheetData)
    (cur q : UI.cursor) (task' : Task) :
  _get_current_task (_save_current_task sel data cur) q = Some task' ->
  exists task, _get_current_task data q = Some task /\
               is_comment_task task' = is_comment_task task.
Proof.
  destruct (get_current_task_saved sel data cur q) as (f & Hf & ->).
  destruct (_get_current_task data q) as [task|]; [|discriminate].
  intros [= <-]. eauto.
Qed.

Lemma get_current_task_saved_None (sel : selection) (data : list SheetData)
    (cur q : UI.cursor) :
  _get_current_task (_save_current_task sel data cur) q = None ->
  _get_current_task data q = None.
Proof.
  destruct (get_current_task_saved sel data cur q) as (f & Hf & ->).
  now destruct (_get_current_task data q).
Qed.

Lemma only_comments_between_saved (sel : selection) (data : list SheetData)
    (cur p q : UI.cursor) :
  only_comments_between (_save_current_task sel data cur) p q ->
  only_comments_between data p q.
Proof.
  intros H r task Hp Hq Hget.
  destruct (get_current_task_saved sel data cur r) as (f & Hf & Hr).
  rewrite Hget in Hr. rewrite <- (Hf task). eapply H; eauto.
Qed.

Lemma only_comments_after_saved (sel : selection) (data : list SheetData)
    (cur p : UI.cursor) :
  only_comments_after (_save_current_task sel data cur) p ->
  only_comments_after data p.
Proof.
  intros H r task Hp Hget.
  destruct (get_current_task_saved sel data cur r) as (f & Hf & Hr).
  rewrite Hget in Hr. rewrite <- (Hf task). eapply H; eauto.
Qed.

(** Whether a sheet or category exists under a cursor depends on the
    shape of the data only. *)
Lemma shape_lookup_sheet (data data' : list SheetData) (i : nat) (sheet' : SheetData) :
  data_shape data' = data_shape data -> data' !! i = Some sheet' ->
  exists sheet, data !! i = Some sheet /\ sheet_shape sheet' = sheet_shape sheet.
Proof.
  intros Hshape Hi.
  assert (H : data_shape data' !! i = Some (sheet_shape sheet'))
    by (unfold data_shape; now rewrite list_lookup_fmap, Hi).
  rewrite Hshape in H. unfold data_shape in H. rewrite list_lookup_fmap in H.
  destruct (data !! i) as [sheet|]; [|discriminate].
  cbn [fmap option_fmap option_map] in H. exists sheet. split; [reflexivity | congruence].
Qed.

Lemma shape_no_categories (sheet sheet' : SheetData) :
  sheet_shape sheet' = sheet_shape sheet -> categories sheet' = [] -> categories sheet = [].
Proof.
  unfold sheet_shape. intros [= _ H] Hnil. rewrite Hnil in H.
  destruct (categories sheet); [reflexivity | discriminate].
Qed.

Lemma is_last_task_cases (data : list SheetData) (cur : UI.cursor) :
  match _is_last_task data cur with
  | None => data = [] \/ exists sheet, last data = Some sheet /\ categories sheet = []
  | Some b =>
      exists sheet category,
        last data = Some sheet /\ last (categories sheet) = Some category /\
        b = (UI.current_sheet cur =? Z.of_nat (length data) - 1) &&
            (UI.current_category cur =? Z.of_nat (length (categories sheet)) - 1) &&
            (UI.current_task cur =? Z.of_nat (length (tasks category)) - 1)
  end.
Proof.
  assert (Hlast : forall A (l : list A),
            py_index l (Z.of_nat (length l) - 1) = last l).
  { intros A l. unfold py_index. rewrite last_lookup.
    destruct l as [|a l]; [reflexivity|].
    destruct (Z.leb_spec 0 (Z.of_nat (length (a :: l)) - 1)); [|simpl in *; lia].
    f_equal. simpl. lia. }
  unfold _is_last_task. rewrite Hlast.
  destruct (last data) as [sheet|] eqn:Hsheet.
  2: { left. destruct data as [|a l]; [reflexivity|].
       rewrite last_lookup in Hsheet. apply lookup_ge_None in Hsheet. simpl in Hsheet. lia. }
  cbn [mbind option_bind]. rewrite Hlast.
  destruct (last (categories sheet)) as [category|] eqn:Hcat.
  2: { right. exists sheet. split; [reflexivity|].
       destruct (categories sheet) as [|a l]; [reflexivity|].
       rewrite last_lookup in Hcat. apply lookup_ge_None in Hcat. simpl in Hcat. lia. }
  cbn [mbind option_bind]. exists sheet, category. auto.
Qed.

(** X16. The whole Next button, from a cursor that is not negative in
    sheet and category: it comes to an end, the data it leaves are the data
    it found or those with the current task saved, and
    - when it shows a task, that is the first task ahead of the cursor that
      is no comment task;
    - when it completes the checklist, every task ahead of the cursor is a
      comment task;
    - when an [IndexError] ends it, the cursor was on no task or some
      sheet of the data has no category.
    Whenever the last sheet of the data has no category it ends in that
    error, from every cursor. *)
Theorem next_task_spec (sel : selection) (data : list SheetData) (cur : UI.cursor) :
  0 <= UI.current_sheet cur -> 0 <= UI.current_category cur ->
  exists fuel0 data' r,
    (forall fuel, (fuel0 <= fuel)%nat -> _next_task fuel sel data cur = Some (data', r)) /\
    (data' = data \/ data' = _save_current_task sel data cur) /\
    match r with
    | Shown cur' =>
        cursor_ltb cur cur' = true /\
        (exists task, _get_current_task data cur' = Some task /\
                      is_comment_task task = false) /\
        only_comments_between data cur cur'
    | Completed cur' => only_comments_after data cur
    | NavError cur' =>
        _get_current_task data cur = None \/
        exists sheet, sheet ∈ data /\ categories sheet = []
    end /\
    (forall sheet, last data = Some sheet -> categories sheet = [] -> r = NavError cur).
Proof.
  intros Hs Hc. unfold _next_task.
  pose proof (is_last_task_cases data cur) as Hlast.
  destruct (_is_last_task data cur) as [[|]|].
  - (* on the last task *)
    destruct Hlast as (sheet & category & Hsheet & Hcat & Hb).
    exists 0%nat, data, (Completed cur). split; [reflexivity|]. split; [now left|].
    split.
    + symmetry in Hb. apply andb_true_iff in Hb as [Hb Et%Z.eqb_eq].
      apply andb_true_iff in Hb as [Es%Z.eqb_eq Ec%Z.eqb_eq].
      pose proof (advance_spec data cur Hs Hc) as Hspec.
      assert (Hadv : advance data cur = Some None).
      { unfold advance. rewrite py_index_nonneg by assumption.
        rewrite last_lookup in Hsheet.
        replace (Z.to_nat (UI.current_sheet cur)) with (Nat.pred (length data)) by lia.
        rewrite Hsheet. cbn [mbind option_bind]. rewrite py_index_nonneg by assumption.
        rewrite last_lookup in Hcat.
        replace (Z.to_nat (UI.current_category cur))
          with (Nat.pred (length (categories sheet))) by lia.
        rewrite Hcat. cbn [mbind option_bind].
        destruct (Z.ltb_spec (UI.current_task cur) (Z.of_nat (length (tasks category)) - 1));
          [lia|].
        destruct (Z.ltb_spec (UI.current_category cur)
                    (Z.of_nat (length (categories sheet)) - 1)); [lia|].
        destruct (Z.ltb_spec (UI.current_sheet cur) (Z.of_nat (length data) - 1)); [lia|].
        reflexivity. }
      rewrite Hadv in Hspec. intros q task Hq Hget. rewrite (Hspec q Hq) in Hget. discriminate.
    + intros sheet' Hsheet' Hnil. rewrite Hsheet in Hsheet'. injection Hsheet' as <-.
      rewrite Hnil in Hcat. discriminate.
  - (* not on the last task: the current task is saved and the loop runs *)
    destruct Hlast as (sheet & category & Hsheet & Hcat & _).
    set (data' := _save_current_task sel data cur).
    destruct (next_loop_terminates data' cur Hs Hc) as (fuel0 & r & Hrun).
    pose proof (next_loop_spec data' fuel0 cur r Hs Hc Hrun) as Hspec.
    exists fuel0, data', r. split.
    { intros fuel Hle. now rewrite (next_loop_mono data' fuel0 fuel cur r Hrun Hle). }
    split; [now right|]. split.
    + destruct r as [cur'|cur'|cur'].
      * destruct Hspec as (Hlt & (task' & Hget' & Hcomment) & Hbetween).
        split; [exact Hlt|]. split.
        -- destruct (get_current_task_saved_Some sel data cur cur' task' Hget')
             as (task & Hget & Heq).
           exists task. split; [exact Hget | congruence].
        -- now apply (only_comments_between_saved sel data cur).
      * destruct Hspec as (_ & Hafter). now apply (only_comments_after_saved sel data cur).
      * destruct Hspec as (_ & Hget' & [[-> _]|(_ & _ & _ & sheet' & Hsheet' & Hnil)]).
        -- left. now apply (get_current_task_saved_None sel data cur).
        -- right.
           destruct (shape_lookup_sheet data data' _ sheet'
                       (save_current_task_shape sel data cur) Hsheet')
             as (sheet0 & Hsheet0 & Hshape).
           exists sheet0. split; [eapply list_elem_of_lookup_2; eauto|].
           now apply (shape_no_categories sheet0 sheet').
    + intros sheet' Hsheet' Hnil. rewrite Hsheet in Hsheet'. injection Hsheet' as <-.
      rewrite Hnil in Hcat. discriminate.
  - (* the last sheet cannot be read *)
    exists 0%nat, data, (NavError cur). split; [reflexivity|]. split; [now left|].
    split; [|reflexivity].
    destruct Hlast as [->|(sheet & Hsheet & Hnil)].
    + left. destruct (_get_current_task [] cur) as [task|] eqn:Hget; [|reflexivity].
      apply get_current_task_Some in Hget as (_ & _ & _ & s & c & Hs' & _).
      rewrite lookup_nil in Hs'. discriminate.
    + right. exists sheet. split; [|exact Hnil].
      rewrite last_lookup in Hsheet. eapply list_elem_of_lookup_2; eauto.
Qed.

Lemma next_task_spec_witness :
  let data := [mkSheetData "Sheet 1"
                 [mkCategory "Fire Safety" [sample_task; sample_comments];
                  mkCategory "Exits" [];
                  mkCategory "Alarms" [single_slot_task]]] in
  let cur := UI.mkCursor 0 0 0 in
  exists fuel0 data' r,
    (forall fuel, (fuel0 <= fuel)%nat ->
       _next_task fuel sample_selection data cur = Some (data', r)) /\
    (data' = data \/ data' = _save_current_task sample_selection data cur) /\
    match r with
    | Shown cur' =>
        cursor_ltb cur cur' = true /\
        (exists task, _get_current_task data cur' = Some task /\
                      is_comment_task task = false) /\
        only_comments_between data cur cur'
    | Completed cur' => only_comments_after data cur
    | NavError cur' =>
        _get_current_task data cur = None \/
        exists sheet, sheet ∈ data /\ categories sheet = []
    end /\
    (forall sheet, last data = Some sheet -> categories sheet = [] -> r = NavError cur).
Proof.
  apply (next_task_spec sample_selection
           [mkSheetData "Sheet 1"
              [mkCategory "Fire Safety" [sample_task; sample_comments];
               mkCategory "Exits" [];
               mkCategory "Alarms" [single_slot_task]]]
           (UI.mkCursor 0 0 0)); simpl; lia.
Defined.

(** ** The Previous button *)

(** X17. Between two cursors that are both on a task, the Previous button
    is the inverse of one step of the cursor: it leads from [q] back to [p]
    exactly when the step from [p] leads to [q].  Unlike the Next button it
    stops on comment tasks, and it does not save the task it leaves. *)
Theorem previous_task_inverse (data : list SheetData) (p q : UI.cursor) :
  is_Some (_get_current_task data p) ->
  is_Some (_get_current_task data q) ->
  (advance data p = Some (Some q)
   <-> (_is_first_task q = false /\ _previous_task data q = inl p)).
Proof.
  intros [tp Hp] [tq Hq].
  apply get_current_task_Some in Hp
    as (Hps & Hpc & Hpt & sheet & category & Hsheet & Hcat & Htask).
  apply get_current_task_Some in Hq
    as (Hqs & Hqc & Hqt & sheet' & category' & Hsheet' & Hcat' & Htask').
  pose proof (lookup_lt_Some _ _ _ Hsheet) as Ls.
  pose proof (lookup_lt_Some _ _ _ Hcat) as Lc.
  pose proof (lookup_lt_Some _ _ _ Htask) as Lt.
  pose proof (lookup_lt_Some _ _ _ Hsheet') as Ls'.
  pose proof (lookup_lt_Some _ _ _ Hcat') as Lc'.
  pose proof (lookup_lt_Some _ _ _ Htask') as Lt'.
  destruct p as [ps pc pt], q as [qs qc qt]. simpl in *.
  unfold advance, _previous_task, _is_first_task. simpl.
  rewrite !(py_index_nonneg data ps) by assumption. rewrite Hsheet.
  cbn [mbind option_bind]. rewrite !(py_index_nonneg (categories sheet) pc) by assumption.
  rewrite Hcat. cbn [mbind option_bind].
  split.
  - (* a step forward, then back *)
    destruct (Z.ltb_spec pt (Z.of_nat (length (tasks category)) - 1)) as [H1|H1].
    { intros [= <- <- <-].
      destruct (Z.eqb_spec (pt + 1) 0); [lia|]. rewrite !andb_false_r.
      split; [reflexivity|].
      destruct (Z.ltb_spec 0 (pt + 1)); [|lia]. do 2 f_equal. lia. }
    destruct (Z.ltb_spec pc (Z.of_nat (length (categories sheet)) - 1)) as [H2|H2].
    { intros [= <- <- <-].
      destruct (Z.eqb_spec (pc + 1) 0); [lia|]. rewrite andb_false_r. simpl.
      split; [reflexivity|].
      destruct (Z.ltb_spec 0 (pc + 1)); [|lia].
      rewrite py_index_nonneg by assumption. rewrite Hsheet. cbn [mbind option_bind].
      replace (pc + 1 - 1) with pc by lia.
      rewrite py_index_nonneg by assumption. rewrite Hcat.
      do 2 f_equal. lia. }
    destruct (Z.ltb_spec ps (Z.of_nat (length data) - 1)) as [H3|H3]; [|discriminate].
    intros [= <- <- <-].
    destruct (Z.eqb_spec (ps + 1) 0); [lia|]. simpl.
    split; [reflexivity|].
    replace (ps + 1 - 1) with ps by lia.
    rewrite py_index_nonneg by assumption. rewrite Hsheet.
    assert (Epc : Z.of_nat (length (categories sheet)) - 1 = pc) by lia.
    rewrite Epc, py_index_nonneg by assumption. rewrite Hcat.
    do 2 f_equal. lia.
  - (* a step back, then forward *)
    intros [Hfirst Hprev]. rewrite Hfirst in Hprev.
    destruct (Z.ltb_spec 0 qt) as [H1|H1].
    { injection Hprev as <- <- <-.
      rewrite Hsheet in Hsheet'. injection Hsheet' as <-.
      rewrite Hcat in Hcat'. injection Hcat' as <-.
      destruct (Z.ltb_spec (qt - 1) (Z.of_nat (length (tasks category)) - 1)); [|lia].
      do 3 f_equal. lia. }
    assert (qt = 0) by lia. subst qt.
    destruct (Z.ltb_spec 0 qc) as [H2|H2].
    { rewrite py_index_nonneg in Hprev by assumption. rewrite Hsheet' in Hprev.
      cbn [mbind option_bind] in Hprev.
      rewrite py_index_nonneg in Hprev by lia.
      destruct (categories sheet' !! Z.to_nat (qc - 1)) as [category0|] eqn:Hcat0;
        [|discriminate].
      injection Hprev as <- <- <-.
      rewrite Hsheet in Hsheet'. injection Hsheet' as <-.
      rewrite Hcat in Hcat0. injection Hcat0 as <-.
      destruct (Z.ltb_spec (Z.of_nat (length (tasks category)) - 1)
                  (Z.of_nat (length (tasks category)) - 1)); [lia|].
      destruct (Z.ltb_spec (qc - 1) (Z.of_nat (length (categories sheet)) - 1)); [|lia].
      do 3 f_equal. lia. }
    assert (qc = 0) by lia. subst qc.
    assert (qs <> 0).
    { intros ->. simpl in Hfirst. discriminate. }
    rewrite py_index_nonneg in Hprev by lia.
    destruct (data !! Z.to_nat (qs - 1)) as [sheet0|] eqn:Hsheet0; [|discriminate].
    destruct (py_index (categories sheet0) (Z.of_nat (length (categories sheet0)) - 1))
      as [category0|] eqn:Hcat0; [|discriminate].
    injection Hprev as <- <- <-.
    rewrite Hsheet in Hsheet0. injection Hsheet0 as <-.
    rewrite py_index_nonneg in Hcat0 by assumption.
    rewrite Hcat in Hcat0. injection Hcat0 as <-.
    destruct (Z.ltb_spec (Z.of_nat (length (tasks category)) - 1)
                (Z.of_nat (length (tasks category)) - 1)); [lia|].
    destruct (Z.ltb_spec (Z.of_nat (length (categories sheet)) - 1)
                (Z.of_nat (length (categories sheet)) - 1)); [lia|].
    destruct (Z.ltb_spec (qs - 1) (Z.of_nat (length data) - 1)); [|lia].
    do 3 f_equal. lia.
Qed.

Lemma previous_task_inverse_witness :
  let data := [mkSheetData "Sheet 1"
                 [mkCategory "Fire Safety" [sample_task; sample_comments];
                  mkCategory "Alarms" [single_slot_task]]] in
  advance data (UI.mkCursor 0 0 1) = Some (Some (UI.mkCursor 0 1 0))
  <-> (_is_first_task (UI.mkCursor 0 1 0) = false /\
       _previous_task data (UI.mkCursor 0 1 0) = inl (UI.mkCursor 0 0 1)).
Proof.
  apply (previous_task_inverse
           [mkSheetData "Sheet 1"
              [mkCategory "Fire Safety" [sample_task; sample_comments];
               mkCategory "Alarms" [single_slot_task]]]
           (UI.mkCursor 0 0 1) (UI.mkCursor 0 1 0)); vm_compute; eauto.
Defined.

(** ** The progress display *)

Lemma enumerate_from_lookup {A} (i j : Z) (l : list A) (a : A) :
  (j, a) ∈ enumerate_from i l <-> i <= j /\ l !! Z.to_nat (j - i) = Some a.
Proof.
  revert i; induction l as [|b l IH]; intros i; simpl.
  - rewrite elem_of_nil. split; [contradiction | intros [_ H]; discriminate].
  - rewrite elem_of_cons, IH. split.
    + intros [[= -> ->]|[Hle Hl]].
      * split; [lia|]. now replace (i - i) with 0 by lia.
      * split; [lia|]. replace (Z.to_nat (j - i)) with (S (Z.to_nat (j - (i + 1)))) by lia.
        exact Hl.
    + intros [Hle Hl]. destruct (Z.eq_dec j i) as [->|Hne].
      * left. replace (i - i) with 0 in Hl by lia. simpl in Hl. congruence.
      * right. split; [lia|].
        replace (Z.to_nat (j - i)) with (S (Z.to_nat (j - (i + 1)))) in Hl by lia.
        exact Hl.
Qed.

Lemma enumerate_from_sorted {A} (i : Z) (l : list A) :
  StronglySorted (fun x y => x.1 < y.1) (enumerate_from i l).
Proof.
  revert i; induction l as [|b l IH]; intros i; simpl; constructor; [apply IH|].
  apply Forall_forall. intros [j a] Hin. apply enumerate_from_lookup in Hin. simpl. lia.
Qed.

Lemma sorted_flat_map {A B} (R : A -> A -> Prop) (R' : B -> B -> Prop) (g : A -> list B)
    (l : list A) :
  StronglySorted R l ->
  (forall a, a ∈ l -> StronglySorted R' (g a)) ->
  (forall a b x y, R a b -> x ∈ g a -> y ∈ g b -> R' x y) ->
  StronglySorted R' (flat_map g l).
Proof.
  intros Hs Hg Hcross. induction Hs as [|a l Hs IH Hall]; simpl; [constructor|].
  assert (Hrest : StronglySorted R' (flat_map g l)).
  { apply IH. intros b Hb. apply Hg. now right. }
  assert (Ha : StronglySorted R' (g a)) by (apply Hg; left).
  assert (Hcr : forall x y, x ∈ g a -> y ∈ flat_map g l -> R' x y).
  { intros x y Hx Hy. apply elem_of_flat_map in Hy as (b & Hb & Hy).
    rewrite Forall_forall in Hall. eapply Hcross; eauto. }
  clear Hg IH. induction Ha as [|x xs Hxs IHx Hallx]; simpl; [exact Hrest|].
  constructor.
  - apply IHx. intros x' y Hx'. apply Hcr. now right.
  - apply Forall_forall. intros y Hy. apply elem_of_app in Hy as [Hy|Hy].
    + rewrite Forall_forall in Hallx. now apply Hallx.
    + apply Hcr; [left | exact Hy].
Qed.

Lemma sorted_map {A B} (R : A -> A -> Prop) (R' : B -> B -> Prop) (f : A -> B) (l : list A) :
  StronglySorted R l -> (forall a b, R a b -> R' (f a) (f b)) ->
  StronglySorted R' (map f l).
Proof.
  intros Hs Hf. induction Hs as [|a l Hs IH Hall]; simpl; constructor; [exact IH|].
  apply Forall_forall. intros y Hy. apply list_elem_of_fmap in Hy as (b & -> & Hb).
  rewrite Forall_forall in Hall. auto.
Qed.

(** The positions are the cursors that are on a task ... *)
Lemma positions_spec (data : list SheetData) (q : UI.cursor) (task : Task) :
  (q, task) ∈ positions data <-> _get_current_task data q = Some task.
Proof.
  rewrite get_current_task_Some. unfold positions, enumerate. split.
  - intros Hin. apply elem_of_flat_map in Hin as ([i sheet] & Hi & Hin).
    apply elem_of_flat_map in Hin as ([j category] & Hj & Hin).
    apply list_elem_of_fmap in Hin as ([k t] & [= -> ->] & Hk).
    apply enumerate_from_lookup in Hi as [Hi Hsheet], Hj as [Hj Hcat], Hk as [Hk Htask].
    simpl. rewrite Z.sub_0_r in *. repeat (split; [assumption|]). eauto.
  - intros (Hs & Hc & Ht & sheet & category & Hsheet & Hcat & Htask).
    apply elem_of_flat_map. exists (UI.current_sheet q, sheet). split.
    { apply enumerate_from_lookup. now rewrite Z.sub_0_r. }
    apply elem_of_flat_map. exists (UI.current_category q, category). split.
    { apply enumerate_from_lookup. now rewrite Z.sub_0_r. }
    apply list_elem_of_fmap. exists (UI.current_task q, task). split.
    { now destruct q. }
    apply enumerate_from_lookup. now rewrite Z.sub_0_r.
Qed.

(** ... in the order of the cursor. *)
Lemma positions_sorted (data : list SheetData) :
  StronglySorted (fun x y => cursor_ltb x.1 y.1 = true) (positions data).
Proof.
  unfold positions, enumerate.
  apply (sorted_flat_map (fun x y => x.1 < y.1)); [apply enumerate_from_sorted | |].
  - intros [i sheet] _.
    apply (sorted_flat_map (fun x y => x.1 < y.1)); [apply enumerate_from_sorted | |].
    + intros [j category] _.
      apply (sorted_map (fun x y => x.1 < y.1)); [apply enumerate_from_sorted|].
      intros [k t] [k' t'] Hlt. simpl in *. apply cursor_ltb_lt. simpl. lia.
    + intros [j category] [j' category'] x y Hlt Hx Hy. simpl in Hlt.
      apply list_elem_of_fmap in Hx as ([k t] & -> & _).
      apply list_elem_of_fmap in Hy as ([k' t'] & -> & _).
      apply cursor_ltb_lt. simpl. lia.
  - intros [i sheet] [i' sheet'] x y Hlt Hx Hy. simpl in Hlt.
    apply elem_of_flat_map in Hx as ([j category] & _ & Hx).
    apply elem_of_flat_map in Hy as ([j' category'] & _ & Hy).
    apply list_elem_of_fmap in Hx as ([k t] & -> & _).
    apply list_elem_of_fmap in Hy as ([k' t'] & -> & _).
    apply cursor_ltb_lt. simpl. lia.
Qed.

Lemma for_return_app {S A R} (body : S -> A -> R + S) (l k : list A) (s : S) :
  for_return body s (l ++ k)
  = match for_return body s l with
    | inl r => inl r
    | inr s' => for_return body s' k
    end.
Proof.
  revert s; induction l as [|a l IH]; intros s; simpl; [reflexivity|].
  destruct (body s a); [reflexivity | apply IH].
Qed.

Lemma for_return_ext {S A R} (f g : S -> A -> R + S) (l : list A) (s : S) :
  (forall s a, f s a = g s a) -> for_return f s l = for_return g s l.
Proof.
  intros H. revert s; induction l as [|a l IH]; intros s; simpl; [reflexivity|].
  rewrite H. destruct (g s a); [reflexivity | apply IH].
Qed.

Lemma for_return_flat_map {S A B R} (g : A -> list B) (body : S -> B -> R + S)
    (l : list A) (s : S) :
  for_return (fun s a => for_return body s (g a)) s l = for_return body s (flat_map g l).
Proof.
  revert s; induction l as [|a l IH]; intros s; simpl; [reflexivity|].
  rewrite for_return_app. destruct (for_return body s (g a)); [reflexivity | apply IH].
Qed.

Lemma for_return_map {S A B R} (f : A -> B) (body : S -> B -> R + S) (l : list A) (s : S) :
  for_return (fun s a => body s (f a)) s l = for_return body s (map f l).
Proof.
  revert s; induction l as [|a l IH]; intros s; simpl; [reflexivity|].
  destruct (body s (f a)); [reflexivity | apply IH].
Qed.

(** The three loops of the progress display are one loop over the
    positions. *)
Lemma current_task_number_flat (data : list SheetData) (cur : UI.cursor) :
  _get_current_task_number data cur
  = match for_return (count_until cur) 0 (positions data) with
    | inl current => current
    | inr current => current
    end.
Proof.
  unfold _get_current_task_number, positions.
  rewrite <- for_return_flat_map.
  match goal with
  | |- match ?a with _ => _ end = match ?b with _ => _ end =>
      replace b with a; [reflexivity|]
  end.
  apply for_return_ext. intros current [s_idx sheet].
  rewrite <- for_return_flat_map.
  apply for_return_ext. intros current' [c_idx category].
  rewrite <- for_return_map.
  apply for_return_ext. intros current'' [t_idx task]. reflexivity.
Qed.

Lemma count_tasks_app (l k : list (UI.cursor * Task)) :
  count_tasks (l ++ k) = count_tasks l + count_tasks k.
Proof. unfold count_tasks. rewrite List.filter_app, length_app. lia. Qed.

Lemma count_tasks_cons (x : UI.cursor * Task) (l : list (UI.cursor * Task)) :
  count_tasks (x :: l) = count_task 0 x.2 + count_tasks l.
Proof.
  unfold count_tasks, count_task. simpl. destruct (negb (is_comment_task x.2)); simpl; lia.
Qed.

Lemma count_tasks_nonneg (l : list (UI.cursor * Task)) : 0 <= count_tasks l.
Proof. unfold count_tasks. lia. Qed.

Lemma count_task_add (n : Z) (task : Task) : count_task n task = n + count_task 0 task.
Proof. unfold count_task. destruct (negb (is_comment_task task)); lia. Qed.

Lemma count_positions_tasks (s c i n : Z) (ts : list Task) :
  foldl count_task n ts
  = n + count_tasks (map (fun '(t_idx, task) => (UI.mkCursor s c t_idx, task))
                         (enumerate_from i ts)).
Proof.
  revert n i; induction ts as [|t ts IH]; intros n i; simpl.
  - unfold count_tasks. simpl. lia.
  - rewrite (IH _ (i + 1)), count_tasks_cons. simpl. rewrite (count_task_add n). lia.
Qed.

Lemma count_positions_categories (s i n : Z) (cs : list Category) :
  foldl (fun total category => foldl count_task total (tasks category)) n cs
  = n + count_tasks
          (flat_map (fun '(c_idx, category) =>
                       map (fun '(t_idx, task) => (UI.mkCursor s c_idx t_idx, task))
                           (enumerate (tasks category)))
                    (enumerate_from i cs)).
Proof.
  revert n i; induction cs as [|c cs IH]; intros n i; simpl.
  - unfold count_tasks. simpl. lia.
  - rewrite (IH _ (i + 1)), count_tasks_app.
    rewrite (count_positions_tasks s i 0 n). unfold enumerate. lia.
Qed.

Lemma total_tasks_flat (data : list SheetData) :
  _get_total_tasks data = count_tasks (positions data).
Proof.
  unfold _get_total_tasks, positions. unfold enumerate at 3.
  assert (H : forall n i,
    foldl (fun total sheet =>
             foldl (fun total category => foldl count_task total (tasks category))
                   total (categories sheet)) n data
    = n + count_tasks
            (flat_map (fun '(s_idx, sheet) =>
               flat_map (fun '(c_idx, category) =>
                 map (fun '(t_idx, task) => (UI.mkCursor s_idx c_idx t_idx, task))
                     (enumerate (tasks category)))
                 (enumerate (categories sheet)))
               (enumerate_from i data))).
  { induction data as [|sheet data IH]; intros n i; simpl.
    - unfold count_tasks. simpl. lia.
    - rewrite (IH _ (i + 1)), count_tasks_app.
      rewrite (count_positions_categories i 0 n). unfold enumerate. lia. }
  rewrite (H 0 0). lia.
Qed.

Lemma count_until_test (cur q : UI.cursor) :
  (UI.current_sheet q =? UI.current_sheet cur)
  && (UI.current_category q =? UI.current_category cur)
  && (UI.current_task q =? UI.current_task cur) = true <-> q = cur.
Proof.
  rewrite !andb_true_iff, !Z.eqb_eq. split.
  - intros [[? ?] ?]. now apply cursor_eq.
  - intros ->. auto.
Qed.

Lemma count_until_absent (cur : UI.cursor) (l : list (UI.cursor * Task)) (c : Z) :
  (forall qt, qt ∈ l -> qt.1 <> cur) ->
  for_return (count_until cur) c l = inr (c + count_tasks l).
Proof.
  revert c; induction l as [|[q t] l IH]; intros c Hne; simpl.
  - unfold count_tasks. simpl. f_equal. lia.
  - unfold count_until at 1. simpl.
    destruct (_ && _) eqn:Htest.
    + apply count_until_test in Htest. exfalso. apply (Hne (q, t)); [left | exact Htest].
    + rewrite IH by (intros qt Hqt; apply Hne; now right).
      rewrite count_tasks_cons. simpl. rewrite (count_task_add c). f_equal. lia.
Qed.

Lemma count_until_found (cur : UI.cursor) (l1 l2 : list (UI.cursor * Task)) (t : Task)
    (c : Z) :
  (forall qt, qt ∈ l1 -> qt.1 <> cur) ->
  for_return (count_until cur) c (l1 ++ (cur, t) :: l2)
  = inl (c + count_tasks l1 + count_task 0 t).
Proof.
  intros Hne. rewrite for_return_app, (count_until_absent cur l1 c Hne). simpl.
  unfold count_until. simpl.
  destruct (_ && _) eqn:Htest.
  - rewrite (count_task_add (c + count_tasks l1)). reflexivity.
  - exfalso. assert (H : cur = cur) by reflexivity.
    apply count_until_test in H. congruence.
Qed.

Lemma sorted_split {A} (R : A -> A -> Prop) (l1 l2 : list A) (x : A) :
  StronglySorted R (l1 ++ x :: l2) ->
  Forall (fun y => R y x) l1 /\ Forall (R x) l2 /\ StronglySorted R l2.
Proof.
  induction l1 as [|a l1 IH]; simpl; intros Hs.
  - apply StronglySorted_inv in Hs as [Hs Hall]. auto.
  - apply StronglySorted_inv in Hs as [Hs Hall].
    destruct (IH Hs) as (H1 & H2 & H3). split; [|auto].
    constructor; [|exact H1].
    rewrite Forall_forall in Hall. apply Hall, elem_of_app. right. left.
Qed.

Lemma cursor_ltb_irrefl (p : UI.cursor) : cursor_ltb p p = false.
Proof.
  destruct (cursor_ltb p p) eqn:H; [|reflexivity]. apply cursor_ltb_lt in H. lia.
Qed.

Lemma count_tasks_comments (l : list (UI.cursor * Task)) :
  (forall qt, qt ∈ l -> is_comment_task qt.2 = true) -> count_tasks l = 0.
Proof.
  induction l as [|x l IH]; intros Hall; [reflexivity|].
  rewrite count_tasks_cons, IH by (intros y Hy; apply Hall; now right).
  unfold count_task. rewrite (Hall x) by left. reflexivity.
Qed.

(** The positions up to a cursor that is on a task. *)
Lemma positions_split (data : list SheetData) (p : UI.cursor) (task : Task) :
  _get_current_task data p = Some task ->
  exists l1 l2,
    positions data = l1 ++ (p, task) :: l2 /\
    (forall qt, qt ∈ l1 -> cursor_ltb qt.1 p = true) /\
    (forall qt, qt ∈ l2 -> cursor_ltb p qt.1 = true) /\
    StronglySorted (fun x y => cursor_ltb x.1 y.1 = true) l2.
Proof.
  intros Hget. apply positions_spec, list_elem_of_split in Hget as (l1 & l2 & Heq).
  exists l1, l2. split; [exact Heq|].
  pose proof (positions_sorted data) as Hs. rewrite Heq in Hs.
  apply sorted_split in Hs as (H1 & H2 & H3).
  rewrite Forall_forall in H1, H2.
  repeat split; [| |exact H3]; intros qt Hqt; [apply H1 | apply H2]; exact Hqt.
Qed.

Lemma current_task_number_on (data : list SheetData) (p : UI.cursor) (task : Task)
    (l1 l2 : list (UI.cursor * Task)) :
  positions data = l1 ++ (p, task) :: l2 ->
  (forall qt, qt ∈ l1 -> cursor_ltb qt.1 p = true) ->
  _get_current_task_number data p = count_tasks l1 + count_task 0 task.
Proof.
  intros Heq Hbefore. rewrite current_task_number_flat, Heq, count_until_found; [lia|].
  intros qt Hqt Heq'. specialize (Hbefore qt Hqt). rewrite Heq', cursor_ltb_irrefl in Hbefore.
  discriminate.
Qed.

(** X18. The progress display "Task k of n": [k] never exceeds [n] and is
    never negative; on a task that is no comment task [k] is at least 1;
    off every task [k] equals [n]; and from a cursor on a task to the next
    task that is no comment task, the one the Next button shows, [k] goes up
    by exactly one. *)
Theorem progress_counter (data : list SheetData) (p : UI.cursor) :
  0 <= _get_current_task_number data p <= _get_total_tasks data /\
  (_get_current_task data p = None ->
   _get_current_task_number data p = _get_total_tasks data) /\
  (forall task, _get_current_task data p = Some task -> is_comment_task task = false ->
                1 <= _get_current_task_number data p) /\
  (forall q task,
     is_Some (_get_current_task data p) ->
     cursor_ltb p q = true ->
     _get_current_task data q = Some task -> is_comment_task task = false ->
     only_comments_between data p q ->
     _get_current_task_number data q = _get_current_task_number data p + 1).
Proof.
  rewrite total_tasks_flat.
  assert (Hoff : _get_current_task data p = None ->
                 _get_current_task_number data p = count_tasks (positions data)).
  { intros Hnone. rewrite current_task_number_flat, count_until_absent; [lia|].
    intros [q t] Hqt Heq. simpl in Heq. subst q.
    apply positions_spec in Hqt. congruence. }
  split; [|split; [exact Hoff|split]].
  - destruct (_get_current_task data p) as [task|] eqn:Hget.
    + destruct (positions_split data p task Hget) as (l1 & l2 & Heq & Hbefore & _).
      rewrite (current_task_number_on data p task l1 l2 Heq Hbefore), Heq.
      rewrite count_tasks_app, count_tasks_cons. simpl.
      pose proof (count_tasks_nonneg l1). pose proof (count_tasks_nonneg l2).
      unfold count_task. destruct (negb (is_comment_task task)); lia.
    + rewrite (Hoff eq_refl). pose proof (count_tasks_nonneg (positions data)). lia.
  - intros task Hget Hcomment.
    destruct (positions_split data p task Hget) as (l1 & l2 & Heq & Hbefore & _).
    rewrite (current_task_number_on data p task l1 l2 Heq Hbefore).
    pose proof (count_tasks_nonneg l1). unfold count_task. rewrite Hcomment. simpl. lia.
  - intros q task [tp Hp] Hlt Hq Hcomment Hbetween.
    destruct (positions_split data p tp Hp) as (l1 & l2 & Heq & Hbefore & Hafter & Hsorted).
    rewrite (current_task_number_on data p tp l1 l2 Heq Hbefore).
    (* where [q] stands among the positions after [p] *)
    assert (Hin : (q, task) ∈ l2).
    { apply positions_spec in Hq. rewrite Heq in Hq.
      apply elem_of_app in Hq as [Hq|Hq].
      - specialize (Hbefore _ Hq). simpl in Hbefore.
        pose proof (cursor_ltb_trans _ _ _ Hlt Hbefore) as Hpp.
        rewrite cursor_ltb_irrefl in Hpp. discriminate.
      - apply elem_of_cons in Hq as [[= -> _]|Hq]; [|exact Hq].
        rewrite cursor_ltb_irrefl in Hlt. discriminate. }
    apply list_elem_of_split in Hin as (m & l3 & Heq2).
    rewrite Heq2 in Hsorted. apply sorted_split in Hsorted as (Hm & _ & _).
    rewrite Forall_forall in Hm.
    assert (Hsplit : positions data = (l1 ++ (p, tp) :: m) ++ (q, task) :: l3).
    { rewrite Heq, Heq2, <- app_assoc. reflexivity. }
    rewrite (current_task_number_on data q task _ l3 Hsplit).
    + rewrite count_tasks_app, count_tasks_cons. simpl.
      assert (Hzero : count_tasks m = 0).
      { apply count_tasks_comments. intros [r t] Hr. simpl. apply (Hbetween r t).
        - apply (Hafter (r, t)). rewrite Heq2. apply elem_of_app. now left.
        - now apply (Hm (r, t)).
        - apply positions_spec. rewrite Heq, Heq2.
          apply elem_of_app. right. right. apply elem_of_app. now left. }
      rewrite Hzero. unfold count_task at 2. rewrite Hcomment. simpl. lia.
    + intros qt Hqt. apply elem_of_app in Hqt as [Hqt|Hqt].
      * eapply cursor_ltb_trans; [apply (Hbefore qt Hqt) | exact Hlt].
      * apply elem_of_cons in Hqt as [->|Hqt]; [exact Hlt|].
        now apply (Hm qt).
Qed.

(** ** The checklist file *)

Lemma jdict_get_set (d : list (string * json)) (k : string) (v : json) :
  jdict_get (jdict_set d k v) k = Some v.
Proof.
  induction d as [|[k' v'] d IH]; simpl; [now rewrite String.eqb_refl|].
  destruct (String.eqb_spec k k') as [->|Hne]; simpl.
  - now rewrite String.eqb_refl.
  - destruct (String.eqb_spec k k'); [contradiction | exact IH].
Qed.

Lemma jdict_set_same (d : list (string * json)) (k : string) (v : json) :
  jdict_get d k = Some v -> jdict_set d k v = d.
Proof.
  induction d as [|[k' v'] d IH]; simpl; [discriminate|].
  destruct (String.eqb_spec k k') as [->|Hne].
  - now intros [= ->].
  - intros H. now rewrite IH.
Qed.

Lemma validate_category_spec (category category' : json) :
  validate_category category = Some category' ->
  category_ok category' = true /\
  validate_category category' = Some category' /\
  (category_ok category = true -> category' = category).
Proof.
  destruct category as [| | | | |d]; try discriminate. simpl.
  assert (Hfix : category' = JDict (jdict_set d "tasks" (JList [])) ->
                 (match jdict_get d "tasks" with Some (JList _) => true | _ => false end
                  = true -> category' = JDict d) ->
                 category_ok category' = true /\
                 validate_category category' = Some category' /\
                 (match jdict_get d "tasks" with Some (JList _) => true | _ => false end
                  = true -> category' = JDict d)).
  { intros -> Hsame. simpl. rewrite jdict_get_set. auto. }
  destruct (jdict_get d "tasks") as [[| | | |ts|]|] eqn:Hget; intros [= <-];
    try (apply Hfix; [reflexivity | discriminate]).
  simpl. rewrite Hget. auto.
Qed.

Lemma validate_category_accepts (category : json) :
  is_Some (validate_category category) <-> is_dict category = true.
Proof.
  destruct category as [| | | | |d]; simpl;
    try (split; [intros [? H]; discriminate H | discriminate]).
  split; [reflexivity|]. intros _.
  destruct (jdict_get d "tasks") as [[| | | |ts|]|]; eauto.
Qed.

Lemma validate_categories_spec (cats cats' : list json) :
  mapM validate_category cats = Some cats' ->
  forallb category_ok cats' = true /\
  mapM validate_category cats' = Some cats' /\
  (forallb category_ok cats = true -> cats' = cats).
Proof.
  intros H%mapM_Some. induction H as [|c c' cats cats' Hc _ (IH1 & IH2 & IH3)].
  - repeat split.
  - destruct (validate_category_spec c c' Hc) as (H1 & H2 & H3).
    split; [simpl; now rewrite H1, IH1|]. split.
    + cbn [mapM]. rewrite H2. cbn [mbind option_bind]. rewrite IH2. reflexivity.
    + simpl. intros [Hok Hrest]%andb_true_iff. now rewrite H3, IH3.
Qed.

Lemma validate_categories_accepts (cats : list json) :
  is_Some (mapM validate_category cats) <-> forallb is_dict cats = true.
Proof.
  induction cats as [|c cats IH]; simpl; [split; eauto|].
  cbn [mapM]. rewrite andb_true_iff, <- IH, <- validate_category_accepts.
  destruct (validate_category c) as [c'|]; cbn [mbind option_bind].
  - destruct (mapM validate_category cats) as [cats'|]; cbn [mbind option_bind].
    + split; eauto.
    + split; [intros [? H]; discriminate H | intros [_ [? H]]; discriminate H].
  - split; [intros [? H]; discriminate H | intros [[? H] _]; discriminate H].
Qed.

Lemma validate_sheet_spec (sheet sheet' : json) :
  validate_sheet sheet = Some sheet' ->
  sheet_ok sheet' = true /\
  validate_sheet sheet' = Some sheet' /\
  (sheet_ok sheet = true -> sheet' = sheet).
Proof.
  destruct sheet as [| | | | |d]; try discriminate. simpl.
  destruct (jdict_get d "categories") as [[| | | |cats|]|] eqn:Hget; try discriminate.
  destruct (mapM validate_category cats) as [cats'|] eqn:Hcats; [|discriminate].
  cbn [mbind option_bind]. intros [= <-].
  destruct (validate_categories_spec cats cats' Hcats) as (H1 & H2 & H3).
  simpl. rewrite jdict_get_set. split; [exact H1|]. split.
  - rewrite H2. cbn [mbind option_bind]. do 2 f_equal.
    apply jdict_set_same, jdict_get_set.
  - intros Hok. rewrite (H3 Hok). f_equal. now apply jdict_set_same.
Qed.

Lemma validate_sheet_accepts (sheet : json) :
  is_Some (validate_sheet sheet) <-> sheet_accepted sheet = true.
Proof.
  destruct sheet as [| | | | |d]; simpl;
    try (split; [intros [? H]; discriminate H | discriminate]).
  destruct (jdict_get d "categories") as [[| | | |cats|]|];
    try (split; [intros [? H]; discriminate H | discriminate]).
  rewrite <- validate_categories_accepts.
  destruct (mapM validate_category cats) as [cats'|]; cbn [mbind option_bind].
  - split; eauto.
  - split; intros [? H]; discriminate H.
Qed.

Lemma validate_sheets_spec (sheets sheets' : list json) :
  mapM validate_sheet sheets = Some sheets' ->
  forallb sheet_ok sheets' = true /\
  mapM validate_sheet sheets' = Some sheets' /\
  (forallb sheet_ok sheets = true -> sheets' = sheets).
Proof.
  intros H%mapM_Some. induction H as [|c c' cats cats' Hc _ (IH1 & IH2 & IH3)].
  - repeat split.
  - destruct (validate_sheet_spec c c' Hc) as (H1 & H2 & H3).
    split; [simpl; now rewrite H1, IH1|]. split.
    + cbn [mapM]. rewrite H2. cbn [mbind option_bind]. rewrite IH2. reflexivity.
    + simpl. intros [Hok Hrest]%andb_true_iff. now rewrite H3, IH3.
Qed.

Lemma validate_sheets_accepts (sheets : list json) :
  is_Some (mapM validate_sheet sheets) <-> forallb sheet_accepted sheets = true.
Proof.
  induction sheets as [|c cats IH]; simpl; [split; eauto|].
  cbn [mapM]. rewrite andb_true_iff, <- IH, <- validate_sheet_accepts.
  destruct (validate_sheet c) as [c'|]; cbn [mbind option_bind].
  - destruct (mapM validate_sheet cats) as [cats'|]; cbn [mbind option_bind].
    + split; eauto.
    + split; [intros [? H]; discriminate H | intros [_ [? H]]; discriminate H].
  - split; [intros [? H]; discriminate H | intros [[? H] _]; discriminate H].
Qed.

(** X19. [_load_and_validate_data] accepts exactly the values that are a
    list, not empty, of [dict]s each with a list of [dict]s under
    "categories", and raises on every other.  What it returns is fit for the
    interface (every category has a list under "tasks"); it returns a value
    that is already fit unchanged, and validating its result again changes
    nothing. *)
Theorem load_and_validate_spec (data : json) :
  (is_Some (_load_and_validate_data data) <-> data_accepted data = true) /\
  (forall data',
     _load_and_validate_data data = Some data' ->
     data_ok data' = true /\
     _load_and_validate_data data' = Some data' /\
     (data_ok data = true -> data' = data)).
Proof.
  split.
  - destruct data as [| | | |[|sheet sheets]|];
      try (simpl; split; [intros [? H]; discriminate H | discriminate]).
    unfold _load_and_validate_data, data_accepted.
    rewrite <- validate_sheets_accepts.
    destruct (mapM validate_sheet (sheet :: sheets)); simpl; split; eauto;
      intros [? H]; discriminate H.
  - intros data'. destruct data as [| | | |[|sheet sheets]|]; try discriminate.
    unfold _load_and_validate_data.
    destruct (mapM validate_sheet (sheet :: sheets)) as [sheets'|] eqn:Hm; [|discriminate].
    cbn [fmap option_fmap option_map]. intros [= <-].
    destruct (validate_sheets_spec _ _ Hm) as (H1 & H2 & H3).
    assert (Hne : exists s' rest, sheets' = s' :: rest).
    { apply mapM_Some, Forall2_length in Hm. destruct sheets'; [discriminate | eauto]. }
    destruct Hne as (s' & rest & ->).
    split; [exact H1|]. split.
    + unfold _load_and_validate_data. rewrite H2. reflexivity.
    + unfold data_ok. intros Hok. now rewrite (H3 Hok).
Qed.

Lemma task_to_json_dict (task : Task) : is_dict (task_to_json task) = true.
Proof. reflexivity. Qed.

Lemma category_to_json_ok (cat : Category) : category_ok (category_to_json cat) = true.
Proof. reflexivity. Qed.

Lemma sheet_to_json_ok (sheet : SheetData) : sheet_ok (sheet_to_json sheet) = true.
Proof.
  unfold sheet_ok, sheet_to_json. simpl.
  induction (categories sheet) as [|c cs IH]; [reflexivity|].
  simpl. exact IH.
Qed.

Lemma validate_ok_category (category : json) :
  category_ok category = true -> validate_category category = Some category.
Proof.
  destruct category as [| | | | |d]; try discriminate. simpl.
  destruct (jdict_get d "tasks") as [[| | | |ts|]|]; try discriminate. reflexivity.
Qed.

Lemma validate_ok_categories (cats : list json) :
  forallb category_ok cats = true -> mapM validate_category cats = Some cats.
Proof.
  induction cats as [|c cats IH]; [reflexivity|].
  simpl. intros [Hc Hok]%andb_true_iff.
  cbn [mapM]. rewrite (validate_ok_category c Hc). cbn [mbind option_bind].
  now rewrite IH.
Qed.

Lemma validate_ok_sheet (sheet : json) :
  sheet_ok sheet = true -> validate_sheet sheet = Some sheet.
Proof.
  destruct sheet as [| | | | |d]; try discriminate. simpl.
  destruct (jdict_get d "categories") as [[| | | |cats|]|] eqn:Hget; try discriminate.
  intros Hok. rewrite (validate_ok_categories cats Hok). cbn [mbind option_bind]. do 2 f_equal. now apply jdict_set_same.
Qed.

(** X20. What extraction writes, the interface loads: the value
    [save_to_json] hands to [json.dump] for the sheets of a workbook passes
    [_load_and_validate_data] unchanged as soon as there is one sheet, and
    is refused when there is none. *)
Theorem saved_json_loads (data : list SheetData) :
  _load_and_validate_data (save_to_json data)
  = if decide (data = []) then None else Some (save_to_json data).
Proof.
  destruct data as [|sheet data]; [reflexivity|].
  destruct (decide _) as [?|_]; [discriminate|].
  unfold save_to_json, _load_and_validate_data. cbn [map].
  assert (Hm : forall l, mapM validate_sheet (map sheet_to_json l) = Some (map sheet_to_json l)).
  { induction l as [|s l IH]; [reflexivity|].
    cbn [map mapM]. rewrite (validate_ok_sheet _ (sheet_to_json_ok s)).
    cbn [mbind option_bind]. now rewrite IH. }
  change (sheet_to_json sheet :: map sheet_to_json data) with (map sheet_to_json (sheet :: data)).
  now rewrite Hm.
Qed.

(** ** Which references the resolver answers *)









(** The last row of a sheet is answered, the row after it is not, with
    one, two or three column letters alike; signs between the letters and
    the digits are passed over. *)
Example resolver_row_limit :
  _get_unmerged_cell merged_sheet "B1048576" = Some (1048576, 2) /\
  _get_unmerged_cell merged_sheet "B1048577" = None /\
  _get_unmerged_cell merged_sheet "AAA1048577" = None /\
  _get_unmerged_cell merged_sheet "B0" = None /\
  _get_unmerged_cell merged_sheet "$B$10" = Some (9, 2).
Proof. repeat split; vm_compute; reflexivity. Qed.

(** ** What the reset pass does to a worksheet *)

Lemma first_chars_inner_complete (refs : list string) (acc letters : gset ascii) :
  for_each (fun acc cell_ref => c ← Py.first_char cell_ref; Some ({[c]} ∪ acc)) acc refs
  = Some letters ->
  (forall c, c ∈ acc -> c ∈ letters) /\
  (forall cell_ref c, cell_ref ∈ refs -> Py.first_char cell_ref = Some c -> c ∈ letters).
Proof.
  revert acc; induction refs as [|r refs IH]; intros acc; simpl.
  - intros [= <-]. split; [auto|]. intros ref c Hin. by apply elem_of_nil in Hin.
  - destruct (Py.first_char r) as [c'|] eqn:Hr; [|discriminate]. simpl.
    intros Hrest. destruct (IH _ Hrest) as [Hacc Hrefs]. split.
    + intros c Hc. apply Hacc. apply elem_of_union. now right.
    + intros ref c Hin Hf. apply elem_of_cons in Hin as [->|Hin]; [|eauto].
      apply Hacc. apply elem_of_union. left. apply elem_of_singleton. congruence.
Qed.

(** Every first character of an input reference of the inspected tasks is
    collected. *)
Lemma column_letters_complete (ts : list Task) (letters : gset ascii) (task : Task)
    (cell_ref : string) (c : ascii) :
  column_letters ts = Some letters ->
  task ∈ ts -> cell_ref ∈ keys (inputs task) -> Py.first_char cell_ref = Some c ->
  c ∈ letters.
Proof.
  unfold column_letters. generalize (∅ : gset ascii) as acc.
  induction ts as [|t ts IH]; intros acc Hl Ht; [by apply elem_of_nil in Ht|].
  simpl in Hl.
  destruct (for_each _ acc (keys (inputs t))) as [acc1|] eqn:Hinner; [|discriminate].
  intros Hr Hf.
  assert (Hmono : forall x, x ∈ acc1 -> x ∈ letters).
  { clear -Hl. revert acc1 Hl. induction ts as [|t' ts IH]; intros acc1; simpl.
    - intros [= <-]. auto.
    - destruct (for_each _ acc1 (keys (inputs t'))) as [acc2|] eqn:Hinner; [|discriminate].
      intros Hrest x Hx. apply (IH _ Hrest).
      now apply (first_chars_inner_complete _ _ _ Hinner). }
  apply elem_of_cons in Ht as [->|Ht].
  - apply Hmono. eapply (first_chars_inner_complete _ _ _ Hinner); eauto.
  - eapply IH; eauto.
Qed.

Lemma clear_column_beyond (ws ws' : worksheet) (column : ascii) (pos : Z * Z) :
  clear_column ws column = Some ws' -> ws_max_row ws < pos.1 -> unchanged_at pos ws ws'.
Proof.
  unfold clear_column. intros Hc Hpos.
  destruct (Ascii.eqb_spec column "A"); [injection Hc as <-; apply unchanged_at_refl|].
  destruct (column_index_from_string (String column "")) as [col_idx|]; [|discriminate].
  simpl in Hc.
  eapply (for_each_preserves (unchanged_at pos)); [| | |exact Hc].
  - apply unchanged_at_refl.
  - apply unchanged_at_trans.
  - intros ws1 row ws2 _ Hrow Hstep.
    eapply clear_cell_unchanged; [exact Hstep|].
    apply elem_of_seqZ in Hrow. destruct pos as [r c]; simpl in *. intros [= -> ->]. lia.
Qed.

Lemma clear_worksheet_beyond (data : list SheetData) (ws ws' : worksheet) (pos : Z * Z) :
  clear_worksheet data ws = Some ws' -> ws_max_row ws < pos.1 -> unchanged_at pos ws ws'.
Proof.
  unfold clear_worksheet. intros Hc Hpos.
  destruct (first_category_tasks data) as [ts|]; [|discriminate]. simpl in Hc.
  destruct (column_letters ts) as [letters|]; [|discriminate]. simpl in Hc.
  apply (for_each_invariant
           (fun w => ws_max_row w = ws_max_row ws /\ unchanged_at pos ws w)
           clear_column (elements letters) ws ws'); [| |exact Hc].
  - split; [reflexivity | apply unchanged_at_refl].
  - intros w1 c w2 [Hr Hu] _ Hstep.
    destruct (clear_column_clears w1 w2 c Hstep) as ([_ Hr'] & _).
    split; [congruence|].
    eapply unchanged_at_trans; [exact Hu|].
    eapply clear_column_beyond; [exact Hstep | lia].
Qed.

Lemma clear_worksheet_extent (data : list SheetData) (ws ws' : worksheet) :
  clear_worksheet data ws = Some ws' ->
  merged_cells ws' = merged_cells ws /\ ws_max_row ws' = ws_max_row ws.
Proof.
  unfold clear_worksheet. intros Hc.
  destruct (first_category_tasks data) as [ts|]; [|discriminate]. simpl in Hc.
  destruct (column_letters ts) as [letters|]; [|discriminate]. simpl in Hc.
  apply (for_each_invariant
           (fun w => merged_cells w = merged_cells ws /\ ws_max_row w = ws_max_row ws)
           clear_column (elements letters) ws ws'); [auto| |exact Hc].
  intros w1 c w2 [Hm Hr] _ Hstep.
  destruct (clear_column_clears w1 w2 c Hstep) as ([Hm' Hr'] & _). split; congruence.
Qed.

(** X22. The whole effect of the reset pass on one worksheet.  The
    characters it collects are the first characters of the input references
    of the tasks of the first category of the first sheet, and no others.
    It keeps the merged regions and the last row; it empties every cell from
    row 9 to the last row in a column named by one collected character other
    than "A"; and it leaves every other cell as it was.  A slot whose
    reference begins with "A", such as one in column AA, is therefore never
    emptied, and a slot in column BA is emptied only when column B is. *)
Theorem reset_pass_effect (data : list SheetData) (ws ws' : worksheet)
    (ts : list Task) (letters : gset ascii) :
  clear_worksheet data ws = Some ws' ->
  first_category_tasks data = Some ts ->
  column_letters ts = Some letters ->
  (forall c, c ∈ letters <->
             exists task cell_ref,
               task ∈ ts /\ cell_ref ∈ keys (inputs task) /\
               Py.first_char cell_ref = Some c) /\
  merged_cells ws' = merged_cells ws /\
  ws_max_row ws' = ws_max_row ws /\
  forall pos,
    (reset_target letters ws pos -> cell_value ws' pos = Py.VNone) /\
    (~ reset_target letters ws pos -> cell_value ws' pos = cell_value ws pos).
Proof.
  intros Hc Hts Hl.
  split.
  { intros c. split; [apply (column_letters_origin ts letters c Hl)|].
    intros (task & ref & Ht & Hr & Hf). eapply column_letters_complete; eauto. }
  destruct (clear_worksheet_extent data ws ws' Hc) as [Hm Hr].
  split; [exact Hm|]. split; [exact Hr|].
  intros [row col]. split.
  - intros [Hrow (c & Hin & HnA & Hidx)]. simpl in *.
    eapply reset_pass_clears; eauto.
  - intros Hnot.
    destruct (Z.lt_ge_cases row 9) as [Hlow|Hlow].
    { apply (clear_worksheet_only data ws ws' ts letters (row, col) Hc Hts Hl). now left. }
    destruct (Z.lt_ge_cases (ws_max_row ws) row) as [Hhigh|Hhigh].
    { now apply (clear_worksheet_beyond data ws ws' (row, col) Hc). }
    apply (clear_worksheet_only data ws ws' ts letters (row, col) Hc Hts Hl). right.
    intros c Hin HnA Hidx. apply Hnot. split; [simpl; lia|]. eauto.
Qed.

Lemma reset_pass_effect_witness :
  let ts := [mkTask "Check extinguisher" "" [("BA9", "CD 02 JAN 24"); ("BB9", "OK")]] in
  let ws' := default far_sheet (clear_worksheet far_data far_sheet) in
  let letters := default ∅ (column_letters ts) in
  (forall c, c ∈ letters <->
             exists task cell_ref,
               task ∈ ts /\ cell_ref ∈ keys (inputs task) /\
               Py.first_char cell_ref = Some c) /\
  merged_cells ws' = merged_cells far_sheet /\
  ws_max_row ws' = ws_max_row far_sheet /\
  forall pos,
    (reset_target letters far_sheet pos -> cell_value ws' pos = Py.VNone) /\
    (~ reset_target letters far_sheet pos -> cell_value ws' pos = cell_value far_sheet pos).
Proof.
  apply (reset_pass_effect far_data far_sheet); vm_compute; reflexivity.
Defined.

(** ** Extraction: each task reads its own row *)

Lemma row_loop_inputs (input_cols : list Z) (rows : list (list Cell))
    (st st' : parse_state) :
  for_each (process_row input_cols) st rows = Some st' ->
  exists added,
    Forall2 (fun task r =>
               task_name task = row_text r /\
               _get_input_values input_cols r = Some (inputs task))
            added
            (List.filter is_bold_row
               (match current_category st with
                | Some _ => rows
                | None => after_first_category rows
                end)) /\
    map (fun t => (task_name t, inputs t)) (flat_map tasks (state_categories st'))
    = map (fun t => (task_name t, inputs t)) (flat_map tasks (state_categories st) ++ added).
Proof.
  revert st; induction rows as [|r rows IH]; intros st; simpl.
  - intros [= <-]. exists []. split.
    + destruct (current_category st); constructor.
    + now rewrite app_nil_r.
  - destruct (process_row input_cols st r) as [st1|] eqn:Hstep; [|discriminate].
    intros Hrest. destruct (IH _ Hrest) as (added & Hadded & Heq).
    destruct (process_row_shape _ _ _ _ Hstep)
      as [[Hc ->]|[(Hc & Hb & [[Hcur ->]|(c & values & Hcur & Hvals & ->)])
                  |(Hc & Hb & [->|(c & Hcur & ->)])]].
    + (* a category header *)
      assert (Hnb : is_bold_row r = false).
      { unfold is_category_row, is_bold_row in *. destruct r as [|fc rest]; [reflexivity|].
        apply andb_true_iff in Hc as [-> ->]. reflexivity. }
      exists added. simpl in Hadded. split.
      * rewrite Hc. destruct (current_category st); [|exact Hadded].
        cbn [List.filter]. now rewrite Hnb.
      * rewrite Heq. unfold state_categories at 1. simpl.
        rewrite flat_map_app. simpl. now rewrite app_nil_r.
    + (* a bold row before the first category *)
      exists added. rewrite Hcur in Hadded |- *. rewrite Hc.
      split; [exact Hadded | exact Heq].
    + (* a task row *)
      exists (mkTask (row_text r) "" values :: added).
      simpl in Hadded. rewrite Hcur. cbn [List.filter]. rewrite Hb. split.
      * constructor; [split; [reflexivity | exact Hvals] | exact Hadded].
      * rewrite Heq. unfold state_categories. simpl. rewrite Hcur.
        rewrite !flat_map_app. simpl. rewrite !app_nil_r, <- !app_assoc. reflexivity.
    + (* a row that changes nothing *)
      exists added. split; [|exact Heq].
      destruct (current_category st); [cbn [List.filter]; now rewrite Hb|].
      now rewrite Hc.
    + (* a description line *)
      exists added. simpl in Hadded.
      rewrite Hcur. cbn [List.filter]. rewrite Hb. split; [exact Hadded|].
      rewrite Heq. unfold state_categories. simpl. rewrite Hcur.
      rewrite !flat_map_app, !map_app. simpl. rewrite !app_nil_r. do 2 f_equal.
      generalize (tasks c) as ts. clear.
      induction ts as [|a ts IHt]; [reflexivity|].
      destruct ts as [|b ts]; simpl in *.
      * unfold add_description. now destruct (negb _).
      * now rewrite IHt.
Qed.

(** X23. The tasks of an extracted sheet correspond one to one, in row
    order, to the rows after the first category header whose lead cell is
    bold without being a category header: each task has the trimmed lead
    text of its row as name and, as inputs, the slots [_get_input_values]
    reads from that same row in the input columns located on the sheet.
    Description lines never alter the name or the inputs of a task. *)
Theorem extracted_tasks_read_own_row (sheet_number : Z) (rows : list (list Cell))
    (sheet_data : SheetData) :
  _process_worksheet sheet_number rows = Some sheet_data ->
  Forall2 (fun task r =>
             task_name task = row_text r /\
             _get_input_values (_find_input_columns rows) r = Some (inputs task))
          (all_tasks sheet_data)
          (List.filter is_bold_row (after_first_category rows)).
Proof.
  unfold _process_worksheet.
  destruct (for_each _ _ rows) as [st|] eqn:Hrun; [|discriminate]. simpl.
  intros [= <-]. unfold all_tasks. simpl. fold (state_categories st).
  destruct (row_loop_inputs _ _ _ _ Hrun) as (added & Hadded & Heq).
  simpl in Hadded, Heq.
  (* the tasks of the sheet have the names and inputs of the tasks added *)
  revert Heq. generalize (flat_map tasks (state_categories st)) as ts.
  clear -Hadded. intros ts Heq.
  revert ts Heq. induction Hadded as [|a r added rs [Hn Hi] _ IH]; intros ts Heq.
  - destruct ts; [constructor | discriminate].
  - destruct ts as [|t ts]; [discriminate|]. simpl in Heq. injection Heq as Hname Hinputs Hrest.
    constructor; [split; congruence | now apply IH].
Qed.

Lemma extracted_tasks_read_own_row_witness :
  Forall2 (fun task r =>
             task_name task = row_text r /\
             _get_input_values (_find_input_columns early_rows) r = Some (inputs task))
          [mkTask "Check extinguisher" "" [("B2", "no input"); ("C2", "no input")]]
          (List.filter is_bold_row (after_first_category early_rows)).
Proof.
  exact (extracted_tasks_read_own_row 1 early_rows
           (mkSheetData "Sheet 1"
              [mkCategory "Fire Safety"
                 [mkTask "Check extinguisher" ""
                         [("B2", "no input"); ("C2", "no input")]]]) eq_refl).
Defined.

(** ** Extraction: the description of a task *)

Lemma add_description_line (t : Task) (text : string) :
  description (add_description t text) = append_line (description t) text.
Proof. unfold add_description, append_line. now destruct (negb _). Qed.

(** What a row that is neither a category header nor a task row does. *)
Lemma process_row_other (input_cols : list Z) (st st' : parse_state) (r : list Cell) :
  is_category_row r = false -> is_bold_row r = false ->
  process_row input_cols st r = Some st' ->
  (is_blank_row r = true /\ st' = st) \/
  (is_blank_row r = false /\
   ((current_category st = None /\ st' = st) \/
    exists c,
      current_category st = Some c /\
      st' = mkParse (closed st)
              (Some (mkCategory (category_name c)
                       (update_last (fun t => add_description t (row_text r)) (tasks c)))))).
Proof.
  unfold process_row, is_category_row, is_bold_row, is_blank_row, row_text.
  destruct r as [|first_cell rest]; [discriminate|]. simpl.
  destruct (Py.truthy (value first_cell)); simpl; [|intros _ _ [= <-]; now left].
  intros Hcat. rewrite Hcat. simpl. intros Hbold. rewrite Hbold.
  destruct (current_category st) as [c|] eqn:Hcur.
  2: { intros [= <-]. right. split; [reflexivity|]. now left. }
  destruct (tasks c) as [|t ts] eqn:Ht; intros [= <-]; right; (split; [reflexivity|]);
    right; exists c; (split; [reflexivity|]).
  - rewrite Ht. simpl. destruct st as [cl cur]. simpl in *. subst cur.
    destruct c as [n tsk]. simpl in *. now subst tsk.
  - now rewrite Ht.
Qed.

Lemma update_last_snoc {A} (f : A -> A) (l : list A) (t : A) :
  update_last f (l ++ [t]) = l ++ [f t].
Proof.
  induction l as [|a l IH]; [reflexivity|].
  simpl. destruct (l ++ [t]) eqn:E; [destruct l; discriminate|].
  rewrite <- E at 1. now rewrite <- IH, E.
Qed.

Lemma map_description_update_last (f : Task -> Task) (ts : list Task) (t : Task) :
  map description (update_last f (ts ++ [t])) = map description ts ++ [description (f t)].
Proof.
  induction ts as [|a ts IH]; [reflexivity|].
  simpl. destruct (ts ++ [t]) eqn:E; [destruct ts; discriminate|].
  rewrite <- E at 1. simpl. f_equal. rewrite <- IH, E. reflexivity.
Qed.

(** The descriptions the row loop ends with, read off the rows ahead: the
    last task of the current category is still open to the description
    lines that follow. *)
Lemma row_loop_descriptions (input_cols : list Z) (rows : list (list Cell))
    (st st' : parse_state) :
  for_each (process_row input_cols) st rows = Some st' ->
  map description (flat_map tasks (state_categories st'))
  = map description (flat_map tasks (closed st)) ++
    match current_category st with
    | Some c =>
        map description
            (update_last (fun t => mkTask (task_name t)
                                          (foldl append_line (description t)
                                                 (description_lines rows))
                                          (inputs t))
                         (tasks c))
        ++ task_descriptions rows
    | None => task_descriptions (after_first_category rows)
    end.
Proof.
  revert st; induction rows as [|r rows IH]; intros st.
  - simpl. intros [= <-]. unfold state_categories.
    destruct (current_category st) as [c|]; [|now rewrite app_nil_r].
    rewrite flat_map_app, map_app. simpl. rewrite !app_nil_r. f_equal.
    generalize (tasks c) as ts. induction ts as [|a ts IHt]; [reflexivity|].
    destruct ts as [|b ts]; [reflexivity|]. simpl in *. now rewrite <- IHt.
  - cbn [for_each].
    destruct (process_row input_cols st r) as [st1|] eqn:Hstep; [|discriminate].
    intros Hrest. rewrite (IH _ Hrest). clear IH Hrest.
    destruct (is_category_row r) eqn:Hc.
    { (* a category header closes the current category *)
      destruct (process_row_shape _ _ _ _ Hstep) as [[_ ->]|[(Hc' & _)|(Hc' & _)]];
        try congruence.
      assert (Hnb : is_bold_row r = false).
      { unfold is_category_row, is_bold_row in *. destruct r as [|fc rest]; [reflexivity|].
        apply andb_true_iff in Hc as [-> ->]. reflexivity. }
      cbn [closed current_category tasks update_last map app description_lines
           task_descriptions after_first_category].
      rewrite Hc, Hnb. cbn [orb]. unfold state_categories.
      destruct (current_category st) as [c|]; [|reflexivity].
      rewrite flat_map_app, map_app. simpl. rewrite !app_nil_r, <- app_assoc. do 2 f_equal.
      generalize (tasks c) as ts. induction ts as [|a ts IHt]; [reflexivity|].
      destruct ts as [|b ts]; [reflexivity|]. simpl in *. now rewrite <- IHt. }
    destruct (is_bold_row r) eqn:Hb.
    { (* a task row opens a new task *)
      destruct (process_row_shape _ _ _ _ Hstep)
        as [[Hc' _]|[(_ & _ & [[Hcur ->]|(c & values & Hcur & _ & ->)])|(_ & Hb' & _)]];
        try congruence.
      - rewrite Hcur. cbn [after_first_category]. now rewrite Hc.
      - rewrite Hcur. cbn [closed current_category tasks description_lines task_descriptions].
        rewrite Hc, Hb. cbn [orb]. f_equal.
        rewrite map_description_update_last. cbn [description].
        rewrite <- app_assoc. cbn [app]. f_equal.
        generalize (tasks c) as ts. induction ts as [|a ts IHt]; [reflexivity|].
        destruct ts as [|b ts]; [reflexivity|]. simpl in *. now rewrite <- IHt. }
    (* any other row *)
    destruct (process_row_other _ _ _ _ Hc Hb Hstep)
      as [[Hblank ->]|[Hblank [[Hcur ->]|(c & Hcur & ->)]]].
    + cbn [description_lines task_descriptions after_first_category].
      rewrite Hc, Hb, Hblank. cbn [orb]. reflexivity.
    + rewrite Hcur. cbn [after_first_category]. now rewrite Hc.
    + rewrite Hcur. cbn [closed current_category tasks description_lines task_descriptions].
      rewrite Hc, Hb, Hblank. cbn [orb]. do 2 f_equal.
      destruct (tasks c) as [|a ts _] using rev_ind; [reflexivity|].
      rewrite !update_last_snoc, !map_app. cbn [map description foldl].
      now rewrite add_description_line.
Qed.

(** X24. The description of each task of an extracted sheet is made of
    the lines below its row, down to the next row with a bold lead cell:
    the trimmed lead texts of the rows whose lead cell is neither blank nor
    bold, in row order, each joined to what came before by one blank (a
    line joined to an empty description replaces it).  Lines that follow a
    category header before its first task belong to no description. *)
Theorem extracted_descriptions (sheet_number : Z) (rows : list (list Cell))
    (sheet_data : SheetData) :
  _process_worksheet sheet_number rows = Some sheet_data ->
  map description (all_tasks sheet_data) = task_descriptions (after_first_category rows).
Proof.
  unfold _process_worksheet.
  destruct (for_each _ _ rows) as [st|] eqn:Hrun; [|discriminate]. simpl.
  intros [= <-]. unfold all_tasks. simpl. fold (state_categories st).
  exact (row_loop_descriptions _ _ _ _ Hrun).
Qed.

Lemma extracted_descriptions_witness :
  let rows := [ [mkCell (Py.VStr "Fire Safety") "FFFFFF00" true 1 1];
                [mkCell (Py.VStr "stray line") "00000000" false 2 1];
                [mkCell (Py.VStr "Check extinguisher") "00000000" true 3 1];
                [mkCell (Py.VStr " See gauge ") "00000000" false 4 1];
                [mkCell Py.VNone "00000000" false 5 1];
                [mkCell (Py.VStr "and seal") "00000000" false 6 1];
                [mkCell (Py.VStr "Check hose") "00000000" true 7 1] ] in
  map description
      [mkTask "Check extinguisher" "See gauge and seal" []; mkTask "Check hose" "" []]
  = task_descriptions (after_first_category rows).
Proof.
  exact (extracted_descriptions 1
           [ [mkCell (Py.VStr "Fire Safety") "FFFFFF00" true 1 1];
             [mkCell (Py.VStr "stray line") "00000000" false 2 1];
             [mkCell (Py.VStr "Check extinguisher") "00000000" true 3 1];
             [mkCell (Py.VStr " See gauge ") "00000000" false 4 1];
             [mkCell Py.VNone "00000000" false 5 1];
             [mkCell (Py.VStr "and seal") "00000000" false 6 1];
             [mkCell (Py.VStr "Check hose") "00000000" true 7 1] ]
           (mkSheetData "Sheet 1"
              [mkCategory "Fire Safety"
                 [mkTask "Check extinguisher" "See gauge and seal" [];
                  mkTask "Check hose" "" []]]) eq_refl).
Defined.

(** ** Extraction: which tasks a category holds *)

Lemma row_loop_groups (input_cols : list Z) (rows : list (list Cell))
    (st st' : parse_state) :
  for_each (process_row input_cols) st rows = Some st' ->
  map category_outline (state_categories st')
  = map category_outline (closed st) ++
    match current_category st with
    | Some c =>
        [(category_name c,
          map task_name (tasks c)
          ++ map row_text (List.filter is_bold_row (rows_until_category rows)))]
    | None => []
    end ++
    map (fun g => (g.1, map row_text g.2)) (category_groups rows).
Proof.
  revert st; induction rows as [|r rows IH]; intros st.
  - simpl. intros [= <-]. unfold state_categories.
    destruct (current_category st) as [c|]; [|now rewrite !app_nil_r].
    rewrite map_app. simpl. now rewrite !app_nil_r.
  - cbn [for_each].
    destruct (process_row input_cols st r) as [st1|] eqn:Hstep; [|discriminate].
    intros Hrest. rewrite (IH _ Hrest). clear IH Hrest.
    destruct (process_row_shape _ _ _ _ Hstep)
      as [[Hc ->]|[(Hc & Hb & [[Hcur ->]|(c & values & Hcur & _ & ->)])
                  |(Hc & Hb & [->|(c & Hcur & ->)])]];
      cbn [closed current_category tasks category_name rows_until_category category_groups
           map app];
      rewrite Hc.
    + (* a category header *)
      unfold state_categories. cbn [fst snd].
      destruct (current_category st) as [c|]; [|reflexivity].
      rewrite map_app. cbn [map List.filter]. rewrite app_nil_r, <- app_assoc. reflexivity.
    + (* a bold row before the first category *)
      rewrite Hcur. reflexivity.
    + (* a task row *)
      rewrite Hcur. cbn [List.filter]. rewrite Hb.
      rewrite map_app. cbn [map task_name]. rewrite <- app_assoc. reflexivity.
    + (* a row that changes nothing *)
      destruct (current_category st); [|reflexivity].
      cbn [List.filter]. now rewrite Hb.
    + (* a description line *)
      rewrite Hcur. cbn [List.filter]. rewrite Hb.
      now rewrite (update_last_names _ _ (add_description_name _)).
Qed.

(** X25. The categories of an extracted sheet correspond one to one, in
    row order, to the category header rows, and each holds exactly the tasks
    of the task rows between its header and the next category header, in row
    order.  The tasks of the first category, from which the reset pass takes
    its columns, are thus the task rows between the first and the second
    category header. *)
Theorem extracted_grouping (sheet_number : Z) (rows : list (list Cell))
    (sheet_data : SheetData) :
  _process_worksheet sheet_number rows = Some sheet_data ->
  map category_outline (categories sheet_data)
  = map (fun g => (g.1, map row_text g.2)) (category_groups rows).
Proof.
  unfold _process_worksheet.
  destruct (for_each _ _ rows) as [st|] eqn:Hrun; [|discriminate]. simpl.
  intros [= <-]. simpl. fold (state_categories st).
  exact (row_loop_groups _ _ _ _ Hrun).
Qed.

Lemma extracted_grouping_witness :
  map category_outline
      [mkCategory "Fire Safety"
         [mkTask "Check extinguisher" "" [("B2", "no input"); ("C2", "no input")]]]
  = map (fun g => (g.1, map row_text g.2)) (category_groups early_rows).
Proof.
  exact (extracted_grouping 1 early_rows
           (mkSheetData "Sheet 1"
              [mkCategory "Fire Safety"
                 [mkTask "Check extinguisher" ""
                         [("B2", "no input"); ("C2", "no input")]]]) eq_refl).
Defined.
